(** * Megaline plan recommendation notebook: a shallow embedding

    The notebook [megalineMLFinal.ipynb] is a straight-line Python program:
    an import cell and seven code cells that share one global namespace,
    print to the console and call pandas / scikit-learn.  The embedding
    keeps that shape:

    - the namespace is a finite map from names to values and holds the
      variables the code cells assign, so that a read of an unbound variable
      raises [NameError] exactly where Python does.  The names the cells
      call but never assign -- the builtins [print] and [range] and the
      names of the import cell ([pd], the three estimator classes,
      [accuracy_score], [train_test_split]) -- are not entries of the map:
      the embedding is that of a kernel in which the import cell has run
      and none of these names has been rebound ([called_names],
      [unshadowed]);
    - every cell is a computation in a state-and-exception monad over the
      namespace and the console;
    - the third-party calls whose result is decided by data or by a learning
      algorithm ([pd.read_csv], [DataFrame.info], [fit], [predict], the
      seeded shuffle) are fields of a [Library] record; the calls whose result
      is arithmetic ([train_test_split] sizes, [accuracy_score], the
      comparison against 0.5) are written out.

    Python floats are modelled by rationals.  The program compares floats
    in two places: accuracies [k / n] over one partition (same [n]) with
    each other and with 0, and regression scores with the literal 0.5; on
    these the rational order and the float order agree, and the accuracies
    are kept as exact fractions.  It multiplies floats in one place, the
    three size lines of the split cell, and there the literals and the
    products are rounded to binary64 ([float], [float_mul]). *)

From Stdlib Require Import ZArith QArith Qround Lia Sorted.
From stdpp Require Import gmap strings list fin_maps.

Local Open Scope string_scope.

(** ** Values, exceptions, program state *)

(** pandas DataFrame: named columns over rows of numeric cells. *)
Record DataFrame := mkFrame {
  df_columns : list string;
  df_rows : list (list Q)
}.

(** pandas Series / numpy vector. *)
Abbreviation Series := (list Q).

(** The three estimator constructors the notebook calls. *)
Inductive estimator :=
| DecisionTreeClassifier (random_state max_depth : Z)
| RandomForestClassifier (random_state n_estimators max_depth : Z)
| LinearRegression.

(** An estimator object: its configuration and, once [fit] has run, the data
    it was fitted on.  With a fixed [random_state] the fitted parameters are a
    function of exactly these. *)
Record model := mkModel {
  m_est : estimator;
  m_fit : option (DataFrame * Series)
}.

Inductive value :=
| VInt (z : Z)
| VFloat (q : Q)
| VStr (s : string)
| VFrame (d : DataFrame)
| VSeries (y : Series)
| VModel (m : model).

Inductive exn :=
| FileNotFoundError
| ParserError
| KeyError (k : string)
| ValueError (msg : string)
| IndexError
| NotFittedError
| NameError (x : string)
| TypeError.

Inductive result (A : Type) :=
| Ok (a : A)
| Raise (e : exn).
Arguments Ok {A} a.
Arguments Raise {A} e.

(** One console line is the list of the arguments given to [print]. *)
Abbreviation line := (list value).

Record state := mkState {
  globals : gmap string value;
  stdout : list line
}.

Definition M (A : Type) : Type := state -> result A * state.

#[global] Instance M_ret : MRet M := fun A a s => (Ok a, s).
#[global] Instance M_bind : MBind M := fun A B f m s =>
  match m s with
  | (Ok a, s') => f a s'
  | (Raise e, s') => (Raise e, s')
  end.

Notation "m1 ;; m2" := (mbind (fun _ => m2) m1)
  (at level 100, m2 at level 200, right associativity) : stdpp_scope.

Definition lift {A} (r : result A) : M A := fun s => (r, s).
Definition raise {A} (e : exn) : M A := lift (Raise e).

(** [x = v] *)
Definition assign (x : string) (v : value) : M unit := fun s =>
  (Ok tt, mkState (<[x := v]> (globals s)) (stdout s)).

(** Reading the name [x]. *)
Definition name (x : string) : M value := fun s =>
  match globals s !! x with
  | Some v => (Ok v, s)
  | None => (Raise (NameError x), s)
  end.

(** [print(a1, ..., an)] *)
Definition print (args : line) : M unit := fun s =>
  (Ok tt, mkState (globals s) (stdout s ++ [args])).

Definition emit (ls : list line) : M unit := fun s =>
  (Ok tt, mkState (globals s) (stdout s ++ ls)).

Definition as_frame (v : value) : M DataFrame :=
  match v with VFrame d => mret d | _ => raise TypeError end.
Definition as_series (v : value) : M Series :=
  match v with VSeries y => mret y | _ => raise TypeError end.
Definition as_model (v : value) : M model :=
  match v with VModel m => mret m | _ => raise TypeError end.
Definition as_int (v : value) : M Z :=
  match v with VInt z => mret z | _ => raise TypeError end.

(** Numeric value of an int or a float. *)
Definition num_of (v : value) : option Q :=
  match v with
  | VInt z => Some (inject_Z z)
  | VFloat q => Some q
  | _ => None
  end.

Definition Qgt_bool (x y : Q) : bool := negb (Qle_bool x y).

(** [a > b] on numbers. *)
Definition py_gt (a b : value) : M bool :=
  match num_of a, num_of b with
  | Some x, Some y => mret (Qgt_bool x y)
  | _, _ => raise TypeError
  end.

(** [range(start, stop, step)] for a positive step. *)
Definition range (start stop step : Z) : list Z :=
  (fun i : nat => (start + Z.of_nat i * step)%Z)
    <$> seq 0 (Z.to_nat ((stop - start + step - 1) / step)).

(** [for x in cands: body] *)
Fixpoint for_in (x : string) (cands : list Z) (body : M unit) : M unit :=
  match cands with
  | [] => mret tt
  | c :: cs => assign x (VInt c);; body;; for_in x cs body
  end.

(** ** Float arithmetic

    [binade q] is the exponent [e] with [2^e <= q < 2^(e+1)] of a positive
    rational, [float q] the binary64 number nearest to [q] (53 significant
    bits, ties to the even significand); exponents stay far from the
    subnormal and overflow ranges for the numbers the notebook forms. *)
Definition binade (q : Q) : Z :=
  let e := (Z.log2 (Qnum q) - Z.log2 (Zpos (Qden q)))%Z in
  if Qle_bool (Qpower 2 e) q then e else (e - 1)%Z.

Definition round_half_even (q : Q) : Z :=
  let f := Qfloor q in
  match (q - inject_Z f ?= 1 # 2)%Q with
  | Lt => f
  | Gt => (f + 1)%Z
  | Eq => if Z.even f then f else (f + 1)%Z
  end.

Definition float_positive (q : Q) : Q :=
  let e := binade q in
  inject_Z (round_half_even (q * Qpower 2 (52 - e))) * Qpower 2 (e - 52).

Definition float (q : Q) : Q :=
  match (q ?= 0)%Q with
  | Eq => 0
  | Gt => float_positive q
  | Lt => - float_positive (- q)
  end.

(** [a * b] on two floats. *)
Definition float_mul (a b : Q) : Q := float (a * b).

(** ** The third-party library

    The calls whose outcome depends on the file system, on the data or on a
    learning algorithm.  Each may raise. *)
Record Library := mkLibrary {
  (** [pd.read_csv(path)] *)
  read_csv : string -> result DataFrame;
  (** the lines [DataFrame.info()] prints *)
  info : DataFrame -> list line;
  (** [RandomState(seed).permutation(n)], the shuffle behind
      [train_test_split] *)
  permutation : Z -> nat -> list nat;
  (** input validation and training of [estimator.fit(X, y)] *)
  fit : estimator -> DataFrame -> Series -> result unit;
  (** [predict(X)] of the estimator fitted on the given data *)
  predict : estimator -> DataFrame * Series -> DataFrame -> result Series
}.

(** The one law the split relies on: a shuffle of [n] rows is a
    permutation of their positions. *)
Definition shuffles (lib : Library) : Prop :=
  forall seed n, permutation lib seed n ≡ₚ seq 0 n.

(** ** pandas and scikit-learn calls that are plain arithmetic

    The two column operations are those of pandas on a frame whose column
    names are distinct, as [read_csv] produces them (it renames a repeated
    header).  On such a frame the first column named [c] is the only one. *)

Definition column_index (c : string) (d : DataFrame) : option nat :=
  fst <$> list_find (fun c' => c' = c) (df_columns d).

(** [d.drop([c], axis=1)] *)
Definition df_drop (c : string) (d : DataFrame) : result DataFrame :=
  match column_index c d with
  | Some i => Ok (mkFrame (delete i (df_columns d)) (delete i <$> df_rows d))
  | None => Raise (KeyError c)
  end.

(** [d[c]] *)
Definition df_getitem (c : string) (d : DataFrame) : result Series :=
  match column_index c d with
  | Some i =>
      match mapM (fun row : list Q => row !! i) (df_rows d) with
      | Some y => Ok y
      | None => Raise (KeyError c)
      end
  | None => Raise (KeyError c)
  end.

(** [d.shape[0]] *)
Definition n_rows (d : DataFrame) : nat := length (df_rows d).

(** Positional selection of rows ([iloc]). *)
Definition take_rows {A} (idx : list nat) (l : list A) : result (list A) :=
  match mapM (fun i => l !! i) idx with
  | Some l' => Ok l'
  | None => Raise IndexError
  end.

(** [train_test_split(X, y, test_size=t, random_state=seed)] with a
    fractional [test_size] and no [train_size]:
    [n_test = ceil(t * n)], [n_train = n - n_test], an empty training
    part is an error, the first [n_test] positions of the shuffle are the
    test part and the next [n_train] the training part.
    Returns [(X_train, X_test, y_train, y_test)].
    The product [t * n] is taken in exact rationals; for the two sizes
    used, 0.20 and 0.25, the float product has the same ceiling. *)
Definition train_test_split (lib : Library) (X : DataFrame) (y : Series)
    (test_size : Q) (seed : Z)
  : result (DataFrame * DataFrame * Series * Series) :=
  let n := n_rows X in
  if negb (length y =? n)%nat then
    Raise (ValueError "inconsistent numbers of samples")
  else
    let n_test := Z.to_nat (Qceiling (test_size * inject_Z (Z.of_nat n))) in
    let n_train := (n - n_test)%nat in
    if (n_train =? 0)%nat then
      Raise (ValueError "the resulting train set will be empty")
    else
      let p := permutation lib seed n in
      let ind_test := take n_test p in
      let ind_train := take n_train (drop n_test p) in
      match take_rows ind_train (df_rows X), take_rows ind_test (df_rows X),
            take_rows ind_train y, take_rows ind_test y with
      | Ok Xtr, Ok Xte, Ok ytr, Ok yte =>
          Ok (mkFrame (df_columns X) Xtr, mkFrame (df_columns X) Xte, ytr, yte)
      | _, _, _, _ => Raise IndexError
      end.

(** Number of positions at which the two vectors hold the same label. *)
Fixpoint count_correct (y_true y_pred : Series) : nat :=
  match y_true, y_pred with
  | t :: ts, p :: ps =>
      ((if Qeq_bool t p then 1 else 0) + count_correct ts ps)%nat
  | _, _ => 0%nat
  end.

(** A class label: a number without fractional part.  scikit-learn takes
    a vector of such numbers for binary or multiclass targets and any other
    numeric vector for continuous ones. *)
Definition is_label (q : Q) : bool := (Qnum q mod Zpos (Qden q) =? 0)%Z.

(** [accuracy_score(y_true, y_pred)]: the fraction of positions predicted
    correctly.  Vectors of different lengths are rejected, and so are
    vectors that do not hold class labels (continuous targets); the fraction
    over no rows at all is undefined and is modelled as an error (the
    notebook never scores an empty partition: the split rejects one). *)
Definition accuracy_score (y_true y_pred : Series) : result Q :=
  if negb (length y_true =? length y_pred)%nat then
    Raise (ValueError "inconsistent numbers of samples")
  else if negb (forallb is_label y_true && forallb is_label y_pred) then
    Raise (ValueError "continuous targets are not supported")
  else
    match length y_true with
    | O => Raise (ValueError "no samples")
    | S n' => Ok (Z.of_nat (count_correct y_true y_pred) # Pos.of_succ_nat n')
    end.

(** [(p > t).astype(int)] on a vector. *)
Definition threshold (t : Q) (p : Q) : Z := if Qgt_bool p t then 1%Z else 0%Z.
Definition binarize (t : Q) (ps : Series) : Series :=
  (fun p => inject_Z (threshold t p)) <$> ps.

(** ** The notebook's cells *)

Section Notebook.
Context (lib : Library).

(** The three calls every evaluation in the notebook makes once its
    estimator is constructed:
<<
    m.fit(features_train, target_train)
    ... = m.predict(X)
    ... = accuracy_score(y_true, y_pred)
>>
    [fit] mutates the estimator object held by [m]; the arguments of the
    other two are read from the names given. *)
Definition method_fit (m : string) : M unit :=
  v ← name m; obj ← as_model v;
  v ← name "features_train"; X ← as_frame v;
  v ← name "target_train"; y ← as_series v;
  lift (fit lib (m_est obj) X y);;
  assign m (VModel (mkModel (m_est obj) (Some (X, y)))).

Definition method_predict (m : string) (X : string) : M Series :=
  v ← name m; obj ← as_model v;
  v ← name X; X ← as_frame v;
  match m_fit obj with
  | Some trained => lift (predict lib (m_est obj) trained X)
  | None => raise NotFittedError
  end.

Definition call_accuracy_score (y_true y_pred : string) : M Q :=
  v ← name y_true; t ← as_series v;
  v ← name y_pred; p ← as_series v;
  lift (accuracy_score t p).

(** Cell 2:
<<
    data = pd.read_csv('/datasets/users_behavior.csv')
    data.info()
>> *)
Definition load_cell : M unit :=
  d ← lift (read_csv lib "/datasets/users_behavior.csv");
  assign "data" (VFrame d);;
  v ← name "data"; d ← as_frame v;
  emit (info lib d).

(** Cell 3: the two-stage split.  The second number of each size line is
    the float product [3214 * 0.6] or [3214 * 0.2] of the source. *)
Definition split_cell : M unit :=
  (* features = data.drop(['is_ultra'], axis=1) *)
  v ← name "data"; d ← as_frame v;
  features ← lift (df_drop "is_ultra" d);
  assign "features" (VFrame features);;
  (* target = data['is_ultra'] *)
  v ← name "data"; d ← as_frame v;
  target ← lift (df_getitem "is_ultra" d);
  assign "target" (VSeries target);;
  (* 80% training / val and 20% test *)
  v ← name "features"; X ← as_frame v;
  v ← name "target"; y ← as_series v;
  '(Xtv, Xte, ytv, yte) ← lift (train_test_split lib X y (20 # 100) 12345);
  assign "features_train_val" (VFrame Xtv);;
  assign "features_test" (VFrame Xte);;
  assign "target_train_val" (VSeries ytv);;
  assign "target_test" (VSeries yte);;
  (* 60% Training and 20% val *)
  v ← name "features_train_val"; X ← as_frame v;
  v ← name "target_train_val"; y ← as_series v;
  '(Xtr, Xva, ytr, yva) ← lift (train_test_split lib X y (25 # 100) 12345);
  assign "features_train" (VFrame Xtr);;
  assign "features_valid" (VFrame Xva);;
  assign "target_train" (VSeries ytr);;
  assign "target_valid" (VSeries yva);;
  v ← name "features_train"; X ← as_frame v;
  print [VStr "Training Size:"; VInt (Z.of_nat (n_rows X));
         VFloat (float_mul 3214 (float (6 # 10)))];;
  v ← name "features_valid"; X ← as_frame v;
  print [VStr "Validation Size:"; VInt (Z.of_nat (n_rows X));
         VFloat (float_mul 3214 (float (2 # 10)))];;
  v ← name "features_test"; X ← as_frame v;
  print [VStr "Test Size:"; VInt (Z.of_nat (n_rows X));
         VFloat (float_mul 3214 (float (2 # 10)))].

(** Cell 4: the decision-tree sweep. *)
Definition decision_tree_body : M unit :=
  (* model = DecisionTreeClassifier(random_state=12345, max_depth=depth) *)
  v ← name "depth"; depth ← as_int v;
  assign "model" (VModel (mkModel (DecisionTreeClassifier 12345 depth) None));;
  method_fit "model";;
  p ← method_predict "model" "features_valid";
  assign "predictions_valid" (VSeries p);;
  a ← call_accuracy_score "target_valid" "predictions_valid";
  assign "accuracy" (VFloat a);;
  (* print('max_depth =', best_depth, ': ', accuracy) *)
  best_depth ← name "best_depth"; accuracy ← name "accuracy";
  print [VStr "max_depth ="; best_depth; VStr ": "; accuracy];;
  (* if accuracy > best_accuracy: *)
  accuracy ← name "accuracy"; best_accuracy ← name "best_accuracy";
  b ← py_gt accuracy best_accuracy;
  if b : bool then
    v ← name "accuracy"; assign "best_accuracy" v;;
    v ← name "depth"; assign "best_depth" v
  else mret tt.

Definition decision_tree_cell : M unit :=
  assign "best_accuracy" (VInt 0);;
  assign "best_depth" (VInt 0);;
  for_in "depth" (range 1 6 1) decision_tree_body;;
  print [];;
  print [VStr "Best Paramaters"];;
  best_depth ← name "best_depth"; best_accuracy ← name "best_accuracy";
  print [VStr "max_depth ="; best_depth; VStr ":"; best_accuracy].

(** Cells 5 and 6: the random-forest sweeps; they differ in the range
    only. *)
Definition random_forest_body : M unit :=
  (* model = RandomForestClassifier(random_state=12345, n_estimators=est,
                                    max_depth=depth) *)
  v ← name "est"; est ← as_int v;
  v ← name "depth"; depth ← as_int v;
  assign "model"
    (VModel (mkModel (RandomForestClassifier 12345 est depth) None));;
  method_fit "model";;
  p ← method_predict "model" "features_valid";
  assign "predictions_valid" (VSeries p);;
  a ← call_accuracy_score "target_valid" "predictions_valid";
  assign "accuracy" (VFloat a);;
  (* print('Estimators : ', est, ': ', accuracy) *)
  est ← name "est"; accuracy ← name "accuracy";
  print [VStr "Estimators : "; est; VStr ": "; accuracy];;
  (* if accuracy > best_accuracy: *)
  accuracy ← name "accuracy"; best_accuracy ← name "best_accuracy";
  b ← py_gt accuracy best_accuracy;
  if b : bool then
    v ← name "est"; assign "best_est" v;;
    v ← name "accuracy"; assign "best_accuracy" v
  else mret tt.

Definition random_forest_cell (candidates : list Z) : M unit :=
  assign "best_accuracy" (VInt 0);;
  assign "best_estimators" (VInt 0);;
  assign "depth" (VInt 3);;
  for_in "est" candidates random_forest_body;;
  print [];;
  print [VStr "Best Parameters"];;
  best_est ← name "best_est"; best_accuracy ← name "best_accuracy";
  print [VStr "Estimators:"; best_est; VStr ":"; best_accuracy].

(** Cell 7: linear regression cut at 0.5. *)
Definition linear_regression_cell : M unit :=
  assign "model" (VModel (mkModel LinearRegression None));;
  method_fit "model";;
  p ← method_predict "model" "features_valid";
  assign "predictions_valid" (VSeries p);;
  (* predictions_binary = (predictions_valid > 0.5).astype(int) *)
  v ← name "predictions_valid"; p ← as_series v;
  assign "predictions_binary" (VSeries (binarize (5 # 10) p));;
  a ← call_accuracy_score "target_valid" "predictions_binary";
  assign "accuracy" (VFloat a);;
  accuracy ← name "accuracy";
  print [VStr "Accuracy:"; accuracy].

(** Cell 8: the chosen configuration on the test partition. *)
Definition test_model_cell : M unit :=
  assign "best_model"
    (VModel (mkModel (RandomForestClassifier 12345 15 3) None));;
  method_fit "best_model";;
  p ← method_predict "best_model" "features_test";
  assign "predictions_test" (VSeries p);;
  a ← call_accuracy_score "target_test" "predictions_test";
  assign "accuracy_test" (VFloat a);;
  accuracy_test ← name "accuracy_test";
  print [VStr "Test Accuracy:"; accuracy_test].

(** The code cells in document order, the import cell excepted (it has
    run: see [called_names]): the load, the split, and the five cells that
    use the partitions. *)
Definition later_cells : list (M unit) :=
  [ decision_tree_cell;
    random_forest_cell (range 10 51 10); random_forest_cell (range 1 21 1);
    linear_regression_cell; test_model_cell ].

Definition cells : list (M unit) :=
  load_cell :: split_cell :: later_cells.

(** Running cells top to bottom: the first exception stops the run. *)
Fixpoint run_cells (cs : list (M unit)) : M unit :=
  match cs with
  | [] => mret tt
  | c :: cs' => c;; run_cells cs'
  end.

Definition notebook : M unit := run_cells cells.

End Notebook.

(** The names the code cells call and never assign: two builtins and the
    names the import cell binds.  They are no entries of the namespace of
    the embedding; a state stands for a kernel in which they hold what
    Python and the import cell give them. *)
Definition called_names : list string :=
  [ "print"; "range"; "pd"; "DecisionTreeClassifier";
    "RandomForestClassifier"; "LinearRegression"; "accuracy_score";
    "train_test_split" ].

(** No variable of the namespace hides one of the called names. *)
Definition unshadowed (s : state) : Prop :=
  forall x, x ∈ called_names -> globals s !! x = None.

(** A kernel in which the import cell alone has run: none of the
    notebook's variables bound, nothing printed. *)
Definition fresh : state := mkState ∅ [].

(** ** Vocabulary of the statements *)

(** The six partition variables as the split cell leaves them. *)
Record partitions := mkPartitions {
  features_train : DataFrame;
  target_train : Series;
  features_valid : DataFrame;
  target_valid : Series;
  features_test : DataFrame;
  target_test : Series
}.

Definition bound (P : partitions) (g : gmap string value) : Prop :=
  g !! "features_train" = Some (VFrame (features_train P)) /\
  g !! "target_train" = Some (VSeries (target_train P)) /\
  g !! "features_valid" = Some (VFrame (features_valid P)) /\
  g !! "target_valid" = Some (VSeries (target_valid P)) /\
  g !! "features_test" = Some (VFrame (features_test P)) /\
  g !! "target_test" = Some (VSeries (target_test P)).

Definition partition_names : list string :=
  [ "features_train"; "target_train"; "features_valid"; "target_valid";
    "features_test"; "target_test" ].

(** What one evaluation computes: fit on the training partition, predict
    the rows [X], score against [y].  A function of the configuration and
    the partitions alone. *)
Definition evaluate (lib : Library) (P : partitions) (e : estimator)
    (post : Series -> Series) (X : DataFrame) (y : Series) : result Q :=
  match fit lib e (features_train P) (target_train P) with
  | Raise ex => Raise ex
  | Ok _ =>
      match predict lib e (features_train P, target_train P) X with
      | Raise ex => Raise ex
      | Ok p => accuracy_score y (post p)
      end
  end.

Definition validation_accuracy lib P e : result Q :=
  evaluate lib P e id (features_valid P) (target_valid P).

Definition test_accuracy lib P e : result Q :=
  evaluate lib P e id (features_test P) (target_test P).

(** The best-seen bookkeeping of a sweep, on the accuracies alone:
    [best] is the running best accuracy, [sel] the candidate it came from
    ([None] while no candidate has replaced the initial value). *)
Fixpoint best_seen (acc : Z -> Q) (cands : list Z) (best : Q) (sel : option Z)
  : Q * option Z :=
  match cands with
  | [] => (best, sel)
  | c :: cs =>
      if Qgt_bool (acc c) best then best_seen acc cs (acc c) (Some c)
      else best_seen acc cs best sel
  end.

(** [c] is the first candidate of [cands] whose accuracy is the maximum. *)
Definition first_maximum (acc : Z -> Q) (cands : list Z) (c : Z) : Prop :=
  exists before after,
    cands = (before ++ c :: after)%list /\
    (forall c', c' ∈ before -> (acc c' < acc c)%Q) /\
    (forall c', c' ∈ after -> (acc c' <= acc c)%Q).

(** [b] is the maximum of the candidates' accuracies. *)
Definition maximum (acc : Z -> Q) (cands : list Z) (b : Q) : Prop :=
  (exists c, c ∈ cands /\ (acc c == b)%Q) /\
  (forall c, c ∈ cands -> (acc c <= b)%Q).

(** The value a name holds, as a number. *)
Definition number (g : gmap string value) (x : string) : option Q :=
  g !! x ≫= num_of.

Definition unit_interval (q : Q) : Prop := (0 <= q)%Q /\ (q <= 1)%Q.

(** The values the two tracked names hold once a sweep has made the
    selection [sel]: [init] is what the name held (if anything) before the
    loop. *)
Definition best_value (acc : Z -> Q) (init : value) (sel : option Z) : value :=
  match sel with
  | Some c => VFloat (acc c)
  | None => init
  end.

Definition selected (init : option value) (sel : option Z) : option value :=
  match sel with
  | Some c => Some (VInt c)
  | None => init
  end.

(** The per-candidate console lines of the two sweeps. *)
Fixpoint decision_tree_lines (acc : Z -> Q) (cands : list Z) (best : Q)
    (best_depth : value) : list line :=
  match cands with
  | [] => []
  | c :: cs =>
      [VStr "max_depth ="; best_depth; VStr ": "; VFloat (acc c)]
      :: (if Qgt_bool (acc c) best
          then decision_tree_lines acc cs (acc c) (VInt c)
          else decision_tree_lines acc cs best best_depth)
  end.

Definition random_forest_lines (acc : Z -> Q) (cands : list Z) : list line :=
  (fun c => [VStr "Estimators : "; VInt c; VStr ": "; VFloat (acc c)])
    <$> cands.

(** The number of rows a fractional [test_size] sets aside. *)
Definition n_test_of (t : Q) (n : nat) : nat :=
  Z.to_nat (Qceiling (t * inject_Z (Z.of_nat n))).

(** What the split cell computes from the loaded frame: the two-stage
    split as one function of the library and the data. *)
Definition split_of (lib : Library) (d : DataFrame) : result partitions :=
  match df_drop "is_ultra" d, df_getitem "is_ultra" d with
  | Ok X, Ok y =>
      match train_test_split lib X y (20 # 100) 12345 with
      | Ok (Xtv, Xte, ytv, yte) =>
          match train_test_split lib Xtv ytv (25 # 100) 12345 with
          | Ok (Xtr, Xva, ytr, yva) => Ok (mkPartitions Xtr ytr Xva yva Xte yte)
          | Raise e => Raise e
          end
      | Raise e => Raise e
      end
  | Raise e, _ => Raise e
  | _, Raise e => Raise e
  end.

(** The state a fresh run reaches once the load and the split are done,
    and the partitions it then holds (empty ones if either failed). *)
Definition after_split (lib : Library) : state :=
  (run_cells [load_cell lib; split_cell lib] fresh).2.

Definition split_parts (lib : Library) : partitions :=
  match read_csv lib "/datasets/users_behavior.csv" with
  | Ok d =>
      match split_of lib d with
      | Ok P => P
      | Raise _ =>
          mkPartitions (mkFrame [] []) [] (mkFrame [] []) [] (mkFrame [] []) []
      end
  | Raise _ =>
      mkPartitions (mkFrame [] []) [] (mkFrame [] []) [] (mkFrame [] []) []
  end.

(** ** The recorded run

    A library instance that replays the outcomes stored in the notebook's
    cell outputs: a frame of 3214 rows and, for every configuration the
    notebook evaluates, the number of correct predictions behind the printed
    accuracy (each printed accuracy is the double nearest [k / 643]).  It
    is a replay and no learner: the data file and scikit-learn's training
    are not part of the repository, [predictions] ignores the training data
    and answers with the recorded number of correct rows.  It serves to run
    the cells at the sizes and accuracies of the recorded run. *)
Module Recorded.

Definition dataset : DataFrame :=
  mkFrame ["calls"; "minutes"; "messages"; "mb_used"; "is_ultra"]
    ((fun i : nat => [inject_Z (Z.of_nat i); 0%Q; 0%Q; 0%Q; 0%Q])
       <$> seq 0 3214).

Definition info_lines : list line :=
  (fun s => [VStr s]) <$>
  [ "<class 'pandas.core.frame.DataFrame'>";
    "RangeIndex: 3214 entries, 0 to 3213";
    "Data columns (total 5 columns):";
    " #   Column    Non-Null Count  Dtype  ";
    "---  ------    --------------  -----  ";
    " 0   calls     3214 non-null   float64";
    " 1   minutes   3214 non-null   float64";
    " 2   messages  3214 non-null   float64";
    " 3   mb_used   3214 non-null   float64";
    " 4   is_ultra  3214 non-null   int64  ";
    "dtypes: float64(4), int64(1)";
    "memory usage: 125.7 KB" ].

(** Correct predictions out of the 643 validation rows. *)
Definition decision_tree_correct : list nat := [475; 487; 492; 491; 488]%nat.

Definition random_forest_correct : list nat :=
  [ 487; 487; 489; 489; 489; 492; 494; 495; 494; 496;
    498; 494; 498; 495; 500; 494; 497; 495; 497; 496 ]%nat.

Definition correct_valid (e : estimator) : nat :=
  match e with
  | DecisionTreeClassifier _ d =>
      default 0%nat (decision_tree_correct !! (Z.to_nat d - 1)%nat)
  | RandomForestClassifier _ 30 _ => 495%nat
  | RandomForestClassifier _ 40 _ => 496%nat
  | RandomForestClassifier _ 50 _ => 493%nat
  | RandomForestClassifier _ n _ =>
      default 0%nat (random_forest_correct !! (Z.to_nat n - 1)%nat)
  | LinearRegression => 469%nat
  end.

(** Correct predictions out of the 643 test rows (only the final
    configuration is ever scored there). *)
Definition correct_test (e : estimator) : nat := 504%nat.

(** Every label of [dataset] is 0: a prediction is correct when it
    is 0 (a score below the cut for the regression). *)
Definition right (e : estimator) : Q :=
  match e with LinearRegression => 25 # 100 | _ => 0 end.
Definition wrong (e : estimator) : Q :=
  match e with LinearRegression => 75 # 100 | _ => 1 end.

Definition is_test (X : DataFrame) : bool :=
  match df_rows X with
  | (i :: _) :: _ => Qle_bool i 642
  | _ => false
  end.

Definition predictions (e : estimator) (tr : DataFrame * Series)
    (X : DataFrame) : result Series :=
  let k := if is_test X then correct_test e else correct_valid e in
  Ok (replicate k (right e) ++ replicate (n_rows X - k) (wrong e))%list.

Definition library : Library :=
  mkLibrary (fun _ => Ok dataset) (fun _ => info_lines)
    (fun _ n => seq 0 n) (fun _ _ _ => Ok tt) predictions.

(** The partitions of the recorded run, evaluated once. *)
Definition parts : partitions := Eval vm_compute in split_parts library.

End Recorded.

(** [m], started in a state satisfying [I], ends in one satisfying [I]
    whether it returns or raises, and what it returns satisfies [φ]. *)
Definition yields {A} (I : state -> Prop) (m : M A) (φ : A -> Prop) : Prop :=
  forall s, I s -> I (m s).2 /\ forall a, (m s).1 = Ok a -> φ a.




(** The partition names hold in [s] what they hold in [g0]. *)
Definition keeps (g0 : gmap string value) (s : state) : Prop :=
  forall x, x ∈ partition_names -> globals s !! x = g0 !! x.

(** ** Small libraries for concrete runs

    A frame of [n] rows whose labels are all 0, a reversing shuffle, and a
    predictor that answers the same label [answer e] on every row: 0 is
    right everywhere, 1 wrong everywhere. *)
Module Small.

Definition dataset (n : nat) : DataFrame :=
  mkFrame ["calls"; "minutes"; "messages"; "mb_used"; "is_ultra"]
    ((fun i : nat => [inject_Z (Z.of_nat i); 0%Q; 0%Q; 0%Q; 0%Q])
       <$> seq 0 n).

Definition library (n : nat) (answer : estimator -> Q) : Library :=
  mkLibrary (fun _ => Ok (dataset n)) (fun _ => [])
    (fun _ n => reverse (seq 0 n)) (fun _ _ _ => Ok tt)
    (fun e _ X => Ok ((fun _ => answer e) <$> df_rows X)).

(** Frames of seven and of two rows. *)
Definition seven_rows : Library := library 7 (fun _ => 0%Q).
Definition two_rows : Library := library 2 (fun _ => 0%Q).

(** Every configuration is wrong on every row. *)
Definition all_wrong : Library := library 10 (fun _ => 1%Q).

(** Forests of at most 20 trees are wrong on every row, larger ones and
    the other estimators right on every row. *)
Definition small_forests_wrong : Library :=
  library 10 (fun e =>
    match e with
    | RandomForestClassifier _ n _ => if (n <=? 20)%Z then 1%Q else 0%Q
    | _ => 0%Q
    end).

(** Trees of depth 3 and 4 and the forest of 15 trees are right on every
    row, every other tree and forest wrong on every row. *)
Definition graded : Library :=
  library 10 (fun e =>
    match e with
    | DecisionTreeClassifier _ d =>
        if ((3 <=? d) && (d <=? 4))%Z then 0%Q else 1%Q
    | RandomForestClassifier _ n _ => if (n =? 15)%Z then 0%Q else 1%Q
    | LinearRegression => 0%Q
    end).

Definition graded_tree (d : Z) : Q :=
  if ((3 <=? d) && (d <=? 4))%Z then 2 # 2 else 0 # 2.
Definition graded_forest (n : Z) : Q :=
  if (n =? 15)%Z then 2 # 2 else 0 # 2.

(** A file with one feature column instead of the documented four. *)
Definition one_feature : Library :=
  mkLibrary
    (fun _ => Ok (mkFrame ["minutes"; "is_ultra"]
                    ((fun i : nat => [inject_Z (Z.of_nat i); 0%Q])
                       <$> seq 0 10)))
    (fun _ => [])
    (fun _ n => reverse (seq 0 n)) (fun _ _ _ => Ok tt)
    (fun _ _ X => Ok ((fun _ => 0%Q) <$> df_rows X)).

(** The data file does not exist. *)
Definition missing_file : Library :=
  mkLibrary (fun _ => Raise FileNotFoundError) (fun _ => [])
    (fun _ n => reverse (seq 0 n)) (fun _ _ _ => Ok tt)
    (fun _ _ _ => Ok []).

(** The regression scores exactly 0.5 on every row. *)
Definition on_the_cut : Library := library 10 (fun _ => 5 # 10).

End Small.

(** A per-candidate line of the decision-tree sweep for candidate [c]:
    the label it carries is some depth [d] below [c]. *)
Definition labelled_below (acc : Z -> Q) (c : Z) (l : line) : Prop :=
  exists d, l = [VStr "max_depth ="; VInt d; VStr ": "; VFloat (acc c)] /\
            (d < c)%Z.

(** The number of rows of the frame a name holds. *)
Definition rows_of (s : state) (x : string) : option nat :=
  match globals s !! x with
  | Some (VFrame d) => Some (n_rows d)
  | _ => None
  end.

(** ** Footprints

    The names each cell assigns, in the order of their first assignment. *)
Definition load_writes : list string := ["data"].

Definition split_writes : list string :=
  [ "features"; "target";
    "features_train_val"; "features_test"; "target_train_val"; "target_test";
    "features_train"; "features_valid"; "target_train"; "target_valid" ].

Definition decision_tree_writes : list string :=
  [ "best_accuracy"; "best_depth"; "depth"; "model"; "predictions_valid";
    "accuracy" ].

Definition random_forest_writes : list string :=
  [ "best_accuracy"; "best_estimators"; "depth"; "est"; "model";
    "predictions_valid"; "accuracy"; "best_est" ].

(** The names the body of a sweep assigns: the loop variable is not one
    of them. *)
Definition decision_tree_body_writes : list string :=
  [ "model"; "predictions_valid"; "accuracy"; "best_accuracy"; "best_depth" ].

Definition random_forest_body_writes : list string :=
  [ "model"; "predictions_valid"; "accuracy"; "best_est"; "best_accuracy" ].

Definition linear_regression_writes : list string :=
  [ "model"; "predictions_valid"; "predictions_binary"; "accuracy" ].

Definition test_model_writes : list string :=
  [ "best_model"; "predictions_test"; "accuracy_test" ].

Definition notebook_writes : list string :=
  load_writes ++ split_writes ++ decision_tree_writes ++ random_forest_writes
    ++ linear_regression_writes ++ test_model_writes.

(** Every name outside [W] holds in [s'] what it holds in [s]. *)
Definition unchanged_outside (W : list string) (s s' : state) : Prop :=
  forall x, x ∉ W -> globals s' !! x = globals s !! x.

(** Two namespaces hold the same value (or both nothing) under every name
    that satisfies [K]. *)
Definition agree (K : string -> Prop) (s1 s2 : state) : Prop :=
  forall x, K x -> globals s1 !! x = globals s2 !! x.

(** [m] cannot tell apart two states that agree on [K]: it returns the same
    value or raises the same exception, prints the same lines, and, when it
    returns, leaves states that agree on [K']. *)
Definition same_run {A} (K K' : string -> Prop) (m : M A) : Prop :=
  forall s1 s2, agree K s1 s2 ->
    (m s1).1 = (m s2).1 /\
    (exists ls, stdout (m s1).2 = (stdout s1 ++ ls)%list /\
                stdout (m s2).2 = (stdout s2 ++ ls)%list) /\
    ((exists a, (m s1).1 = Ok a) -> agree K' (m s1).2 (m s2).2).

Definition test_names : list string := ["features_test"; "target_test"].

(** The four cells that choose between models. *)
Definition selection_cells (lib : Library) : list (M unit) :=
  [ decision_tree_cell lib;
    random_forest_cell lib (range 10 51 10);
    random_forest_cell lib (range 1 21 1);
    linear_regression_cell lib ].

(** A library whose [fit] rejects one configuration: decision trees of
    depth 3 and forests of 30 trees. *)
Module Faulty.

Definition library : Library :=
  mkLibrary (fun _ => Ok (Small.dataset 10)) (fun _ => [])
    (fun _ n => reverse (seq 0 n))
    (fun e _ _ =>
       match e with
       | DecisionTreeClassifier _ 3 => Raise (ValueError "fit")
       | RandomForestClassifier _ 30 _ => Raise (ValueError "fit")
       | _ => Ok tt
       end)
    (fun _ _ X => Ok ((fun _ => 0%Q) <$> df_rows X)).

End Faulty.

(** ** The console of a whole run *)

Definition size_lines (P : partitions) : list line :=
  [ [VStr "Training Size:"; VInt (Z.of_nat (n_rows (features_train P)));
     VFloat (float_mul 3214 (float (6 # 10)))];
    [VStr "Validation Size:"; VInt (Z.of_nat (n_rows (features_valid P)));
     VFloat (float_mul 3214 (float (2 # 10)))];
    [VStr "Test Size:"; VInt (Z.of_nat (n_rows (features_test P)));
     VFloat (float_mul 3214 (float (2 # 10)))] ].

Definition decision_tree_summary (acc : Z -> Q) : list line :=
  [ []; [VStr "Best Paramaters"];
    [ VStr "max_depth =";
      default (VInt 0)
        (selected (Some (VInt 0)) (best_seen acc (range 1 6 1) 0 None).2);
      VStr ":";
      best_value acc (VInt 0) (best_seen acc (range 1 6 1) 0 None).2 ] ].

Definition random_forest_summary (acc : Z -> Q) (cs : list Z) (best_est : value)
  : list line :=
  [ []; [VStr "Best Parameters"];
    [ VStr "Estimators:"; best_est; VStr ":";
      best_value acc (VInt 0) (best_seen acc cs 0 None).2 ] ].

(** What the notebook has printed when the first forest sweep ends. *)
Definition transcript_to_first_sweep (lib : Library) (d : DataFrame)
    (P : partitions) (acc_tree acc_forest : Z -> Q) : list line :=
  info lib d ++ size_lines P ++
  decision_tree_lines acc_tree (range 1 6 1) 0 (VInt 0) ++
  decision_tree_summary acc_tree ++
  random_forest_lines acc_forest (range 10 51 10).

(** The console of a complete run in which the first forest sweep selects
    [c1]: the second sweep reports its own selection, or [c1] again when
    none of its candidates scores above 0. *)
Definition transcript (lib : Library) (d : DataFrame) (P : partitions)
    (acc_tree acc_forest : Z -> Q) (a_regression a_test : Q) (c1 : Z)
  : list line :=
  transcript_to_first_sweep lib d P acc_tree acc_forest ++
  random_forest_summary acc_forest (range 10 51 10) (VInt c1) ++
  random_forest_lines acc_forest (range 1 21 1) ++
  random_forest_summary acc_forest (range 1 21 1)
    (VInt (default c1 (best_seen acc_forest (range 1 21 1) 0 None).2)) ++
  [ [VStr "Accuracy:"; VFloat a_regression];
    [VStr "Test Accuracy:"; VFloat a_test] ].

(** * Lemmas *)

(** ** Arithmetic facts *)

Lemma Qgt_bool_true x y : Qgt_bool x y = true <-> (y < x)%Q.
Proof.
  unfold Qgt_bool. rewrite negb_true_iff, <- not_true_iff_false, Qle_bool_iff.
  split; [apply Qnot_le_lt | apply Qlt_not_le].
Qed.

Lemma Qgt_bool_false x y : Qgt_bool x y = false <-> (x <= y)%Q.
Proof.
  unfold Qgt_bool. rewrite negb_false_iff. apply Qle_bool_iff.
Qed.

Lemma best_seen_cases acc cs b0 sel0 :
  (best_seen acc cs b0 sel0 = (b0, sel0) /\
   forall c, c ∈ cs -> (acc c <= b0)%Q) \/
  (exists c before after,
     cs = (before ++ c :: after)%list /\
     best_seen acc cs b0 sel0 = (acc c, Some c) /\
     (b0 < acc c)%Q /\
     (forall c', c' ∈ before -> (acc c' < acc c)%Q) /\
     (forall c', c' ∈ after -> (acc c' <= acc c)%Q)).
Proof.
  revert b0 sel0. induction cs as [|c cs IH]; intros b0 sel0; simpl.
  - left. split; [done|]. intros c Hc. by apply elem_of_nil in Hc.
  - destruct (Qgt_bool (acc c) b0) eqn:Hgt.
    + apply Qgt_bool_true in Hgt. right.
      destruct (IH (acc c) (Some c)) as [[Heq Hle] | (c2 & pre & post & -> & Heq & Hlt & Hpre & Hpost)].
      * exists c, [], cs. repeat split; try done.
        intros c' Hc'. by apply elem_of_nil in Hc'.
      * exists c2, (c :: pre), post. repeat split; try done.
        -- by apply Qlt_trans with (acc c).
        -- intros c' [-> | Hc']%elem_of_cons; auto.
    + apply Qgt_bool_false in Hgt.
      destruct (IH b0 sel0) as [[Heq Hle] | (c2 & pre & post & -> & Heq & Hlt & Hpre & Hpost)].
      * left. split; [done|].
        intros c' [-> | Hc']%elem_of_cons; auto.
      * right. exists c2, (c :: pre), post. repeat split; try done.
        intros c' [-> | Hc']%elem_of_cons; auto.
        by apply Qle_lt_trans with b0.
Qed.

Lemma count_correct_le y_true y_pred :
  (count_correct y_true y_pred <= length y_true)%nat.
Proof.
  revert y_pred. induction y_true as [|t ts IH]; intros [|p ps]; simpl; try lia.
  specialize (IH ps). destruct (Qeq_bool t p); lia.
Qed.

Lemma accuracy_score_Ok y_true y_pred a :
  accuracy_score y_true y_pred = Ok a <->
  length y_true = length y_pred /\ length y_true <> 0%nat /\
  forallb is_label y_true = true /\ forallb is_label y_pred = true /\
  a = (Z.of_nat (count_correct y_true y_pred) # Pos.of_nat (length y_true)).
Proof.
  unfold accuracy_score.
  destruct (length y_true =? length y_pred)%nat eqn:Hlen; cbn [negb].
  2:{ apply Nat.eqb_neq in Hlen. split; [done|]. by intros [? _]. }
  apply Nat.eqb_eq in Hlen.
  destruct (forallb is_label y_true) eqn:Ht; cbn [andb negb];
    [|split; [done|]; by intros (_ & _ & ? & _)].
  destruct (forallb is_label y_pred) eqn:Hp; cbn [negb];
    [|split; [done|]; by intros (_ & _ & _ & ? & _)].
  destruct (length y_true) as [|n] eqn:Hn;
    [split; [done|]; by intros (_ & ? & _)|].
  rewrite <- Pos.of_nat_succ. split.
  - by intros [= <-].
  - by intros (_ & _ & _ & _ & ->).
Qed.

Lemma accuracy_score_fraction y_true y_pred a :
  accuracy_score y_true y_pred = Ok a ->
  length y_true = length y_pred /\ length y_true <> 0%nat /\
  a = (Z.of_nat (count_correct y_true y_pred) # Pos.of_nat (length y_true)).
Proof. intros (? & ? & _ & _ & ?)%accuracy_score_Ok. done. Qed.

Lemma accuracy_score_range y_true y_pred a :
  accuracy_score y_true y_pred = Ok a -> unit_interval a.
Proof.
  intros (_ & Hne & ->)%accuracy_score_fraction.
  pose proof (count_correct_le y_true y_pred) as Hle.
  unfold unit_interval, Qle; simpl. split; [lia|].
  rewrite Z.mul_1_r, Z.mul_1_l.
  destruct (length y_true) as [|n]; [done|].
  rewrite <- Pos.of_nat_succ, Zpos_P_of_succ_nat. lia.
Qed.


(** The second numbers of the size lines are the doubles Python prints as
    [1928.3999999999999] and [642.8000000000001], one below and one above
    the exact products; 0.5 is a double. *)
Lemma size_lines_hold_the_float_products :
  float_mul 3214 (float (6 # 10)) = float 1928.3999999999999%Q /\
  float_mul 3214 (float (2 # 10)) = float 642.8000000000001%Q /\
  (float_mul 3214 (float (6 # 10)) == 8481192892012953 # 4398046511104)%Q /\
  (float_mul 3214 (float (2 # 10)) == 5654128594675303 # 8796093022208)%Q /\
  (float_mul 3214 (float (6 # 10)) < 3214 * (6 # 10))%Q /\
  (3214 * (2 # 10) < float_mul 3214 (float (2 # 10)))%Q /\
  (float (5 # 10) == 5 # 10)%Q.
Proof. repeat split; vm_compute; reflexivity. Qed.

(** ** The split *)

Lemma take_rows_Ok {A} (idx : list nat) (l l' : list A) :
  take_rows idx l = Ok l' <-> Forall2 (fun i x => l !! i = Some x) idx l'.
Proof.
  unfold take_rows. rewrite <- mapM_Some.
  destruct (mapM _ idx); split; congruence.
Qed.

Lemma take_rows_defined {A} (idx : list nat) (l : list A) :
  Forall (fun i => i < length l)%nat idx ->
  exists l', take_rows idx l = Ok l'.
Proof.
  intros Hidx. unfold take_rows.
  destruct (mapM_is_Some_2 (fun i => l !! i) idx) as [l' ->]; [|eauto].
  eapply Forall_impl; [exact Hidx|]. intros i Hi. by apply lookup_lt_is_Some.
Qed.

Lemma Forall2_permute {A B} (P : A -> B -> Prop) (a b : list A) (k : list B) :
  a ≡ₚ b -> Forall2 P a k -> exists k', Forall2 P b k' /\ k ≡ₚ k'.
Proof.
  intros Hp. revert k. induction Hp as [|x a b Hp IH|x y a|a b c Hab IH1 Hbc IH2]; intros k H.
  - apply Forall2_nil_inv_l in H as ->. exists []. by split.
  - apply Forall2_cons_inv_l in H as (z & k1 & Hz & Hk & ->).
    destruct (IH _ Hk) as (k' & ? & ?). exists (z :: k'). split; [by constructor|by f_equiv].
  - apply Forall2_cons_inv_l in H as (z1 & k1 & Hz1 & H & ->).
    apply Forall2_cons_inv_l in H as (z2 & k2 & Hz2 & H & ->).
    exists (z2 :: z1 :: k2). split; [by repeat constructor | by constructor].
  - destruct (IH1 _ H) as (k1 & H1 & Hp1). destruct (IH2 _ H1) as (k2 & H2 & Hp2).
    exists k2. split; [done | by etrans].
Qed.

Lemma take_rows_all {A} (l l' : list A) :
  Forall2 (fun i x => l !! i = Some x) (seq 0 (length l)) l' -> l' = l.
Proof.
  intros H. apply list_eq. intros i.
  pose proof (Forall2_length _ _ _ H) as Hlen. rewrite length_seq in Hlen.
  destruct (decide (i < length l)%nat) as [Hi|Hi].
  - destruct (lookup_lt_is_Some_2 l' i) as [x Hx]; [lia|].
    assert (seq 0 (length l) !! i = Some i) as Hs by (apply lookup_seq; lia).
    pose proof (Forall2_lookup_lr _ _ _ _ _ _ H Hs Hx) as Hl. simpl in Hl. congruence.
  - rewrite !lookup_ge_None_2; [done | lia | lia].
Qed.

Lemma take_rows_permutation {A} (idx : list nat) (l l' : list A) :
  idx ≡ₚ seq 0 (length l) -> take_rows idx l = Ok l' -> l' ≡ₚ l.
Proof.
  intros Hp H%take_rows_Ok.
  destruct (Forall2_permute _ _ _ _ Hp H) as (k' & Hk' & Hperm).
  apply take_rows_all in Hk' as ->. done.
Qed.

Lemma take_rows_length {A} (idx : list nat) (l l' : list A) :
  take_rows idx l = Ok l' -> length l' = length idx.
Proof. intros H%take_rows_Ok. symmetry. by eapply Forall2_length. Qed.

Lemma take_rows_app {A} (i1 i2 : list nat) (l l1 l2 : list A) :
  take_rows i1 l = Ok l1 -> take_rows i2 l = Ok l2 ->
  take_rows (i1 ++ i2) l = Ok (l1 ++ l2)%list.
Proof. rewrite !take_rows_Ok. apply Forall2_app. Qed.

Lemma train_test_split_spec lib X y t seed :
  shuffles lib ->
  length y = n_rows X ->
  (n_test_of t (n_rows X) < n_rows X)%nat ->
  exists Xtr Xte ytr yte,
    train_test_split lib X y t seed = Ok (Xtr, Xte, ytr, yte) /\
    n_rows Xte = n_test_of t (n_rows X) /\
    n_rows Xtr = (n_rows X - n_test_of t (n_rows X))%nat /\
    length yte = n_rows Xte /\ length ytr = n_rows Xtr /\
    (df_rows Xte ++ df_rows Xtr)%list ≡ₚ df_rows X /\
    (yte ++ ytr)%list ≡ₚ y.
Proof.
  intros Hsh Hy Hlt. unfold train_test_split. fold (n_test_of t (n_rows X)).
  set (n := n_rows X) in *. set (k := n_test_of t n) in *.
  rewrite Hy, Nat.eqb_refl. simpl.
  destruct (n - k =? 0)%nat eqn:Hz; [apply Nat.eqb_eq in Hz; lia|]. clear Hz.
  set (p := permutation lib seed n).
  assert (p ≡ₚ seq 0 n) as Hp by apply Hsh.
  assert (length p = n) as Hlen by (by rewrite Hp, length_seq).
  assert (Forall (fun i => i < n)%nat p) as Hrange.
  { rewrite Hp. apply Forall_forall. intros i Hi%elem_of_seq. lia. }
  assert (take (n - k) (drop k p) = drop k p) as Htd.
  { apply take_ge. rewrite length_drop. lia. }
  rewrite Htd.
  assert (Forall (fun i => i < n)%nat (take k p)) as Hr1 by (by apply Forall_take).
  assert (Forall (fun i => i < n)%nat (drop k p)) as Hr2 by (by apply Forall_drop).
  destruct (take_rows_defined (drop k p) (df_rows X) Hr2) as [Xtr HXtr].
  destruct (take_rows_defined (take k p) (df_rows X) Hr1) as [Xte HXte].
  rewrite <- Hy in Hr1, Hr2.
  destruct (take_rows_defined (drop k p) y Hr2) as [ytr Hytr].
  destruct (take_rows_defined (take k p) y Hr1) as [yte Hyte].
  rewrite HXtr, HXte, Hytr, Hyte.
  eexists _, _, _, _. split; [done|]. unfold n_rows. simpl.
  rewrite (take_rows_length _ _ _ HXtr), (take_rows_length _ _ _ HXte),
    (take_rows_length _ _ _ Hytr), (take_rows_length _ _ _ Hyte).
  rewrite length_take, length_drop, Hlen.
  repeat split; try lia.
  - eapply take_rows_permutation; [|by apply take_rows_app].
    by rewrite take_drop.
  - eapply take_rows_permutation; [|by apply take_rows_app].
    by rewrite take_drop, Hy.
Qed.

Lemma n_test_fifth n :
  Z.of_nat (n_test_of (20 # 100) n) = ((Z.of_nat n + 4) / 5)%Z.
Proof.
  unfold n_test_of, Qceiling, Qfloor. simpl. rewrite Pos.mul_1_r.
  rewrite Z2Nat.id; Z.div_mod_to_equations; lia.
Qed.

Lemma n_test_quarter n :
  Z.of_nat (n_test_of (25 # 100) n) = ((Z.of_nat n + 3) / 4)%Z.
Proof.
  unfold n_test_of, Qceiling, Qfloor. simpl. rewrite Pos.mul_1_r.
  rewrite Z2Nat.id; Z.div_mod_to_equations; lia.
Qed.

(** ** The monad, one statement at a time *)

Lemma bind_Ok {A B} (m : M A) (k : A -> M B) s a s' :
  m s = (Ok a, s') -> (m ≫= k) s = k a s'.
Proof. unfold mbind, M_bind. by intros ->. Qed.

Lemma bind_Raise {A B} (m : M A) (k : A -> M B) s e s' :
  m s = (Raise e, s') -> (m ≫= k) s = (Raise e, s').
Proof. unfold mbind, M_bind. by intros ->. Qed.

Lemma name_Some x v s : globals s !! x = Some v -> name x s = (Ok v, s).
Proof. unfold name. by intros ->. Qed.

Lemma name_None x s :
  globals s !! x = None -> name x s = (Raise (NameError x), s).
Proof. unfold name. by intros ->. Qed.

Lemma assign_run x v s :
  assign x v s = (Ok tt, mkState (<[x := v]> (globals s)) (stdout s)).
Proof. done. Qed.

(** One statement of the cell under execution that returns: rewrite the
    run of [m ≫= k] into the run of [k] on the value and state [m] leaves. *)
Ltac exec1 :=
  first
    [ erewrite (bind_Ok (name _)) by (apply name_Some; simplify_map_eq; eauto)
    | erewrite (bind_Ok (assign _ _)) by reflexivity
    | erewrite (bind_Ok (print _)) by reflexivity
    | erewrite (bind_Ok (mret _)) by reflexivity
    | erewrite (bind_Ok (as_frame (VFrame _))) by reflexivity
    | erewrite (bind_Ok (as_series (VSeries _))) by reflexivity
    | erewrite (bind_Ok (as_model (VModel _))) by reflexivity
    | erewrite (bind_Ok (as_int (VInt _))) by reflexivity
    | erewrite (bind_Ok (lift _)) by (unfold lift; f_equal; eassumption) ];
  cbn [globals stdout].


(** Case analysis on the membership [Hc] of a candidate in a literal list. *)
Ltac candidates Hc tac :=
  repeat (apply elem_of_cons in Hc as [->|Hc]; [tac|]);
  apply elem_of_nil in Hc; destruct Hc.

(** A literal name is not a partition name. *)
Ltac fresh_name :=
  let H := fresh in
  intros H; unfold partition_names in H;
  repeat (apply elem_of_cons in H as [H|H]; [discriminate H|]);
  by apply elem_of_nil in H.

(** ** Running the statements of a cell on the path without exceptions *)

Section Execution.
Context (lib : Library).

Lemma method_fit_run m e o X y s :
  globals s !! m = Some (VModel (mkModel e o)) ->
  globals s !! "features_train" = Some (VFrame X) ->
  globals s !! "target_train" = Some (VSeries y) ->
  fit lib e X y = Ok tt ->
  method_fit lib m s =
    (Ok tt, mkState (<[m := VModel (mkModel e (Some (X, y)))]> (globals s))
                    (stdout s)).
Proof.
  intros Hm HX Hy Hfit. unfold method_fit. repeat exec1. done.
Qed.

Lemma method_predict_run m x e tr X p s :
  globals s !! m = Some (VModel (mkModel e (Some tr))) ->
  globals s !! x = Some (VFrame X) ->
  predict lib e tr X = Ok p ->
  method_predict lib m x s = (Ok p, s).
Proof.
  intros Hm HX Hp. unfold method_predict. repeat exec1. simpl.
  unfold lift. by rewrite Hp.
Qed.

Lemma call_accuracy_score_run yt yp t p a s :
  globals s !! yt = Some (VSeries t) ->
  globals s !! yp = Some (VSeries p) ->
  accuracy_score t p = Ok a ->
  call_accuracy_score yt yp s = (Ok a, s).
Proof.
  intros Ht Hp Ha. unfold call_accuracy_score. repeat exec1.
  unfold lift. by rewrite Ha.
Qed.

Lemma method_fit_raise m e o X y ex s :
  globals s !! m = Some (VModel (mkModel e o)) ->
  globals s !! "features_train" = Some (VFrame X) ->
  globals s !! "target_train" = Some (VSeries y) ->
  fit lib e X y = Raise ex ->
  method_fit lib m s = (Raise ex, s).
Proof.
  intros Hm HX Hy Hfit. unfold method_fit. repeat exec1.
  apply bind_Raise. unfold lift. cbn [m_est]. by rewrite Hfit.
Qed.

Lemma method_predict_raise m x e tr X ex s :
  globals s !! m = Some (VModel (mkModel e (Some tr))) ->
  globals s !! x = Some (VFrame X) ->
  predict lib e tr X = Raise ex ->
  method_predict lib m x s = (Raise ex, s).
Proof.
  intros Hm HX Hp. unfold method_predict. repeat exec1. cbn.
  unfold lift. by rewrite Hp.
Qed.

Lemma call_accuracy_score_raise yt yp t p ex s :
  globals s !! yt = Some (VSeries t) ->
  globals s !! yp = Some (VSeries p) ->
  accuracy_score t p = Raise ex ->
  call_accuracy_score yt yp s = (Raise ex, s).
Proof.
  intros Ht Hp Ha. unfold call_accuracy_score. repeat exec1.
  unfold lift. by rewrite Ha.
Qed.

Lemma evaluate_Ok P e post X y a :
  evaluate lib P e post X y = Ok a ->
  exists p, fit lib e (features_train P) (target_train P) = Ok tt /\
    predict lib e (features_train P, target_train P) X = Ok p /\
    accuracy_score y (post p) = Ok a.
Proof.
  unfold evaluate. destruct (fit _ _ _ _) as [[]|]; [|done].
  destruct (predict _ _ _ _) as [p|]; [|done]. eauto.
Qed.

Lemma decision_tree_body_run P s c bd ba b a :
  bound P (globals s) ->
  globals s !! "depth" = Some (VInt c) ->
  globals s !! "best_depth" = Some bd ->
  globals s !! "best_accuracy" = Some ba ->
  num_of ba = Some b ->
  validation_accuracy lib P (DecisionTreeClassifier 12345 c) = Ok a ->
  exists s',
    decision_tree_body lib s = (Ok tt, s') /\
    bound P (globals s') /\
    globals s' !! "depth" = Some (VInt c) /\
    globals s' !! "best_accuracy" =
      Some (if Qgt_bool a b then VFloat a else ba) /\
    globals s' !! "best_depth" = Some (if Qgt_bool a b then VInt c else bd) /\
    stdout s' =
      (stdout s ++ [[VStr "max_depth ="; bd; VStr ": "; VFloat a]])%list /\
    globals s' !! "accuracy" = Some (VFloat a) /\
    globals s' !! "model" =
      Some (VModel (mkModel (DecisionTreeClassifier 12345 c)
                      (Some (features_train P, target_train P)))).
Proof.
  intros (HXtr & Hytr & HXva & Hyva & HXte & Hyte) Hd Hbd Hba Hb
    (p & Hfit & Hpred & Hacc)%evaluate_Ok.
  unfold decision_tree_body. repeat exec1.
  erewrite (bind_Ok (method_fit _ _)); cycle 1.
  { eapply method_fit_run; simplify_map_eq; eauto. }
  simpl.
  erewrite (bind_Ok (method_predict _ _ _)); cycle 1.
  { eapply method_predict_run; simplify_map_eq; eauto. }
  repeat exec1.
  erewrite (bind_Ok (call_accuracy_score _ _)); cycle 1.
  { eapply call_accuracy_score_run; simplify_map_eq; eauto. }
  repeat exec1.
  unfold py_gt. simpl. rewrite Hb. repeat exec1.
  destruct (Qgt_bool a b); repeat exec1.
  - eexists. split; [reflexivity|]. unfold bound. simpl. by simplify_map_eq.
  - eexists. split; [reflexivity|]. unfold bound. simpl. by simplify_map_eq.
Qed.
Lemma random_forest_body_run P s c be ba b a :
  bound P (globals s) ->
  globals s !! "est" = Some (VInt c) ->
  globals s !! "depth" = Some (VInt 3) ->
  globals s !! "best_est" = be ->
  globals s !! "best_accuracy" = Some ba ->
  num_of ba = Some b ->
  validation_accuracy lib P (RandomForestClassifier 12345 c 3) = Ok a ->
  exists s',
    random_forest_body lib s = (Ok tt, s') /\
    bound P (globals s') /\
    globals s' !! "depth" = Some (VInt 3) /\
    globals s' !! "best_accuracy" =
      Some (if Qgt_bool a b then VFloat a else ba) /\
    globals s' !! "best_est" = (if Qgt_bool a b then Some (VInt c) else be) /\
    stdout s' =
      (stdout s ++ [[VStr "Estimators : "; VInt c; VStr ": "; VFloat a]])%list /\
    globals s' !! "accuracy" = Some (VFloat a) /\
    globals s' !! "model" =
      Some (VModel (mkModel (RandomForestClassifier 12345 c 3)
                      (Some (features_train P, target_train P)))) /\
    globals s' !! "best_estimators" = globals s !! "best_estimators".
Proof.
  intros (HXtr & Hytr & HXva & Hyva & HXte & Hyte) Hc Hd Hbe Hba Hb
    (p & Hfit & Hpred & Hacc)%evaluate_Ok.
  unfold random_forest_body. repeat exec1.
  erewrite (bind_Ok (method_fit _ _)); cycle 1.
  { eapply method_fit_run; simplify_map_eq; eauto. }
  simpl.
  erewrite (bind_Ok (method_predict _ _ _)); cycle 1.
  { eapply method_predict_run; simplify_map_eq; eauto. }
  repeat exec1.
  erewrite (bind_Ok (call_accuracy_score _ _)); cycle 1.
  { eapply call_accuracy_score_run; simplify_map_eq; eauto. }
  repeat exec1.
  unfold py_gt. simpl. rewrite Hb. repeat exec1.
  destruct (Qgt_bool a b); repeat exec1.
  - eexists. split; [reflexivity|]. unfold bound. simpl. by simplify_map_eq.
  - eexists. split; [reflexivity|]. unfold bound. simpl. by simplify_map_eq.
Qed.

End Execution.

(** ** The sweep loops *)

Section Sweeps.
Context (lib : Library).

Lemma decision_tree_loop_run P acc cs : forall s b sel ba0 bd0,
  bound P (globals s) ->
  globals s !! "best_accuracy" = Some (best_value acc ba0 sel) ->
  num_of (best_value acc ba0 sel) = Some b ->
  globals s !! "best_depth" = selected (Some bd0) sel ->
  (forall c, c ∈ cs ->
     validation_accuracy lib P (DecisionTreeClassifier 12345 c) = Ok (acc c)) ->
  exists s',
    for_in "depth" cs (decision_tree_body lib) s = (Ok tt, s') /\
    bound P (globals s') /\
    globals s' !! "best_accuracy" =
      Some (best_value acc ba0 (best_seen acc cs b sel).2) /\
    num_of (best_value acc ba0 (best_seen acc cs b sel).2) =
      Some (best_seen acc cs b sel).1 /\
    globals s' !! "best_depth" =
      selected (Some bd0) (best_seen acc cs b sel).2 /\
    stdout s' =
      (stdout s ++
       decision_tree_lines acc cs b (default bd0 (selected (Some bd0) sel)))%list.
Proof.
  induction cs as [|c cs IH]; intros s b sel ba0 bd0 HP Hba Hb Hbd Hacc.
  - exists s. simpl. rewrite app_nil_r. done.
  - simpl for_in. repeat exec1.
    edestruct (decision_tree_body_run lib P
                 (mkState (<["depth" := VInt c]> (globals s)) (stdout s)))
      as (s1 & Hrun & HP1 & _ & Hba1 & Hbd1 & Hout1 & _).
    { destruct HP as (? & ? & ? & ? & ? & ?). unfold bound. simpl.
      by simplify_map_eq. }
    { simpl. by simplify_map_eq. }
    { simpl. rewrite lookup_insert_ne by done. rewrite Hbd.
      instantiate (1 := default bd0 (selected (Some bd0) sel)).
      by destruct sel. }
    { simpl. rewrite lookup_insert_ne by done. exact Hba. }
    { exact Hb. }
    { apply Hacc. left. }
    erewrite bind_Ok by exact Hrun. simpl in Hout1.
    simpl best_seen. simpl decision_tree_lines.
    destruct (Qgt_bool (acc c) b) eqn:Hgt.
    + destruct (IH s1 (acc c) (Some c) ba0 bd0) as (s' & Hrun' & ? & ? & ? & ? & Hout');
        try done.
      { intros c' Hc'. apply Hacc. by right. }
      exists s'. repeat (split; [done|]).
      rewrite Hout', Hout1, <- app_assoc. done.
    + destruct (IH s1 b sel ba0 bd0) as (s' & Hrun' & ? & ? & ? & ? & Hout');
        try done.
      { by destruct sel. }
      { intros c' Hc'. apply Hacc. by right. }
      exists s'. repeat (split; [done|]).
      rewrite Hout', Hout1, <- app_assoc. done.
Qed.

Lemma random_forest_loop_run P acc cs : forall s b sel ba0 be0,
  bound P (globals s) ->
  globals s !! "depth" = Some (VInt 3) ->
  globals s !! "best_accuracy" = Some (best_value acc ba0 sel) ->
  num_of (best_value acc ba0 sel) = Some b ->
  globals s !! "best_est" = selected be0 sel ->
  (forall c, c ∈ cs ->
     validation_accuracy lib P (RandomForestClassifier 12345 c 3)
       = Ok (acc c)) ->
  exists s',
    for_in "est" cs (random_forest_body lib) s = (Ok tt, s') /\
    bound P (globals s') /\
    globals s' !! "best_accuracy" =
      Some (best_value acc ba0 (best_seen acc cs b sel).2) /\
    num_of (best_value acc ba0 (best_seen acc cs b sel).2) =
      Some (best_seen acc cs b sel).1 /\
    globals s' !! "best_est" = selected be0 (best_seen acc cs b sel).2 /\
    stdout s' = (stdout s ++ random_forest_lines acc cs)%list /\
    globals s' !! "best_estimators" = globals s !! "best_estimators".
Proof.
  induction cs as [|c cs IH]; intros s b sel ba0 be0 HP Hd Hba Hb Hbe Hacc.
  - exists s. simpl. rewrite app_nil_r. done.
  - simpl for_in. repeat exec1.
    edestruct (random_forest_body_run lib P
                 (mkState (<["est" := VInt c]> (globals s)) (stdout s)))
      as (s1 & Hrun & HP1 & Hd1 & Hba1 & Hbe1 & Hout1 & _ & _ & Hbs1).
    { destruct HP as (? & ? & ? & ? & ? & ?). unfold bound. simpl.
      by simplify_map_eq. }
    { simpl. by simplify_map_eq. }
    { simpl. by simplify_map_eq. }
    { reflexivity. }
    { simpl. rewrite lookup_insert_ne by done. exact Hba. }
    { exact Hb. }
    { apply Hacc. left. }
    erewrite bind_Ok by exact Hrun. simpl in Hout1, Hbe1, Hbs1.
    rewrite lookup_insert_ne in Hbe1 by done.
    rewrite lookup_insert_ne in Hbs1 by done.
    simpl best_seen. unfold random_forest_lines. rewrite fmap_cons.
    destruct (Qgt_bool (acc c) b) eqn:Hgt.
    + destruct (IH s1 (acc c) (Some c) ba0 be0) as (s' & Hrun' & ? & ? & ? & ? & Hout' & Hbs');
        try done.
      { intros c' Hc'. apply Hacc. by right. }
      exists s'. repeat (split; [done|]).
      split; [|congruence].
      rewrite Hout', Hout1, <- app_assoc. done.
    + destruct (IH s1 b sel ba0 be0) as (s' & Hrun' & ? & ? & ? & ? & Hout' & Hbs');
        try done.
      { by rewrite Hbe1. }
      { intros c' Hc'. apply Hacc. by right. }
      exists s'. repeat (split; [done|]).
      split; [|congruence].
      rewrite Hout', Hout1, <- app_assoc. done.
Qed.

End Sweeps.

(** ** The sweep, regression and test cells *)

Section Cells.
Context (lib : Library).

Lemma bound_insert P g x v :
  x ∉ partition_names -> bound P g -> bound P (<[x := v]> g).
Proof.
  intros Hx (? & ? & ? & ? & ? & ?). unfold partition_names in Hx.
  rewrite !not_elem_of_cons in Hx. destruct Hx as (? & ? & ? & ? & ? & ? & _).
  unfold bound. rewrite !lookup_insert_ne by done. done.
Qed.

Lemma decision_tree_cell_run P acc s :
  bound P (globals s) ->
  (forall c, c ∈ range 1 6 1 ->
     validation_accuracy lib P (DecisionTreeClassifier 12345 c) = Ok (acc c)) ->
  exists s',
    decision_tree_cell lib s = (Ok tt, s') /\
    bound P (globals s') /\
    globals s' !! "best_accuracy" =
      Some (best_value acc (VInt 0) (best_seen acc (range 1 6 1) 0 None).2) /\
    globals s' !! "best_depth" =
      selected (Some (VInt 0)) (best_seen acc (range 1 6 1) 0 None).2 /\
    stdout s' =
      (stdout s ++ decision_tree_lines acc (range 1 6 1) 0 (VInt 0) ++
       [ []; [VStr "Best Paramaters"];
         [ VStr "max_depth =";
           default (VInt 0)
             (selected (Some (VInt 0)) (best_seen acc (range 1 6 1) 0 None).2);
           VStr ":";
           best_value acc (VInt 0) (best_seen acc (range 1 6 1) 0 None).2 ] ])%list.
Proof.
  intros HP Hacc. unfold decision_tree_cell.
  set (cs := range 1 6 1) in *. clearbody cs. repeat exec1.
  edestruct (decision_tree_loop_run lib P acc cs
    (mkState (<["best_depth" := VInt 0]> (<["best_accuracy" := VInt 0]> (globals s)))
       (stdout s)) 0%Q None (VInt 0) (VInt 0))
    as (s1 & Hrun & HP1 & Hba & _ & Hbd & Hout);
    [ by do 2 (apply bound_insert; [fresh_name|])
    | by simplify_map_eq | done | by simplify_map_eq | done | ].
  erewrite bind_Ok by exact Hrun. repeat exec1.
  set (r := best_seen acc cs 0 None) in *.
  erewrite (bind_Ok (name "best_depth")); cycle 1.
  { apply name_Some. cbn [globals]. rewrite Hbd.
    instantiate (1 := default (VInt 0) (selected (Some (VInt 0)) r.2)).
    by destruct (r.2). }
  repeat exec1.
  eexists. split; [reflexivity|]. cbn [globals stdout].
  repeat (split; [done|]).
  rewrite Hout. cbn [globals stdout selected default]. rewrite <- !app_assoc. done.
Qed.

Lemma random_forest_cell_run P acc cs s :
  bound P (globals s) ->
  (forall c, c ∈ cs ->
     validation_accuracy lib P (RandomForestClassifier 12345 c 3)
       = Ok (acc c)) ->
  exists s',
    match selected (globals s !! "best_est") (best_seen acc cs 0 None).2 with
    | Some v =>
        random_forest_cell lib cs s = (Ok tt, s') /\
        stdout s' =
          (stdout s ++ random_forest_lines acc cs ++
           [ []; [VStr "Best Parameters"];
             [ VStr "Estimators:"; v; VStr ":";
               best_value acc (VInt 0) (best_seen acc cs 0 None).2 ] ])%list
    | None =>
        random_forest_cell lib cs s = (Raise (NameError "best_est"), s') /\
        stdout s' =
          (stdout s ++ random_forest_lines acc cs ++
           [ []; [VStr "Best Parameters"] ])%list
    end /\
    bound P (globals s') /\
    globals s' !! "best_accuracy" =
      Some (best_value acc (VInt 0) (best_seen acc cs 0 None).2) /\
    globals s' !! "best_est" =
      selected (globals s !! "best_est") (best_seen acc cs 0 None).2 /\
    globals s' !! "best_estimators" = Some (VInt 0).
Proof.
  intros HP Hacc. unfold random_forest_cell. repeat exec1.
  edestruct (random_forest_loop_run lib P acc cs
    (mkState (<["depth" := VInt 3]> (<["best_estimators" := VInt 0]>
                (<["best_accuracy" := VInt 0]> (globals s))))
       (stdout s)) 0%Q None (VInt 0) (globals s !! "best_est"))
    as (s1 & Hrun & HP1 & Hba & _ & Hbe & Hout & Hbs);
    [ by do 3 (apply bound_insert; [fresh_name|])
    | by simplify_map_eq | by simplify_map_eq | done
    | cbn [globals]; by rewrite !lookup_insert_ne by done | done | ].
  erewrite bind_Ok by exact Hrun. repeat exec1.
  set (r := best_seen acc cs 0 None) in *. cbn [globals stdout] in Hout, Hbs.
  rewrite lookup_insert_ne, lookup_insert_eq in Hbs by done.
  destruct (selected (globals s !! "best_est") r.2) as [v|] eqn:Hsel.
  - repeat exec1.
    eexists. split; [split; [reflexivity|]|done].
    cbn [stdout]. rewrite Hout, <- !app_assoc. done.
  - erewrite bind_Raise; cycle 1.
    { apply name_None. done. }
    eexists. split; [split; [reflexivity|]|done].
    cbn [stdout]. rewrite Hout, <- !app_assoc. done.
Qed.

Lemma linear_regression_cell_run P a s :
  bound P (globals s) ->
  evaluate lib P LinearRegression (binarize (5 # 10))
    (features_valid P) (target_valid P) = Ok a ->
  exists s' p,
    linear_regression_cell lib s = (Ok tt, s') /\
    bound P (globals s') /\
    predict lib LinearRegression (features_train P, target_train P)
      (features_valid P) = Ok p /\
    globals s' !! "predictions_valid" = Some (VSeries p) /\
    globals s' !! "predictions_binary" = Some (VSeries (binarize (5 # 10) p)) /\
    globals s' !! "accuracy" = Some (VFloat a) /\
    stdout s' = (stdout s ++ [[VStr "Accuracy:"; VFloat a]])%list.
Proof.
  intros (HXtr & Hytr & HXva & Hyva & HXte & Hyte)
    (p & Hfit & Hpred & Hacc)%evaluate_Ok.
  unfold linear_regression_cell. repeat exec1.
  erewrite (bind_Ok (method_fit _ _)); cycle 1.
  { eapply method_fit_run; simplify_map_eq; eauto. }
  simpl.
  erewrite (bind_Ok (method_predict _ _ _)); cycle 1.
  { eapply method_predict_run; simplify_map_eq; eauto. }
  repeat exec1.
  erewrite (bind_Ok (call_accuracy_score _ _)); cycle 1.
  { eapply call_accuracy_score_run; simplify_map_eq; eauto. }
  repeat exec1.
  eexists _, p. split; [reflexivity|]. unfold bound. simpl. by simplify_map_eq.
Qed.

Lemma test_model_cell_run P a s :
  bound P (globals s) ->
  test_accuracy lib P (RandomForestClassifier 12345 15 3) = Ok a ->
  exists s',
    test_model_cell lib s = (Ok tt, s') /\
    bound P (globals s') /\
    globals s' !! "best_model" =
      Some (VModel (mkModel (RandomForestClassifier 12345 15 3)
                      (Some (features_train P, target_train P)))) /\
    globals s' !! "accuracy_test" = Some (VFloat a) /\
    stdout s' = (stdout s ++ [[VStr "Test Accuracy:"; VFloat a]])%list.
Proof.
  intros (HXtr & Hytr & HXva & Hyva & HXte & Hyte)
    (p & Hfit & Hpred & Hacc)%evaluate_Ok.
  unfold test_model_cell. repeat exec1.
  erewrite (bind_Ok (method_fit _ _)); cycle 1.
  { eapply method_fit_run; simplify_map_eq; eauto. }
  simpl.
  erewrite (bind_Ok (method_predict _ _ _)); cycle 1.
  { eapply method_predict_run; simplify_map_eq; eauto. }
  repeat exec1.
  erewrite (bind_Ok (call_accuracy_score _ _)); cycle 1.
  { eapply call_accuracy_score_run; simplify_map_eq; eauto. }
  repeat exec1.
  eexists. split; [reflexivity|]. unfold bound. simpl. by simplify_map_eq.
Qed.

End Cells.

(** ** The load and split cells *)

Section LoadSplit.
Context (lib : Library).

Lemma load_cell_run d s :
  read_csv lib "/datasets/users_behavior.csv" = Ok d ->
  load_cell lib s =
    (Ok tt, mkState (<["data" := VFrame d]> (globals s))
                    (stdout s ++ info lib d)).
Proof. intros Hd. unfold load_cell. repeat exec1. done. Qed.

Lemma load_cell_raise e s :
  read_csv lib "/datasets/users_behavior.csv" = Raise e ->
  load_cell lib s = (Raise e, s).
Proof.
  intros Hd. unfold load_cell. apply bind_Raise. unfold lift. by rewrite Hd.
Qed.

Lemma df_getitem_drop c d y :
  df_getitem c d = Ok y ->
  length y = n_rows d /\
  exists X, df_drop c d = Ok X /\ n_rows X = n_rows d.
Proof.
  unfold df_getitem, df_drop. destruct (column_index c d) as [i|]; [|done].
  destruct (mapM _ _) as [y'|] eqn:Hy; [|done]. intros [= ->].
  split.
  - apply mapM_Some_1, Forall2_length in Hy. done.
  - eexists. split; [done|]. unfold n_rows. simpl. by rewrite length_fmap.
Qed.

Lemma split_cell_run d P s :
  globals s !! "data" = Some (VFrame d) ->
  split_of lib d = Ok P ->
  exists s',
    split_cell lib s = (Ok tt, s') /\
    bound P (globals s') /\
    globals s' !! "data" = Some (VFrame d) /\
    stdout s' =
      (stdout s ++
       [ [VStr "Training Size:"; VInt (Z.of_nat (n_rows (features_train P)));
          VFloat (float_mul 3214 (float (6 # 10)))];
         [VStr "Validation Size:"; VInt (Z.of_nat (n_rows (features_valid P)));
          VFloat (float_mul 3214 (float (2 # 10)))];
         [VStr "Test Size:"; VInt (Z.of_nat (n_rows (features_test P)));
          VFloat (float_mul 3214 (float (2 # 10)))] ])%list.
Proof.
  intros Hd. unfold split_of.
  destruct (df_drop "is_ultra" d) as [X|] eqn:HX; [|done].
  destruct (df_getitem "is_ultra" d) as [y|] eqn:Hy; [|done].
  destruct (train_test_split lib X y _ _) as [[[[Xtv Xte] ytv] yte]|] eqn:H1;
    [|done].
  destruct (train_test_split lib Xtv ytv _ _) as [[[[Xtr Xva] ytr] yva]|] eqn:H2;
    [|done].
  intros [= <-]. unfold split_cell. repeat exec1.
  eexists. split; [reflexivity|]. unfold bound. cbn [globals stdout].
  rewrite <- !app_assoc. by simplify_map_eq.
Qed.

Lemma split_of_defined d y :
  shuffles lib ->
  df_getitem "is_ultra" d = Ok y ->
  (3 <= n_rows d)%nat ->
  exists P X,
    split_of lib d = Ok P /\
    df_drop "is_ultra" d = Ok X /\
    let N := Z.of_nat (n_rows d) in
    let te := Z.of_nat (n_rows (features_test P)) in
    let va := Z.of_nat (n_rows (features_valid P)) in
    let tr := Z.of_nat (n_rows (features_train P)) in
    te = ((N + 4) / 5)%Z /\ va = ((N - te + 3) / 4)%Z /\
    tr = (N - te - va)%Z /\
    length (target_test P) = n_rows (features_test P) /\
    length (target_valid P) = n_rows (features_valid P) /\
    length (target_train P) = n_rows (features_train P) /\
    (df_rows (features_test P) ++ df_rows (features_valid P) ++
       df_rows (features_train P))%list ≡ₚ df_rows X /\
    (target_test P ++ target_valid P ++ target_train P)%list ≡ₚ y.
Proof.
  intros Hsh Hy HN.
  destruct (df_getitem_drop _ _ _ Hy) as (Hlen & X & HX & HnX).
  pose proof (n_test_fifth (n_rows X)) as H5.
  destruct (train_test_split_spec lib X y (20 # 100) 12345)
    as (Xtv & Xte & ytv & yte & H1 & Hte & Htv & Hyte & Hytv & Hp1 & Hq1);
    [done | congruence | |].
  { rewrite HnX in *. apply Nat2Z.inj_lt. rewrite H5.
    Z.div_mod_to_equations. lia. }
  pose proof (n_test_quarter (n_rows Xtv)) as H4.
  destruct (train_test_split_spec lib Xtv ytv (25 # 100) 12345)
    as (Xtr & Xva & ytr & yva & H2 & Hva & Htr & Hyva & Hytr & Hp2 & Hq2);
    [done | congruence | |].
  { apply Nat2Z.inj_lt. rewrite H4, Htv, HnX in *.
    rewrite Nat2Z.inj_sub by (apply Nat2Z.inj_le; rewrite H5;
      Z.div_mod_to_equations; lia).
    rewrite H5. Z.div_mod_to_equations. lia. }
  exists (mkPartitions Xtr ytr Xva yva Xte yte), X.
  unfold split_of. rewrite HX, Hy, H1, H2. split; [done|]. split; [done|].
  cbn [features_train target_train features_valid target_valid
       features_test target_test].
  assert (Z.of_nat (n_rows Xte) = ((Z.of_nat (n_rows d) + 4) / 5)%Z) as Ete
    by (by rewrite Hte, H5, HnX).
  assert (Z.of_nat (n_rows Xtv) =
          (Z.of_nat (n_rows d) - Z.of_nat (n_rows Xte))%Z) as Etv.
  { rewrite Htv, <- Hte, HnX. apply Nat2Z.inj_sub. apply Nat2Z.inj_le.
    rewrite Ete. Z.div_mod_to_equations. lia. }
  assert (Z.of_nat (n_rows Xva) =
          ((Z.of_nat (n_rows d) - Z.of_nat (n_rows Xte) + 3) / 4)%Z) as Eva
    by (by rewrite Hva, H4, Etv).
  repeat split; try done.
  - rewrite Htr, <- Hva. rewrite Nat2Z.inj_sub; [lia|].
    apply Nat2Z.inj_le. rewrite Eva, Etv, Ete. Z.div_mod_to_equations. lia.
  - rewrite <- Hp1, <- Hp2. done.
  - rewrite <- Hq1, <- Hq2. done.
Qed.

End LoadSplit.

(** ** Properties of every path, failing ones included *)

Section Invariant.
Context (I : state -> Prop) (writable : string -> value -> Prop).
Context (I_assign : forall x v s,
            writable x v -> I s ->
            I (mkState (<[x := v]> (globals s)) (stdout s))).
Context (I_stdout : forall s out, I s -> I (mkState (globals s) out)).

Lemma yields_ret {A} (a : A) (φ : A -> Prop) : φ a -> yields I (mret a) φ.
Proof. intros Ha s Hs. split; [done|]. by intros a' [= <-]. Qed.

Lemma yields_bind {A B} (m : M A) (k : A -> M B) (φ : A -> Prop) ψ :
  yields I m φ -> (forall a, φ a -> yields I (k a) ψ) ->
  yields I (m ≫= k) ψ.
Proof.
  intros Hm Hk s Hs. destruct (Hm s Hs) as [Hs' Hφ].
  unfold mbind, M_bind. destruct (m s) as [[a|e] s']; simpl in *.
  - by apply Hk; [apply Hφ|].
  - by split.
Qed.

Lemma yields_weaken {A} (m : M A) (φ ψ : A -> Prop) :
  yields I m φ -> (forall a, φ a -> ψ a) -> yields I m ψ.
Proof. intros Hm Hφ s Hs. destruct (Hm s Hs). split; auto. Qed.

Lemma yields_lift {A} (r : result A) :
  yields I (lift r) (fun a => r = Ok a).
Proof. intros s Hs. by split. Qed.

Lemma yields_raise {A} e (φ : A -> Prop) : yields I (raise e) φ.
Proof. intros s Hs. by split. Qed.

Lemma yields_name x :
  yields I (name x) (fun v => exists s, I s /\ globals s !! x = Some v).
Proof.
  intros s Hs. unfold name. destruct (globals s !! x) as [v|] eqn:Hx.
  - split; [done|]. intros ? [= <-]. eauto.
  - by split.
Qed.

Lemma yields_assign x v :
  writable x v -> yields I (assign x v) (fun _ => True).
Proof. intros Hw s Hs. split; [by apply I_assign | done]. Qed.

Lemma yields_print args : yields I (print args) (fun _ => True).
Proof. intros s Hs. split; [by apply I_stdout | done]. Qed.

Lemma yields_emit ls : yields I (emit ls) (fun _ => True).
Proof. intros s Hs. split; [by apply I_stdout | done]. Qed.

Lemma yields_as_frame v : yields I (as_frame v) (fun _ => True).
Proof. intros s Hs. by destruct v. Qed.
Lemma yields_as_series v : yields I (as_series v) (fun _ => True).
Proof. intros s Hs. by destruct v. Qed.
Lemma yields_as_model v : yields I (as_model v) (fun _ => True).
Proof. intros s Hs. by destruct v. Qed.
Lemma yields_as_int v : yields I (as_int v) (fun _ => True).
Proof. intros s Hs. by destruct v. Qed.

Lemma yields_py_gt a b : yields I (py_gt a b) (fun _ => True).
Proof. intros s Hs. unfold py_gt. by destruct (num_of a), (num_of b). Qed.

Lemma yields_for_in x cs body :
  (forall c, writable x (VInt c)) ->
  yields I body (fun _ => True) ->
  yields I (for_in x cs body) (fun _ => True).
Proof.
  intros Hx Hbody. induction cs as [|c cs IH]; simpl.
  - by apply yields_ret.
  - eapply yields_bind; [by apply yields_assign|]. intros _ _.
    eapply yields_bind; [exact Hbody|]. intros _ _. exact IH.
Qed.

Lemma yields_run_cells cs :
  Forall (fun c => yields I c (fun _ => True)) cs ->
  yields I (run_cells cs) (fun _ => True).
Proof.
  induction 1 as [|c cs Hc _ IH]; simpl.
  - by apply yields_ret.
  - eapply yields_bind; [exact Hc|]. intros _ _. exact IH.
Qed.

(** *** The cells after the split *)

Context (lib : Library) (guarded : list string).
Context (W_free : forall x v, x ∉ guarded -> writable x v).
Context (W_accuracy : forall a, unit_interval a -> writable "accuracy" (VFloat a)).
Context (W_accuracy_test :
           forall a, unit_interval a -> writable "accuracy_test" (VFloat a)).
Context (W_zero : writable "best_accuracy" (VInt 0)).
Context (W_copy : forall s v,
            I s -> globals s !! "accuracy" = Some v ->
            writable "best_accuracy" v).
Context (guarded_names : forall x,
            x ∈ guarded ->
            x ∈ partition_names \/
            x ∈ ["accuracy"; "accuracy_test"; "best_accuracy"]).

Local Ltac free_name :=
  apply W_free;
  let H := fresh in
  intros H; apply guarded_names in H as [H|H];
  unfold partition_names in H;
  repeat (apply elem_of_cons in H as [H|H]; [discriminate H|]);
  by apply elem_of_nil in H.

Local Ltac leaf :=
  first
    [ apply yields_name | apply yields_lift | apply yields_raise
    | apply yields_print | apply yields_emit
    | apply yields_as_frame | apply yields_as_series
    | apply yields_as_model | apply yields_as_int | apply yields_py_gt
    | apply yields_ret; exact Logic.I
    | apply yields_assign; first [ free_name | solve [eauto] | idtac ] ].

Local Ltac statements :=
  repeat first
    [ leaf
    | eapply yields_bind; [ leaf | cbv beta; intros ? ? ]
    | match goal with
      | |- yields _ (match ?x with _ => _ end) _ => destruct x
      end ].

Lemma yields_method_fit m :
  m ∉ guarded -> yields I (method_fit lib m) (fun _ => True).
Proof.
  intros Hm. unfold method_fit. statements.
Qed.

Lemma yields_method_predict m x :
  yields I (method_predict lib m x) (fun _ => True).
Proof.
  unfold method_predict. statements; (eapply yields_weaken; [leaf | done]).
Qed.

Lemma yields_call_accuracy_score yt yp :
  yields I (call_accuracy_score yt yp) unit_interval.
Proof.
  unfold call_accuracy_score. statements.
  eapply yields_weaken; [leaf|]. intros q Hq. eapply accuracy_score_range, Hq.
Qed.

Local Ltac a_block :=
  first
    [ apply yields_method_predict | apply yields_call_accuracy_score
    | apply yields_method_fit;
      let H := fresh in
      intros H; apply guarded_names in H as [H|H];
      unfold partition_names in H;
      repeat (apply elem_of_cons in H as [H|H]; [discriminate H|]);
      by apply elem_of_nil in H ].

Local Ltac blocks :=
  repeat first
    [ leaf | a_block
    | eapply yields_bind; [ first [leaf | a_block] | cbv beta; intros ? ? ]
    | match goal with
      | |- yields _ (match ?x with _ => _ end) _ => destruct x
      | H : exists s, _ /\ globals s !! "accuracy" = Some _ |- _ =>
          destruct H as (? & ? & ?)
      | |- writable _ _ => solve [eauto]
      end ].

Lemma yields_decision_tree_body :
  yields I (decision_tree_body lib) (fun _ => True).
Proof. unfold decision_tree_body. blocks. Qed.

Lemma yields_random_forest_body :
  yields I (random_forest_body lib) (fun _ => True).
Proof. unfold random_forest_body. blocks. Qed.

Lemma yields_decision_tree_cell :
  yields I (decision_tree_cell lib) (fun _ => True).
Proof.
  unfold decision_tree_cell.
  eapply yields_bind; [leaf|intros _ _].
  eapply yields_bind; [leaf|intros _ _].
  eapply yields_bind.
  { apply yields_for_in; [intros; free_name|].
    apply yields_decision_tree_body. }
  intros _ _. blocks.
Qed.

Lemma yields_random_forest_cell cs :
  yields I (random_forest_cell lib cs) (fun _ => True).
Proof.
  unfold random_forest_cell.
  do 3 (eapply yields_bind; [leaf|intros _ _]).
  eapply yields_bind.
  { apply yields_for_in; [intros; free_name|].
    apply yields_random_forest_body. }
  intros _ _. blocks.
Qed.

Lemma yields_linear_regression_cell :
  yields I (linear_regression_cell lib) (fun _ => True).
Proof. unfold linear_regression_cell. blocks. Qed.

Lemma yields_test_model_cell :
  yields I (test_model_cell lib) (fun _ => True).
Proof. unfold test_model_cell. blocks. Qed.



Lemma yields_later_cells :
  Forall (fun c => yields I c (fun _ => True)) (later_cells lib).
Proof.
  unfold later_cells.
  constructor; [apply yields_decision_tree_cell|].
  constructor; [apply yields_random_forest_cell|].
  constructor; [apply yields_random_forest_cell|].
  constructor; [apply yields_linear_regression_cell|].
  constructor; [apply yields_test_model_cell|].
  constructor.
Qed.

End Invariant.


(** * The claims *)


(** ** C1: what a sweep selects *)

Lemma validation_accuracy_range lib P e a :
  validation_accuracy lib P e = Ok a -> unit_interval a.
Proof.
  intros (p & _ & _ & Ha)%evaluate_Ok. by eapply accuracy_score_range.
Qed.

(** Started from the accuracy 0 with nothing selected, the bookkeeping ends
    on the maximum; it has selected the first candidate that attains it
    when the maximum is positive and nothing when every accuracy is 0. *)
Lemma best_seen_from_zero acc cs :
  cs <> [] ->
  (forall c, c ∈ cs -> (0 <= acc c)%Q) ->
  maximum acc cs (best_seen acc cs 0 None).1 /\
  match (best_seen acc cs 0 None).2 with
  | Some c =>
      first_maximum acc cs c /\ (best_seen acc cs 0 None).1 = acc c /\
      (0 < acc c)%Q
  | None =>
      (best_seen acc cs 0 None).1 = 0%Q /\
      forall c, c ∈ cs -> (acc c == 0)%Q
  end.
Proof.
  intros Hne Hpos.
  destruct (best_seen_cases acc cs 0 None)
    as [[-> Hle] | (c & pre & post & -> & -> & Hlt & Hpre & Hpost)];
    cbn [fst snd].
  - assert (forall c, c ∈ cs -> (acc c == 0)%Q) as Hz
      by (intros c Hc; apply Qle_antisym; auto).
    split; [|done]. split; [|done].
    destruct cs as [|c cs]; [done|]. exists c. split; [left | apply Hz; left].
  - assert (c ∈ (pre ++ c :: post)%list) as Hc
      by (apply elem_of_app; right; left).
    split; [split|].
    + exists c. split; [done | reflexivity].
    + intros c' [Hc'|[->|Hc']%elem_of_cons]%elem_of_app.
      * by apply Qlt_le_weak, Hpre.
      * apply Qle_refl.
      * by apply Hpost.
    + split; [|done]. by exists pre, post.
Qed.

Lemma best_seen_positive acc cs c0 :
  c0 ∈ cs -> (0 < acc c0)%Q -> (best_seen acc cs 0 None).2 <> None.
Proof.
  intros Hc0 Hpos.
  destruct (best_seen_cases acc cs 0 None)
    as [[_ Hle] | (c & pre & post & _ & -> & _)]; [|done].
  apply Hle in Hc0. by apply Qlt_not_le in Hpos.
Qed.

(** C1 (as amended).  Both sweeps end with [best_accuracy] equal to the
    maximum of the candidates' validation accuracies.  When that maximum is
    positive, the selected hyperparameter ([best_depth], [best_est]) is the
    first candidate, in iteration order, that attains it: every earlier
    candidate is strictly worse and no later one is better. *)
Theorem sweeps_select_first_maximum (lib : Library) (P : partitions)
    (s : state) (acc_tree acc_forest : Z -> Q) (cs : list Z) :
  bound P (globals s) ->
  (forall c, c ∈ range 1 6 1 ->
     validation_accuracy lib P (DecisionTreeClassifier 12345 c)
       = Ok (acc_tree c)) ->
  (forall c, c ∈ cs ->
     validation_accuracy lib P (RandomForestClassifier 12345 c 3)
       = Ok (acc_forest c)) ->
  (exists s' b,
     decision_tree_cell lib s = (Ok tt, s') /\
     number (globals s') "best_accuracy" = Some b /\
     maximum acc_tree (range 1 6 1) b /\
     ((0 < b)%Q ->
      exists c, globals s' !! "best_depth" = Some (VInt c) /\
                first_maximum acc_tree (range 1 6 1) c /\ b = acc_tree c)) /\
  ((exists c, c ∈ cs /\ (0 < acc_forest c)%Q) ->
   exists s' b c,
     random_forest_cell lib cs s = (Ok tt, s') /\
     number (globals s') "best_accuracy" = Some b /\
     maximum acc_forest cs b /\
     globals s' !! "best_est" = Some (VInt c) /\
     first_maximum acc_forest cs c /\ b = acc_forest c).
Proof.
  intros HP Htree Hforest. split.
  - destruct (decision_tree_cell_run lib P acc_tree s HP Htree)
      as (s' & Hrun & _ & Hba & Hbd & _).
    destruct (best_seen_from_zero acc_tree (range 1 6 1)) as [Hmax Hsel].
    { done. }
    { intros c Hc. by destruct (validation_accuracy_range _ _ _ _ (Htree c Hc)). }
    exists s', (best_seen acc_tree (range 1 6 1) 0 None).1.
    split; [done|].
    destruct ((best_seen acc_tree (range 1 6 1) 0 None).2) as [c|] eqn:Hr.
    + destruct Hsel as (Hfirst & Hb & Hpos).
      unfold number. rewrite Hba. cbn [best_value mbind option_bind num_of].
      split; [by rewrite Hb|]. split; [done|].
      intros _. exists c. by rewrite Hbd.
    + destruct Hsel as (Hb & Hz).
      unfold number. rewrite Hba. cbn [best_value mbind option_bind num_of].
      split; [by rewrite Hb|]. split; [done|].
      rewrite Hb. intros Hlt. by apply Qlt_irrefl in Hlt.
  - intros (c0 & Hc0 & Hpos0).
    destruct (random_forest_cell_run lib P acc_forest cs s HP Hforest)
      as (s' & Hrun & _ & Hba & Hbe & _).
    destruct (best_seen_from_zero acc_forest cs) as [Hmax Hsel].
    { intros ->. by apply elem_of_nil in Hc0. }
    { intros c Hc. by destruct (validation_accuracy_range _ _ _ _ (Hforest c Hc)). }
    pose proof (best_seen_positive acc_forest cs c0 Hc0 Hpos0) as Hsome.
    destruct ((best_seen acc_forest cs 0 None).2) as [c|] eqn:Hr; [|done].
    destruct Hsel as (Hfirst & Hb & Hpos). cbn [selected] in Hrun, Hbe.
    destruct Hrun as [Hrun _].
    exists s', (best_seen acc_forest cs 0 None).1, c.
    split; [done|].
    unfold number. rewrite Hba. cbn [best_value mbind option_bind num_of].
    split; [by rewrite Hb|]. done.
Qed.

Lemma sweeps_select_first_maximum_witness :
  bound (split_parts Small.graded) (globals (after_split Small.graded)) /\
  (exists s' b,
     decision_tree_cell Small.graded (after_split Small.graded)
       = (Ok tt, s') /\
     number (globals s') "best_accuracy" = Some b /\
     maximum Small.graded_tree (range 1 6 1) b /\
     ((0 < b)%Q ->
      exists c, globals s' !! "best_depth" = Some (VInt c) /\
                first_maximum Small.graded_tree (range 1 6 1) c /\
                b = Small.graded_tree c)).
Proof.
  assert (bound (split_parts Small.graded) (globals (after_split Small.graded)))
    as HP by (vm_compute; repeat split; reflexivity).
  split; [exact HP|].
  apply (sweeps_select_first_maximum Small.graded (split_parts Small.graded)
           (after_split Small.graded) Small.graded_tree Small.graded_forest
           (range 1 21 1) HP).
  - intros c Hc. change (range 1 6 1) with [1; 2; 3; 4; 5]%Z in Hc.
    candidates Hc ltac:(vm_compute; reflexivity).
  - intros c Hc.
    change (range 1 21 1)
      with [1; 2; 3; 4; 5; 6; 7; 8; 9; 10;
            11; 12; 13; 14; 15; 16; 17; 18; 19; 20]%Z in Hc.
    candidates Hc ltac:(vm_compute; reflexivity).
Defined.

(** C1 as stated fails when no candidate is ever right: every candidate
    then attains the maximum 0, the first of them is depth 1, and the
    decision-tree sweep reports depth 0, which is not a candidate. *)
Lemma sweeps_select_first_maximum_counterexample :
  (forall c, c ∈ range 1 6 1 ->
     validation_accuracy Small.all_wrong (split_parts Small.all_wrong)
       (DecisionTreeClassifier 12345 c) = Ok (0 # 2)) /\
  first_maximum (fun _ => 0 # 2) (range 1 6 1) 1 /\
  (decision_tree_cell Small.all_wrong (after_split Small.all_wrong)).1
    = Ok tt /\
  globals (decision_tree_cell Small.all_wrong (after_split Small.all_wrong)).2
    !! "best_depth" = Some (VInt 0) /\
  ~ first_maximum (fun _ => 0 # 2) (range 1 6 1) 0.
Proof.
  split; [|split; [|split; [|split]]].
  - intros c _. vm_compute. reflexivity.
  - exists [], [2; 3; 4; 5]%Z. split; [reflexivity|]. split.
    + intros c' Hc'. by apply elem_of_nil in Hc'.
    + intros c' _. apply Qle_refl.
  - vm_compute. reflexivity.
  - vm_compute. reflexivity.
  - intros (before & after & Heq & _).
    assert (0%Z ∈ range 1 6 1) as Hin
      by (rewrite Heq; apply elem_of_app; right; left).
    change (range 1 6 1) with [1; 2; 3; 4; 5]%Z in Hin.
    repeat (apply elem_of_cons in Hin as [Hin|Hin]; [discriminate Hin|]).
    apply elem_of_nil in Hin. destruct Hin.
Qed.


(** ** C2: the final evaluation *)

(** C2 (as amended).  The last cell builds a random forest with 15
    estimators, depth 3 and seed 12345, fits it on the training partition,
    scores its predictions for the test rows against the test labels and
    prints that accuracy.  It does so for every value of the accuracy: the
    cell compares it with nothing. *)
Theorem final_evaluation_reports_test_accuracy (lib : Library)
    (P : partitions) (s : state) (a : Q) :
  bound P (globals s) ->
  test_accuracy lib P (RandomForestClassifier 12345 15 3) = Ok a ->
  exists s',
    test_model_cell lib s = (Ok tt, s') /\
    bound P (globals s') /\
    globals s' !! "best_model" =
      Some (VModel (mkModel (RandomForestClassifier 12345 15 3)
                      (Some (features_train P, target_train P)))) /\
    globals s' !! "accuracy_test" = Some (VFloat a) /\
    stdout s' = (stdout s ++ [[VStr "Test Accuracy:"; VFloat a]])%list.
Proof. apply test_model_cell_run. Qed.

Lemma final_evaluation_reports_test_accuracy_witness :
  bound Recorded.parts (globals (after_split Recorded.library)) /\
  test_accuracy Recorded.library Recorded.parts
    (RandomForestClassifier 12345 15 3) = Ok (504 # 643) /\
  exists s',
    test_model_cell Recorded.library (after_split Recorded.library)
      = (Ok tt, s') /\
    globals s' !! "accuracy_test" = Some (VFloat (504 # 643)).
Proof.
  assert (bound Recorded.parts (globals (after_split Recorded.library)))
    as HP by (vm_compute; repeat split; reflexivity).
  assert (test_accuracy Recorded.library Recorded.parts
            (RandomForestClassifier 12345 15 3) = Ok (504 # 643)) as Ha
    by (vm_compute; reflexivity).
  split; [exact HP|]. split; [exact Ha|].
  destruct (final_evaluation_reports_test_accuracy _ _ _ _ HP Ha)
    as (s' & Hrun & _ & _ & Hacc & _).
  exists s'. split; assumption.
Defined.

(** C2 as stated fails: with a forest that is wrong on every test row the
    accuracy is 0, below the floor of 0.5, and the cell still completes,
    having printed that accuracy and nothing else. *)
Lemma final_evaluation_reports_test_accuracy_counterexample :
  test_model_cell Small.all_wrong (after_split Small.all_wrong)
    = (Ok tt,
       (test_model_cell Small.all_wrong (after_split Small.all_wrong)).2) /\
  globals (test_model_cell Small.all_wrong (after_split Small.all_wrong)).2
    !! "accuracy_test" = Some (VFloat (0 # 2)) /\
  ~ (5 # 10 < 0 # 2)%Q /\
  stdout (test_model_cell Small.all_wrong (after_split Small.all_wrong)).2 =
    (stdout (after_split Small.all_wrong) ++
     [[VStr "Test Accuracy:"; VFloat (0 # 2)]])%list.
Proof.
  split; [|split; [|split]].
  - vm_compute. reflexivity.
  - vm_compute. reflexivity.
  - intros H. vm_compute in H. discriminate H.
  - vm_compute. reflexivity.
Qed.

(** ** C3: the cut at 0.5 *)

Lemma threshold_above t p : (t < p)%Q -> threshold t p = 1%Z.
Proof. intros H%Qgt_bool_true. unfold threshold. by rewrite H. Qed.

Lemma threshold_not_above t p : (p <= t)%Q -> threshold t p = 0%Z.
Proof. intros H%Qgt_bool_false. unfold threshold. by rewrite H. Qed.

Lemma binarize_lookup t (ps : Series) i p :
  ps !! i = Some p -> binarize t ps !! i = Some (inject_Z (threshold t p)).
Proof. intros H. unfold binarize. by rewrite list_lookup_fmap, H. Qed.

(** C3.  Whatever vector of scores the fitted regressor predicts for the
    validation rows, the regression cell binds it to [predictions_valid]
    and binds to [predictions_binary] its classes by the strict comparison
    [> 0.5], also when the scoring that follows raises: the class vector
    has one entry per score, a score equal to 0.5 (or below) gives class 0
    and a score above 0.5 gives class 1.  These classes are what the cell
    scores against the validation labels, and when that returns the cell
    binds and prints the accuracy. *)
Theorem regression_cut_is_strict (lib : Library) (P : partitions) (s : state)
    (scores : Series) :
  bound P (globals s) ->
  fit lib LinearRegression (features_train P) (target_train P) = Ok tt ->
  predict lib LinearRegression (features_train P, target_train P)
    (features_valid P) = Ok scores ->
  let s' := (linear_regression_cell lib s).2 in
  globals s' !! "predictions_valid" = Some (VSeries scores) /\
  globals s' !! "predictions_binary" =
    Some (VSeries (binarize (5 # 10) scores)) /\
  length (binarize (5 # 10) scores) = length scores /\
  (forall i p, scores !! i = Some p ->
     binarize (5 # 10) scores !! i = Some (inject_Z (threshold (5 # 10) p)) /\
     ((p == 5 # 10)%Q -> threshold (5 # 10) p = 0%Z) /\
     ((p <= 5 # 10)%Q -> threshold (5 # 10) p = 0%Z) /\
     ((5 # 10 < p)%Q -> threshold (5 # 10) p = 1%Z)) /\
  (linear_regression_cell lib s).1 =
    match accuracy_score (target_valid P) (binarize (5 # 10) scores) with
    | Ok _ => Ok tt
    | Raise e => Raise e
    end /\
  (forall a,
     accuracy_score (target_valid P) (binarize (5 # 10) scores) = Ok a ->
     globals s' !! "accuracy" = Some (VFloat a) /\
     stdout s' = (stdout s ++ [[VStr "Accuracy:"; VFloat a]])%list).
Proof.
  intros (HXtr & Hytr & HXva & Hyva & HXte & Hyte) Hfit Hpred s'.
  assert (exists s1,
    linear_regression_cell lib s =
      (match accuracy_score (target_valid P) (binarize (5 # 10) scores) with
       | Ok _ => Ok tt
       | Raise e => Raise e
       end, s1) /\
    globals s1 !! "predictions_valid" = Some (VSeries scores) /\
    globals s1 !! "predictions_binary" =
      Some (VSeries (binarize (5 # 10) scores)) /\
    forall a,
      accuracy_score (target_valid P) (binarize (5 # 10) scores) = Ok a ->
      globals s1 !! "accuracy" = Some (VFloat a) /\
      stdout s1 = (stdout s ++ [[VStr "Accuracy:"; VFloat a]])%list)
    as (s1 & Hrun & Hv & Hb & Hacc).
  { unfold linear_regression_cell. repeat exec1.
    erewrite (bind_Ok (method_fit _ _)); cycle 1.
    { eapply method_fit_run; simplify_map_eq; eauto. }
    cbn [globals stdout].
    erewrite (bind_Ok (method_predict _ _ _)); cycle 1.
    { eapply method_predict_run; simplify_map_eq; eauto. }
    repeat exec1.
    destruct (accuracy_score (target_valid P) (binarize (5 # 10) scores))
      as [a|e] eqn:Ha.
    - erewrite (bind_Ok (call_accuracy_score _ _)); cycle 1.
      { eapply call_accuracy_score_run; simplify_map_eq; eauto. }
      repeat exec1. eexists. split; [reflexivity|]. cbn [globals stdout].
      split; [by simplify_map_eq|]. split; [by simplify_map_eq|].
      intros a' [= <-]. split; [by simplify_map_eq|done].
    - erewrite (bind_Raise (call_accuracy_score _ _)); cycle 1.
      { eapply call_accuracy_score_raise; simplify_map_eq; eauto. }
      eexists. split; [reflexivity|]. cbn [globals stdout].
      split; [by simplify_map_eq|]. split; [by simplify_map_eq|]. done. }
  subst s'. rewrite Hrun. cbn [fst snd].
  split; [done|]. split; [done|]. split; [apply length_fmap|].
  split; [|by split].
  intros i p Hp. split; [by apply binarize_lookup|].
  split; [|split].
  - intros Heq. apply threshold_not_above. rewrite Heq. apply Qle_refl.
  - apply threshold_not_above.
  - apply threshold_above.
Qed.

Lemma regression_cut_is_strict_witness :
  let P := split_parts Small.on_the_cut in
  let s := after_split Small.on_the_cut in
  bound P (globals s) /\
  predict Small.on_the_cut LinearRegression (features_train P, target_train P)
    (features_valid P) = Ok [5 # 10; 5 # 10] /\
  globals (linear_regression_cell Small.on_the_cut s).2 !! "predictions_valid"
    = Some (VSeries [5 # 10; 5 # 10]) /\
  globals (linear_regression_cell Small.on_the_cut s).2 !! "predictions_binary"
    = Some (VSeries (binarize (5 # 10) [5 # 10; 5 # 10])) /\
  binarize (5 # 10) [5 # 10; 5 # 10] = [0; 0]%Q.
Proof.
  intros P s.
  assert (bound P (globals s)) as HP
    by (vm_compute; repeat split; reflexivity).
  assert (predict Small.on_the_cut LinearRegression
            (features_train P, target_train P) (features_valid P)
          = Ok [5 # 10; 5 # 10]) as Hp by (vm_compute; reflexivity).
  split; [exact HP|]. split; [exact Hp|].
  destruct (regression_cut_is_strict Small.on_the_cut P s [5 # 10; 5 # 10]
              HP eq_refl Hp) as (Hv & Hb & _).
  split; [exact Hv|]. split; [exact Hb|]. reflexivity.
Defined.


(** ** C4: the two-stage split *)

Lemma small_library_shuffles n answer : shuffles (Small.library n answer).
Proof. intros seed k. apply reverse_Permutation. Qed.

(** C4 (as amended).  For a frame of [N >= 3] rows with its label column,
    the split cell succeeds; the test part has [ceil(N / 5)] rows, the
    validation part [ceil] of a quarter of the rest and the training part
    what remains, so the sizes sum to [N] and are 20%, 20% and 60% of [N] up
    to rounding (exactly when 5 divides [N]); the three parts together are a
    rearrangement of the rows; and running the cell again on its own result
    binds the same partitions. *)
Theorem two_stage_split_sizes (lib : Library) (s : state) (d : DataFrame)
    (y : Series) :
  shuffles lib ->
  globals s !! "data" = Some (VFrame d) ->
  df_getitem "is_ultra" d = Ok y ->
  (3 <= n_rows d)%nat ->
  exists s1 P X,
    split_cell lib s = (Ok tt, s1) /\
    bound P (globals s1) /\
    df_drop "is_ultra" d = Ok X /\
    (let N := Z.of_nat (n_rows d) in
     let te := Z.of_nat (n_rows (features_test P)) in
     let va := Z.of_nat (n_rows (features_valid P)) in
     let tr := Z.of_nat (n_rows (features_train P)) in
     (tr + va + te = N)%Z /\
     te = ((N + 4) / 5)%Z /\ va = ((N - te + 3) / 4)%Z /\
     (N <= 5 * te <= N + 4)%Z /\
     (N - 4 <= 5 * va <= N + 4)%Z /\
     (3 * N - 8 <= 5 * tr <= 3 * N + 1)%Z /\
     ((N mod 5 = 0)%Z ->
      (5 * tr = 3 * N)%Z /\ (5 * va = N)%Z /\ (5 * te = N)%Z)) /\
    length (target_train P) = n_rows (features_train P) /\
    length (target_valid P) = n_rows (features_valid P) /\
    length (target_test P) = n_rows (features_test P) /\
    (df_rows (features_test P) ++ df_rows (features_valid P) ++
       df_rows (features_train P))%list ≡ₚ df_rows X /\
    (target_test P ++ target_valid P ++ target_train P)%list ≡ₚ y /\
    exists s2, split_cell lib s1 = (Ok tt, s2) /\ bound P (globals s2).
Proof.
  intros Hsh Hd Hy HN.
  destruct (split_of_defined lib d y Hsh Hy HN)
    as (P & X & HP & HX & Hte & Hva & Htr & Hlte & Hlva & Hltr & Hrows & Hys).
  destruct (split_cell_run lib d P s Hd HP) as (s1 & Hrun & Hb & Hd1 & _).
  destruct (split_cell_run lib d P s1 Hd1 HP) as (s2 & Hrun2 & Hb2 & _).
  exists s1, P, X. repeat (split; [done|]).
  split; [|by eauto 10].
  cbv zeta. rewrite Htr, Hva, Hte.
  assert (3 <= Z.of_nat (n_rows d))%Z as HN' by lia.
  clear -HN'. set (N := Z.of_nat (n_rows d)) in *. clearbody N.
  repeat split; Z.div_mod_to_equations; lia.
Qed.

Lemma two_stage_split_sizes_witness :
  shuffles Recorded.library /\
  globals (load_cell Recorded.library fresh).2 !! "data"
    = Some (VFrame Recorded.dataset) /\
  (3 <= n_rows Recorded.dataset)%nat /\
  exists s1 P,
    split_cell Recorded.library (load_cell Recorded.library fresh).2
      = (Ok tt, s1) /\
    bound P (globals s1) /\
    Z.of_nat (n_rows (features_train P)) = 1928%Z /\
    Z.of_nat (n_rows (features_valid P)) = 643%Z /\
    Z.of_nat (n_rows (features_test P)) = 643%Z.
Proof.
  assert (shuffles Recorded.library) as Hsh by (intros seed k; reflexivity).
  assert (globals (load_cell Recorded.library fresh).2 !! "data"
          = Some (VFrame Recorded.dataset)) as Hd by reflexivity.
  assert (df_getitem "is_ultra" Recorded.dataset
          = Ok (replicate 3214 0%Q)) as Hy by (vm_compute; reflexivity).
  assert (3 <= n_rows Recorded.dataset)%nat as HN
    by (apply Nat.leb_le; vm_compute; reflexivity).
  split; [exact Hsh|]. split; [exact Hd|]. split; [exact HN|].
  destruct (two_stage_split_sizes Recorded.library _ _ _ Hsh Hd Hy HN)
    as (s1 & P & X & Hrun & Hb & _ & (Hsum & Hte & Hva & _) & _).
  exists s1, P. split; [exact Hrun|]. split; [exact Hb|].
  assert (Z.of_nat (n_rows Recorded.dataset) = 3214%Z) as E
    by (vm_compute; reflexivity).
  rewrite E in Hsum, Hte, Hva.
  assert (Z.of_nat (n_rows (features_test P)) = 643%Z) as Hte'
    by (rewrite Hte; reflexivity).
  assert (Z.of_nat (n_rows (features_valid P)) = 643%Z) as Hva'
    by (rewrite Hva, Hte'; reflexivity).
  split; [lia|]. split; assumption.
Defined.

(** C4 as stated fails on small frames: seven rows are split 3 / 2 / 2,
    which is 43% / 29% / 29%, and two rows cannot be split at all (the
    second stage would leave no training row). *)
Lemma two_stage_split_sizes_counterexample :
  rows_of (after_split Small.seven_rows) "features_train" = Some 3%nat /\
  rows_of (after_split Small.seven_rows) "features_valid" = Some 2%nat /\
  rows_of (after_split Small.seven_rows) "features_test" = Some 2%nat /\
  (5 * 3 <> 3 * 7)%Z /\
  (split_cell Small.two_rows (load_cell Small.two_rows fresh).2).1
    = Raise (ValueError "the resulting train set will be empty").
Proof. repeat split; try (vm_compute; reflexivity). discriminate. Qed.


(** ** C5: what the per-candidate lines say *)

(** On increasing candidates, the label of every line is a depth below
    the candidate whose accuracy the line carries. *)
Lemma decision_tree_lines_below acc cs :
  StronglySorted Z.lt cs ->
  forall b d0, Forall (Z.lt d0) cs ->
    Forall2 (labelled_below acc) cs (decision_tree_lines acc cs b (VInt d0)).
Proof.
  induction 1 as [|c cs _ IH Hc]; intros b d0 Hd; cbn [decision_tree_lines].
  - constructor.
  - apply Forall_cons in Hd as [Hd0 Hd]. constructor.
    + exists d0. by split.
    + destruct (Qgt_bool (acc c) b); by apply IH.
Qed.

Lemma decision_tree_lines_labels acc :
  Forall2 (labelled_below acc) (range 1 6 1)
    (decision_tree_lines acc (range 1 6 1) 0 (VInt 0)).
Proof.
  apply decision_tree_lines_below.
  - change (range 1 6 1) with [1; 2; 3; 4; 5]%Z.
    repeat (constructor; [|by repeat constructor]). constructor.
  - change (range 1 6 1) with [1; 2; 3; 4; 5]%Z. by repeat constructor.
Qed.

(** C5, evaluated on the code.  The forest sweeps print each candidate
    beside its own accuracy.  The decision-tree sweep does not: the line
    that carries the accuracy of depth [c] is labelled with the best depth
    found before [c] was tried, a depth below [c], and the first line is
    labelled 0. *)
Theorem decision_tree_lines_carry_the_previous_best (lib : Library)
    (P : partitions) (s : state) (acc_tree acc_forest : Z -> Q)
    (cs : list Z) :
  bound P (globals s) ->
  (forall c, c ∈ range 1 6 1 ->
     validation_accuracy lib P (DecisionTreeClassifier 12345 c)
       = Ok (acc_tree c)) ->
  (forall c, c ∈ cs ->
     validation_accuracy lib P (RandomForestClassifier 12345 c 3)
       = Ok (acc_forest c)) ->
  (exists s' lines summary,
     decision_tree_cell lib s = (Ok tt, s') /\
     stdout s' = (stdout s ++ lines ++ summary)%list /\
     Forall2 (labelled_below acc_tree) (range 1 6 1) lines /\
     head lines
       = Some [VStr "max_depth ="; VInt 0; VStr ": "; VFloat (acc_tree 1%Z)]) /\
  (exists summary,
     stdout (random_forest_cell lib cs s).2 =
       (stdout s ++
        ((fun c => [VStr "Estimators : "; VInt c; VStr ": ";
                    VFloat (acc_forest c)]) <$> cs) ++ summary)%list).
Proof.
  intros HP Htree Hforest. split.
  - destruct (decision_tree_cell_run lib P acc_tree s HP Htree)
      as (s' & Hrun & _ & _ & _ & Hout).
    eexists s', _, _. split; [exact Hrun|]. split; [exact Hout|].
    split; [apply decision_tree_lines_labels | reflexivity].
  - destruct (random_forest_cell_run lib P acc_forest cs s HP Hforest)
      as (s' & Hrun & _).
    destruct (selected _ _); destruct Hrun as [-> Hout];
      eexists; exact Hout.
Qed.

Lemma decision_tree_lines_carry_the_previous_best_witness :
  bound (split_parts Small.graded) (globals (after_split Small.graded)) /\
  exists s' lines summary,
    decision_tree_cell Small.graded (after_split Small.graded) = (Ok tt, s') /\
    stdout s' = (stdout (after_split Small.graded) ++ lines ++ summary)%list /\
    Forall2 (labelled_below Small.graded_tree) (range 1 6 1) lines /\
    head lines
      = Some [VStr "max_depth ="; VInt 0; VStr ": ";
              VFloat (Small.graded_tree 1%Z)].
Proof.
  assert (bound (split_parts Small.graded) (globals (after_split Small.graded)))
    as HP by (vm_compute; repeat split; reflexivity).
  split; [exact HP|].
  apply (decision_tree_lines_carry_the_previous_best Small.graded
           (split_parts Small.graded) (after_split Small.graded)
           Small.graded_tree Small.graded_forest (range 1 21 1) HP).
  - intros c Hc. change (range 1 6 1) with [1; 2; 3; 4; 5]%Z in Hc.
    candidates Hc ltac:(vm_compute; reflexivity).
  - intros c Hc.
    change (range 1 21 1)
      with [1; 2; 3; 4; 5; 6; 7; 8; 9; 10;
            11; 12; 13; 14; 15; 16; 17; 18; 19; 20]%Z in Hc.
    candidates Hc ltac:(vm_compute; reflexivity).
Defined.


(** ** C7: accuracies are fractions of the unit interval *)











(** ** C8: failures end the run *)

Lemma run_cells_raise (pre post : list (M unit)) (c : M unit) s s1 e s2 :
  run_cells pre s = (Ok tt, s1) -> c s1 = (Raise e, s2) ->
  run_cells (pre ++ c :: post) s = (Raise e, s2).
Proof.
  revert s. induction pre as [|c0 pre IH]; intros s Hpre Hc.
  - injection Hpre as <-. simpl. by apply bind_Raise.
  - simpl in *. unfold mbind, M_bind in *.
    destruct (c0 s) as [[[]|e0] s0]; [|discriminate Hpre]. by apply IH.
Qed.

Lemma split_cell_missing_label lib d s :
  globals s !! "data" = Some (VFrame d) ->
  column_index "is_ultra" d = None ->
  split_cell lib s = (Raise (KeyError "is_ultra"), s).
Proof.
  intros Hd Hcol. unfold split_cell. repeat exec1.
  apply bind_Raise. unfold lift, df_drop. by rewrite Hcol.
Qed.

Lemma decision_tree_cell_fit_raise lib P s e :
  bound P (globals s) ->
  fit lib (DecisionTreeClassifier 12345 1) (features_train P) (target_train P)
    = Raise e ->
  (decision_tree_cell lib s).1 = Raise e.
Proof.
  intros (HXtr & Hytr & _) Hfit. unfold decision_tree_cell. repeat exec1.
  erewrite bind_Raise; [reflexivity|].
  change (range 1 6 1) with [1; 2; 3; 4; 5]%Z. cbn [for_in]. repeat exec1.
  apply bind_Raise. unfold decision_tree_body. repeat exec1.
  apply bind_Raise. unfold method_fit. repeat exec1.
  apply bind_Raise. unfold lift. cbn [m_est]. by rewrite Hfit.
Qed.

(** C8 (as amended).  The notebook handles no exception.  If [read_csv]
    raises (the file is missing or cannot be parsed) the run ends with that
    exception, nothing bound and nothing printed.  If the file loads without
    a label column the split raises [KeyError] and the run ends there.  If
    the first [fit] rejects the data (non-numeric values) the run ends with
    its exception.  In general the exception of any cell ends the run, in
    the state that cell left: no later cell runs. *)
Theorem failures_end_the_run (lib : Library) (s : state) :
  (forall e,
     read_csv lib "/datasets/users_behavior.csv" = Raise e ->
     notebook lib s = (Raise e, s)) /\
  (forall d,
     read_csv lib "/datasets/users_behavior.csv" = Ok d ->
     column_index "is_ultra" d = None ->
     notebook lib s =
       (Raise (KeyError "is_ultra"),
        mkState (<["data" := VFrame d]> (globals s))
                (stdout s ++ info lib d)%list)) /\
  (forall d P e,
     read_csv lib "/datasets/users_behavior.csv" = Ok d ->
     split_of lib d = Ok P ->
     fit lib (DecisionTreeClassifier 12345 1)
       (features_train P) (target_train P) = Raise e ->
     (notebook lib s).1 = Raise e) /\
  (forall pre c post s1 e s2,
     cells lib = (pre ++ c :: post)%list ->
     run_cells pre s = (Ok tt, s1) ->
     c s1 = (Raise e, s2) ->
     notebook lib s = (Raise e, s2)).
Proof.
  split; [|split; [|split]].
  - intros e He. unfold notebook, cells. cbn [run_cells].
    apply bind_Raise. by apply load_cell_raise.
  - intros d Hd Hcol. unfold notebook, cells. cbn [run_cells].
    erewrite bind_Ok by (by apply load_cell_run).
    apply bind_Raise. apply (split_cell_missing_label lib d); [|done].
    cbn [globals]. apply lookup_insert_eq.
  - intros d P e Hd HP Hfit. unfold notebook, cells. cbn [run_cells].
    erewrite bind_Ok by (by apply load_cell_run).
    destruct (split_cell_run lib d P
                (mkState (<["data" := VFrame d]> (globals s))
                   (stdout s ++ info lib d)%list))
      as (s2 & Hrun & Hb & _); [apply lookup_insert_eq | done |].
    erewrite bind_Ok by exact Hrun.
    pose proof (decision_tree_cell_fit_raise lib P s2 e Hb Hfit) as Hdt.
    unfold later_cells. cbn [run_cells]. unfold mbind at 1, M_bind.
    destruct (decision_tree_cell lib s2) as [[[]|e'] s3]; cbn [fst] in Hdt;
      [discriminate Hdt | by injection Hdt as ->].
  - intros pre c post s1 e s2 Hcells Hpre Hc. unfold notebook.
    rewrite Hcells. by eapply run_cells_raise.
Qed.

Lemma failures_end_the_run_witness :
  read_csv Small.missing_file "/datasets/users_behavior.csv"
    = Raise FileNotFoundError /\
  notebook Small.missing_file fresh = (Raise FileNotFoundError, fresh).
Proof.
  split; [reflexivity|].
  apply (proj1 (failures_end_the_run Small.missing_file fresh)).
  reflexivity.
Defined.

(** C8 as stated fails for a schema mismatch that no library call rejects:
    the notebook checks nothing itself, so a file with a single feature
    column beside the label is processed to the end without an exception. *)
Lemma failures_end_the_run_counterexample :
  (exists d,
     read_csv Small.one_feature "/datasets/users_behavior.csv" = Ok d /\
     df_columns d = ["minutes"; "is_ultra"] /\
     df_columns d <> ["calls"; "minutes"; "messages"; "mb_used"; "is_ultra"]) /\
  (notebook Small.one_feature fresh).1 = Ok tt /\
  length (stdout (notebook Small.one_feature fresh).2) = 44%nat.
Proof.
  split; [|split].
  - eexists. split; [reflexivity|]. split; [reflexivity | discriminate].
  - vm_compute. reflexivity.
  - vm_compute. reflexivity.
Qed.


(** ** C9: the partitions are read-only after the split *)

Lemma keeps_assign g0 x v s :
  x ∉ partition_names -> keeps g0 s ->
  keeps g0 (mkState (<[x := v]> (globals s)) (stdout s)).
Proof.
  intros Hx Hs y Hy. cbn [globals]. rewrite lookup_insert_ne; [by apply Hs|].
  by intros ->.
Qed.

Lemma keeps_later_cells lib g0 :
  Forall (fun c => yields (keeps g0) c (fun _ => True)) (later_cells lib) /\
  yields (keeps g0) (decision_tree_body lib) (fun _ => True) /\
  yields (keeps g0) (random_forest_body lib) (fun _ => True).
Proof.
  set (writable := fun (x : string) (v : value) => x ∉ partition_names).
  assert (forall x v s, writable x v -> keeps g0 s ->
            keeps g0 (mkState (<[x := v]> (globals s)) (stdout s)))
    as HA by (intros x v s; apply keeps_assign).
  assert (forall s out, keeps g0 s -> keeps g0 (mkState (globals s) out))
    as HO by done.
  assert (forall x v, x ∉ partition_names -> writable x v) as W1 by done.
  assert (forall a, unit_interval a -> writable "accuracy" (VFloat a)) as W2
    by (intros a _; fresh_name).
  assert (forall a, unit_interval a -> writable "accuracy_test" (VFloat a))
    as W3 by (intros a _; fresh_name).
  assert (writable "best_accuracy" (VInt 0)) as W4 by fresh_name.
  assert (forall s v, keeps g0 s -> globals s !! "accuracy" = Some v ->
            writable "best_accuracy" v) as W5 by (intros s v _ _; fresh_name).
  assert (forall x, x ∈ partition_names ->
            x ∈ partition_names \/
            x ∈ ["accuracy"; "accuracy_test"; "best_accuracy"]) as W6
    by (intros x Hx; by left).
  split; [|split].
  - by eapply yields_later_cells.
  - by eapply yields_decision_tree_body.
  - by eapply yields_random_forest_body.
Qed.

(** C9.  None of the cells after the split, and no sweep iteration, rebinds
    a partition name: whatever the library does and whether the cell
    returns or raises, the six names hold afterwards what they held before.
    Every sweep iteration, and the final refit, builds its estimator anew
    and fits it on that training partition: the model and the accuracy it
    leaves depend on the candidate and on the partitions, not on what
    earlier iterations left in [model], [predictions_valid] or
    [accuracy]. *)
Theorem partitions_are_read_only (lib : Library) (s : state) :
  (forall c, c ∈ later_cells lib -> keeps (globals s) (c s).2) /\
  keeps (globals s) (run_cells (later_cells lib) s).2 /\
  keeps (globals s) (decision_tree_body lib s).2 /\
  keeps (globals s) (random_forest_body lib s).2 /\
  (forall P c bd ba b a,
     bound P (globals s) ->
     globals s !! "depth" = Some (VInt c) ->
     globals s !! "best_depth" = Some bd ->
     globals s !! "best_accuracy" = Some ba -> num_of ba = Some b ->
     validation_accuracy lib P (DecisionTreeClassifier 12345 c) = Ok a ->
     exists s',
       decision_tree_body lib s = (Ok tt, s') /\
       bound P (globals s') /\
       globals s' !! "accuracy" = Some (VFloat a) /\
       globals s' !! "model" =
         Some (VModel (mkModel (DecisionTreeClassifier 12345 c)
                         (Some (features_train P, target_train P))))) /\
  (forall P c ba b a,
     bound P (globals s) ->
     globals s !! "est" = Some (VInt c) ->
     globals s !! "depth" = Some (VInt 3) ->
     globals s !! "best_accuracy" = Some ba -> num_of ba = Some b ->
     validation_accuracy lib P (RandomForestClassifier 12345 c 3) = Ok a ->
     exists s',
       random_forest_body lib s = (Ok tt, s') /\
       bound P (globals s') /\
       globals s' !! "accuracy" = Some (VFloat a) /\
       globals s' !! "model" =
         Some (VModel (mkModel (RandomForestClassifier 12345 c 3)
                         (Some (features_train P, target_train P))))) /\
  (forall P a,
     bound P (globals s) ->
     test_accuracy lib P (RandomForestClassifier 12345 15 3) = Ok a ->
     exists s',
       test_model_cell lib s = (Ok tt, s') /\
       bound P (globals s') /\
       globals s' !! "accuracy_test" = Some (VFloat a) /\
       globals s' !! "best_model" =
         Some (VModel (mkModel (RandomForestClassifier 12345 15 3)
                         (Some (features_train P, target_train P))))).
Proof.
  destruct (keeps_later_cells lib (globals s)) as (Hc & Hdt & Hrf).
  assert (keeps (globals s) s) as Hs by done.
  split; [|split; [|split; [|split; [|split; [|split]]]]].
  - intros c Hin. rewrite Forall_forall in Hc. by apply (Hc c Hin s).
  - assert (forall s' out, keeps (globals s) s' ->
              keeps (globals s) (mkState (globals s') out)) as HO by done.
    by apply (yields_run_cells (keeps (globals s)) (later_cells lib) Hc s).
  - by apply (Hdt s).
  - by apply (Hrf s).
  - intros P c bd ba b a HP Hd Hbd Hba Hb Ha.
    destruct (decision_tree_body_run lib P s c bd ba b a HP Hd Hbd Hba Hb Ha)
      as (s' & Hrun & HP' & _ & _ & _ & _ & Hacc & Hm).
    by exists s'.
  - intros P c ba b a HP Hc' Hd Hba Hb Ha.
    destruct (random_forest_body_run lib P s c _ ba b a HP Hc' Hd eq_refl
                Hba Hb Ha)
      as (s' & Hrun & HP' & _ & _ & _ & _ & Hacc & Hm & _).
    by exists s'.
  - intros P a HP Ha.
    destruct (test_model_cell_run lib P a s HP Ha)
      as (s' & Hrun & HP' & Hm & Hacc & _).
    by exists s'.
Qed.

Lemma partitions_are_read_only_witness :
  bound (split_parts Small.all_wrong)
    (globals (after_split Small.all_wrong)) /\
  keeps (globals (after_split Small.all_wrong))
    (run_cells (later_cells Small.all_wrong)
       (after_split Small.all_wrong)).2.
Proof.
  split; [vm_compute; repeat split; reflexivity|].
  apply (partitions_are_read_only Small.all_wrong
           (after_split Small.all_wrong)).
Defined.


(** ** C10: the summary of a sweep in which nothing improves *)

Lemma best_seen_all_zero acc cs :
  (forall c, c ∈ cs -> (acc c == 0)%Q) -> best_seen acc cs 0 None = (0%Q, None).
Proof.
  intros Hz.
  destruct (best_seen_cases acc cs 0 None)
    as [[-> _] | (c & pre & post & -> & _ & Hlt & _)]; [done|].
  rewrite Hz in Hlt by (apply elem_of_app; right; left).
  by apply Qlt_irrefl in Hlt.
Qed.

Lemma best_seen_selected acc cs c :
  (best_seen acc cs 0 None).2 = Some c -> c ∈ cs /\ (0 < acc c)%Q.
Proof.
  destruct (best_seen_cases acc cs 0 None)
    as [[-> _] | (c' & pre & post & -> & -> & Hlt & _)]; [done|].
  intros [= <-]. split; [|done]. apply elem_of_app; right; left.
Qed.

(** C10 (as amended).  The forest sweep initialises [best_estimators],
    which stays 0, and assigns and prints [best_est].  Entered with
    [best_est] unbound (the first forest sweep of a fresh run), the sweep
    completes exactly when some candidate has a positive accuracy, and with
    all accuracies 0 its summary raises [NameError].  Entered with [best_est]
    already bound (the second forest sweep, after a first one that
    completed), the summary does not raise: with all accuracies 0 it prints
    the value left by the earlier sweep beside the accuracy 0.  With all
    accuracies 0 the decision-tree sweep reports depth 0, not a candidate. *)
Theorem summary_of_a_sweep_without_improvement (lib : Library)
    (P : partitions) (s : state) (acc_forest acc_tree : Z -> Q)
    (cs : list Z) :
  bound P (globals s) ->
  (forall c, c ∈ cs ->
     validation_accuracy lib P (RandomForestClassifier 12345 c 3)
       = Ok (acc_forest c)) ->
  (forall c, c ∈ range 1 6 1 ->
     validation_accuracy lib P (DecisionTreeClassifier 12345 c)
       = Ok (acc_tree c)) ->
  globals (random_forest_cell lib cs s).2 !! "best_estimators"
    = Some (VInt 0) /\
  (globals s !! "best_est" = None ->
   ((random_forest_cell lib cs s).1 = Ok tt <->
    exists c, c ∈ cs /\ (0 < acc_forest c)%Q) /\
   ((forall c, c ∈ cs -> (acc_forest c == 0)%Q) ->
    (random_forest_cell lib cs s).1 = Raise (NameError "best_est"))) /\
  (forall v,
     globals s !! "best_est" = Some v ->
     (forall c, c ∈ cs -> (acc_forest c == 0)%Q) ->
     (random_forest_cell lib cs s).1 = Ok tt /\
     stdout (random_forest_cell lib cs s).2 =
       (stdout s ++ random_forest_lines acc_forest cs ++
        [ []; [VStr "Best Parameters"];
          [VStr "Estimators:"; v; VStr ":"; VInt 0] ])%list) /\
  ((forall c, c ∈ range 1 6 1 -> (acc_tree c == 0)%Q) ->
   (decision_tree_cell lib s).1 = Ok tt /\
   globals (decision_tree_cell lib s).2 !! "best_depth" = Some (VInt 0) /\
   (0%Z ∉ range 1 6 1) /\
   last (stdout (decision_tree_cell lib s).2) =
     Some [VStr "max_depth ="; VInt 0; VStr ":"; VInt 0]).
Proof.
  intros HP Hforest Htree.
  destruct (random_forest_cell_run lib P acc_forest cs s HP Hforest)
    as (s' & Hrun & _ & _ & Hbe & Hbs).
  split; [|split; [|split]].
  - destruct (selected _ _); destruct Hrun as [-> _]; done.
  - intros Hnone. rewrite Hnone in Hrun. split; [split|].
    + intros Hok.
      destruct ((best_seen acc_forest cs 0 None).2) as [c|] eqn:Hsel.
      * exists c. by apply best_seen_selected.
      * cbn [selected] in Hrun. destruct Hrun as [Hrun _].
        rewrite Hrun in Hok. discriminate Hok.
    + intros (c & Hc & Hpos).
      pose proof (best_seen_positive acc_forest cs c Hc Hpos) as Hsome.
      destruct ((best_seen acc_forest cs 0 None).2) as [c'|]; [|done].
      cbn [selected] in Hrun. by destruct Hrun as [-> _].
    + intros Hz. rewrite (best_seen_all_zero _ _ Hz) in Hrun.
      cbn [selected snd] in Hrun. by destruct Hrun as [-> _].
  - intros v Hv Hz. rewrite Hv, (best_seen_all_zero _ _ Hz) in Hrun.
    cbn [selected snd best_value] in Hrun. destruct Hrun as [Hr Hout].
    rewrite Hr. by cbn [fst snd].
  - intros Hz.
    destruct (decision_tree_cell_run lib P acc_tree s HP Htree)
      as (s1 & Hrun1 & _ & _ & Hbd & Hout).
    rewrite (best_seen_all_zero _ _ Hz) in Hbd, Hout.
    cbn [selected snd best_value default] in Hbd, Hout.
    rewrite Hrun1. cbn [fst snd]. repeat split; try done.
    + intros Hin. change (range 1 6 1) with [1; 2; 3; 4; 5]%Z in Hin.
      repeat (apply elem_of_cons in Hin as [Hin|Hin]; [discriminate Hin|]).
      apply elem_of_nil in Hin. destruct Hin.
    + rewrite Hout, app_assoc, !last_app_cons. reflexivity.
Qed.

Lemma summary_of_a_sweep_without_improvement_witness :
  bound (split_parts Small.all_wrong) (globals (after_split Small.all_wrong)) /\
  globals (after_split Small.all_wrong) !! "best_est" = None /\
  (random_forest_cell Small.all_wrong (range 1 21 1)
     (after_split Small.all_wrong)).1 = Raise (NameError "best_est").
Proof.
  assert (bound (split_parts Small.all_wrong)
            (globals (after_split Small.all_wrong))) as HP
    by (vm_compute; repeat split; reflexivity).
  assert (globals (after_split Small.all_wrong) !! "best_est" = None) as Hn
    by (vm_compute; reflexivity).
  split; [exact HP|]. split; [exact Hn|].
  refine (proj2 (proj1 (proj2
    (summary_of_a_sweep_without_improvement Small.all_wrong
       (split_parts Small.all_wrong) (after_split Small.all_wrong)
       (fun _ => 0 # 2) (fun _ => 0 # 2) (range 1 21 1) HP _ _)) Hn) _).
  - intros c _. vm_compute. reflexivity.
  - intros c _. vm_compute. reflexivity.
  - intros c _. reflexivity.
Defined.

(** C10 as stated fails for the second forest sweep of a run: here every
    candidate of that sweep has accuracy 0, [best_est] is still bound to the
    30 chosen by the first sweep, and the run completes, the second summary
    reading "Estimators: 30 : 0". *)
Lemma summary_of_a_sweep_without_improvement_counterexample :
  Forall (fun c =>
            validation_accuracy Small.small_forests_wrong
              (split_parts Small.small_forests_wrong)
              (RandomForestClassifier 12345 c 3) = Ok (0 # 2))
         (range 1 21 1) /\
  (notebook Small.small_forests_wrong fresh).1 = Ok tt /\
  stdout (notebook Small.small_forests_wrong fresh).2 !! 41%nat =
    Some [VStr "Estimators:"; VInt 30; VStr ":"; VInt 0].
Proof.
  split; [|split].
  - vm_compute. repeat constructor.
  - vm_compute. reflexivity.
  - vm_compute. reflexivity.
Qed.

(** * Further properties of the code *)

(** ** The candidates of a sweep *)

Lemma range_length start stop step :
  (0 < step)%Z ->
  forall k : nat,
    (k < length (range start stop step))%nat <->
    (start + Z.of_nat k * step < stop)%Z.
Proof.
  intros Hstep k. unfold range. rewrite length_fmap, length_seq.
  set (q := ((stop - start + step - 1) / step)%Z).
  assert (forall i : Z, (i < q <-> start + i * step < stop)%Z) as Hq.
  { intros i. unfold q. split; intros H.
    - assert ((i + 1) * step <= stop - start + step - 1)%Z; [|lia].
      transitivity (step * ((stop - start + step - 1) / step))%Z;
        [|apply Z.mul_div_le; lia].
      rewrite (Z.mul_comm step). apply Z.mul_le_mono_nonneg_r; lia.
    - assert (i + 1 <= (stop - start + step - 1) / step)%Z; [|lia].
      apply Z.div_le_lower_bound; lia. }
  split; intros H.
  - apply Hq. lia.
  - apply Hq in H. lia.
Qed.

(** X1.  [range(start, stop, step)] with a positive step holds exactly the
    numbers [start + k * step] below [stop], in increasing order. *)
Theorem range_holds_the_steps_below_stop (start stop step : Z) :
  (0 < step)%Z ->
  (forall c,
     c ∈ range start stop step <->
     exists k, (0 <= k)%Z /\ c = (start + k * step)%Z /\ (c < stop)%Z) /\
  StronglySorted Z.lt (range start stop step).
Proof.
  intros Hstep. split.
  - intros c. split.
    + intros (k & Hc)%list_elem_of_lookup.
      pose proof (lookup_lt_Some _ _ _ Hc) as Hlt.
      apply (range_length _ _ _ Hstep) in Hlt.
      unfold range in Hc. rewrite list_lookup_fmap in Hc.
      destruct (seq 0 _ !! k) as [i|] eqn:Hi; [|done].
      apply lookup_seq in Hi as [-> _]. injection Hc as <-.
      exists (Z.of_nat k). split; [lia|]. by split.
    + intros (k & Hk & -> & Hlt). apply list_elem_of_lookup.
      exists (Z.to_nat k). unfold range. rewrite list_lookup_fmap.
      assert (Z.to_nat k < length (range start stop step))%nat as Hlen
        by (apply range_length; [done|]; rewrite Z2Nat.id; lia).
      unfold range in Hlen. rewrite length_fmap, length_seq in Hlen.
      rewrite (proj2 (lookup_seq 0 _ (Z.to_nat k) (Z.to_nat k)))
        by (split; [done | lia]).
      cbn. by rewrite Z2Nat.id.
  - unfold range. generalize (Z.to_nat ((stop - start + step - 1) / step)).
    intros n. generalize 0%nat.
    induction n as [|n IH]; intros i; cbn; constructor.
    + apply IH.
    + apply Forall_forall. intros c (j & -> & Hj)%list_elem_of_fmap.
      apply elem_of_seq in Hj. nia.
Qed.

Lemma range_holds_the_steps_below_stop_witness :
  (0 < 10)%Z /\
  (30%Z ∈ range 10 51 10 <->
   exists k, (0 <= k)%Z /\ 30%Z = (10 + k * 10)%Z /\ (30 < 51)%Z).
Proof.
  split; [lia|].
  apply (proj1 (range_holds_the_steps_below_stop 10 51 10 ltac:(lia))).
Defined.

(** ** The extremes of the accuracy *)

Lemma count_correct_all y_true y_pred :
  length y_true = length y_pred ->
  (count_correct y_true y_pred = length y_true <->
   Forall2 Qeq y_true y_pred).
Proof.
  revert y_pred. induction y_true as [|t ts IH]; intros [|p ps] Hlen;
    try discriminate Hlen.
  - split; [constructor | done].
  - cbn in Hlen. injection Hlen as Hlen. cbn [count_correct length].
    pose proof (count_correct_le ts ps) as Hle.
    destruct (Qeq_bool t p) eqn:Htp.
    + apply Qeq_bool_iff in Htp. rewrite Forall2_cons, <- (IH ps Hlen).
      split; [intros H; split; [done | lia] | intros [_ H]; lia].
    + split; [lia|]. intros [Heq _]%Forall2_cons.
      apply Qeq_bool_iff in Heq. congruence.
Qed.

Lemma count_correct_none y_true y_pred :
  length y_true = length y_pred ->
  (count_correct y_true y_pred = 0%nat <->
   Forall2 (fun t p => ~ (t == p)%Q) y_true y_pred).
Proof.
  revert y_pred. induction y_true as [|t ts IH]; intros [|p ps] Hlen;
    try discriminate Hlen.
  - split; [constructor | done].
  - cbn in Hlen. injection Hlen as Hlen. cbn [count_correct].
    destruct (Qeq_bool t p) eqn:Htp.
    + apply Qeq_bool_iff in Htp. split; [lia|].
      by intros [Hne _]%Forall2_cons.
    + rewrite Forall2_cons, <- (IH ps Hlen).
      split; [intros H; split; [by apply Qeq_bool_neq | lia]
             | intros [_ H]; lia].
Qed.

(** X2.  An accuracy is 1 exactly when every prediction equals its label
    and 0 exactly when none does. *)
Theorem accuracy_extremes (y_true y_pred : Series) (a : Q) :
  accuracy_score y_true y_pred = Ok a ->
  ((a == 1)%Q <-> Forall2 Qeq y_true y_pred) /\
  ((a == 0)%Q <-> Forall2 (fun t p => ~ (t == p)%Q) y_true y_pred).
Proof.
  intros (Hlen & Hne & ->)%accuracy_score_fraction.
  rewrite <- (count_correct_all _ _ Hlen), <- (count_correct_none _ _ Hlen).
  assert (Z.pos (Pos.of_nat (length y_true)) = Z.of_nat (length y_true)) as E.
  { destruct (length y_true) as [|n]; [done|].
    rewrite <- Pos.of_nat_succ, Zpos_P_of_succ_nat. lia. }
  unfold Qeq. cbn [Qnum Qden]. rewrite E. split; split; lia.
Qed.

Lemma accuracy_extremes_witness :
  accuracy_score [0; 1; 1]%Q [0; 1; 1]%Q = Ok (3 # 3) /\
  ((3 # 3 == 1)%Q <-> Forall2 Qeq [0; 1; 1]%Q [0; 1; 1]%Q).
Proof.
  split; [reflexivity|].
  apply (proj1 (accuracy_extremes [0; 1; 1]%Q [0; 1; 1]%Q (3 # 3) eq_refl)).
Defined.

(** ** Features and label *)

Lemma column_index_Some c d i :
  column_index c d = Some i ->
  df_columns d !! i = Some c /\
  forall j, (j < i)%nat -> df_columns d !! j <> Some c.
Proof.
  unfold column_index. destruct (list_find _ _) as [[i' c']|] eqn:Hf; [|done].
  intros [= <-]. apply list_find_Some in Hf as (Hi & -> & Hbefore).
  split; [done|]. intros j Hj Hc. by apply (Hbefore j c).
Qed.

Lemma delete_middle {A} (l : list A) i x :
  l !! i = Some x ->
  l = (take i (delete i l) ++ x :: drop i (delete i l))%list.
Proof.
  revert i. induction l as [|a l IH]; intros [|i] H; try done.
  - cbn in *. by injection H as ->.
  - cbn in *. f_equal. by apply IH.
Qed.

Lemma delete_NoDup_absent {A} (l : list A) i x :
  NoDup l -> l !! i = Some x -> x ∉ delete i l.
Proof.
  intros Hnd Hi Hin. apply list_elem_of_lookup in Hin as [j Hj].
  destruct (decide (j < i)%nat) as [Hlt|Hge].
  - rewrite list_lookup_delete_lt in Hj by done.
    pose proof (NoDup_lookup _ _ _ _ Hnd Hj Hi). lia.
  - rewrite list_lookup_delete_ge in Hj by lia.
    pose proof (NoDup_lookup _ _ _ _ Hnd Hj Hi). lia.
Qed.

(** X3.  On a frame with distinct column names,
    [data.drop(['is_ultra'], axis=1)] and [data['is_ultra']] cut every row
    into its features and its label and lose nothing: the label is the cell
    of the column so named, the feature row is the row without that cell,
    putting the label back at its position gives the row again, and no
    feature column is named like the label. *)
Theorem features_and_label_recompose (c : string) (d : DataFrame)
    (y : Series) :
  NoDup (df_columns d) ->
  df_getitem c d = Ok y ->
  exists X i,
    df_drop c d = Ok X /\
    df_columns d !! i = Some c /\
    (forall j, df_columns d !! j = Some c -> j = i) /\
    df_columns X = delete i (df_columns d) /\
    (c ∉ df_columns X) /\
    length y = n_rows d /\ n_rows X = n_rows d /\
    (forall k row, df_rows d !! k = Some row ->
       exists label,
         y !! k = Some label /\
         df_rows X !! k = Some (delete i row) /\
         row = (take i (delete i row) ++ label :: drop i (delete i row))%list).
Proof.
  intros Hnd Hy. destruct (df_getitem_drop _ _ _ Hy) as (Hlen & X & HX & HnX).
  unfold df_getitem in Hy. unfold df_drop in HX |- *.
  destruct (column_index c d) as [i|] eqn:Hi; [|done].
  destruct (mapM _ _) as [y'|] eqn:Hm; [|done].
  injection Hy as ->. injection HX as <-.
  apply column_index_Some in Hi as [Hi _]. apply mapM_Some_1 in Hm.
  eexists _, i. split; [done|]. split; [done|].
  split; [intros j Hj; by eapply NoDup_lookup|]. split; [done|].
  split; [cbn; by apply delete_NoDup_absent|]. repeat (split; [done|]).
  intros k row Hrow.
  destruct (Forall2_lookup_l _ _ _ _ _ Hm Hrow) as (label & Hl & Hcell).
  exists label. split; [done|]. split.
  - cbn. by rewrite list_lookup_fmap, Hrow.
  - by apply delete_middle.
Qed.

Lemma features_and_label_recompose_witness :
  NoDup (df_columns (Small.dataset 3)) /\
  df_getitem "is_ultra" (Small.dataset 3) = Ok [0; 0; 0]%Q /\
  exists X i,
    df_drop "is_ultra" (Small.dataset 3) = Ok X /\
    df_columns (Small.dataset 3) !! i = Some "is_ultra" /\
    df_columns X = delete i (df_columns (Small.dataset 3)) /\
    ("is_ultra" ∉ df_columns X).
Proof.
  assert (NoDup (df_columns (Small.dataset 3))) as Hnd
    by (apply (bool_decide_unpack (NoDup (df_columns (Small.dataset 3))));
        vm_compute; exact I).
  assert (df_getitem "is_ultra" (Small.dataset 3) = Ok [0; 0; 0]%Q) as Hy
    by reflexivity.
  split; [exact Hnd|]. split; [exact Hy|].
  destruct (features_and_label_recompose _ _ _ Hnd Hy)
    as (X & i & HX & Hi & _ & Hc & Hno & _).
  exists X, i. repeat split; assumption.
Defined.

(** ** Where the rows go *)

Lemma take_rows_zip {A B} (idx : list nat) (a a' : list A) (b b' : list B) :
  take_rows idx a = Ok a' -> take_rows idx b = Ok b' ->
  take_rows idx (zip a b) = Ok (zip a' b').
Proof.
  rewrite !take_rows_Ok. revert a' b'.
  induction idx as [|i idx IH]; intros a' b' Ha Hb.
  - apply Forall2_nil_inv_l in Ha as ->. constructor.
  - apply Forall2_cons_inv_l in Ha as (x & a1 & Hx & Ha & ->).
    apply Forall2_cons_inv_l in Hb as (z & b1 & Hz & Hb & ->).
    cbn. constructor; [|by apply IH].
    by rewrite lookup_zip_with, Hx, Hz.
Qed.

Lemma take_rows_compose {A} (i1 i2 : list nat) (l l1 l2 : list A) :
  take_rows i1 l = Ok l1 -> take_rows i2 l1 = Ok l2 ->
  exists i, take_rows i2 i1 = Ok i /\ take_rows i l = Ok l2.
Proof.
  rewrite !take_rows_Ok. intros H1. revert l2.
  induction i2 as [|j i2 IH]; intros l2 H2.
  - apply Forall2_nil_inv_l in H2 as ->. exists []. split; [|constructor].
    apply take_rows_Ok. constructor.
  - apply Forall2_cons_inv_l in H2 as (x & l2' & Hx & H2 & ->).
    destruct (IH _ H2) as (i & Hi & Hl).
    apply take_rows_Ok in Hi. apply take_rows_Ok in Hl.
    destruct (Forall2_lookup_r _ _ _ _ _ H1 Hx) as (k & Hk & Hlk).
    exists (k :: i). split; apply take_rows_Ok; by constructor.
Qed.

Lemma train_test_split_positions lib X y t seed Xtr Xte ytr yte :
  shuffles lib ->
  train_test_split lib X y t seed = Ok (Xtr, Xte, ytr, yte) ->
  exists i_te i_tr,
    (i_te ++ i_tr)%list ≡ₚ seq 0 (n_rows X) /\
    length y = n_rows X /\
    take_rows i_te (df_rows X) = Ok (df_rows Xte) /\
    take_rows i_te y = Ok yte /\
    take_rows i_tr (df_rows X) = Ok (df_rows Xtr) /\
    take_rows i_tr y = Ok ytr.
Proof.
  intros Hsh. unfold train_test_split.
  destruct (length y =? n_rows X)%nat eqn:Hlen; [|done].
  apply Nat.eqb_eq in Hlen. cbn [negb].
  set (k := Z.to_nat _). destruct (n_rows X - k =? 0)%nat eqn:Hz; [done|].
  apply Nat.eqb_neq in Hz.
  set (p := permutation lib seed (n_rows X)).
  assert (p ≡ₚ seq 0 (n_rows X)) as Hp by apply Hsh.
  assert (length p = n_rows X) as Hlp by (by rewrite Hp, length_seq).
  assert (take (n_rows X - k) (drop k p) = drop k p) as ->
    by (apply take_ge; rewrite length_drop; lia).
  destruct (take_rows (drop k p) (df_rows X)) as [rtr|] eqn:H1; [|done].
  destruct (take_rows (take k p) (df_rows X)) as [rte|] eqn:H2; [|done].
  destruct (take_rows (drop k p) y) as [ytr'|] eqn:H3; [|done].
  destruct (take_rows (take k p) y) as [yte'|] eqn:H4; [|done].
  intros [= <- <- <- <-]. exists (take k p), (drop k p).
  rewrite take_drop. by repeat split.
Qed.

(** X4.  When the split cell succeeds, the positions [0 .. N-1] of the data
    fall into three lists, test, validation and training, that together
    hold every position exactly once, and each partition holds the feature
    rows and the labels found at its positions, in the same order: no
    row is in two partitions, none is lost, and every row keeps its own
    label through both shuffles. *)
Theorem every_row_lands_in_one_partition (lib : Library) (d : DataFrame)
    (P : partitions) :
  shuffles lib ->
  split_of lib d = Ok P ->
  exists X y i_te i_va i_tr,
    df_drop "is_ultra" d = Ok X /\ df_getitem "is_ultra" d = Ok y /\
    (i_te ++ i_va ++ i_tr)%list ≡ₚ seq 0 (n_rows d) /\
    NoDup (i_te ++ i_va ++ i_tr)%list /\
    take_rows i_te (df_rows X) = Ok (df_rows (features_test P)) /\
    take_rows i_te y = Ok (target_test P) /\
    take_rows i_va (df_rows X) = Ok (df_rows (features_valid P)) /\
    take_rows i_va y = Ok (target_valid P) /\
    take_rows i_tr (df_rows X) = Ok (df_rows (features_train P)) /\
    take_rows i_tr y = Ok (target_train P) /\
    (zip (df_rows (features_test P)) (target_test P) ++
     zip (df_rows (features_valid P)) (target_valid P) ++
     zip (df_rows (features_train P)) (target_train P))%list
      ≡ₚ zip (df_rows X) y.
Proof.
  intros Hsh. unfold split_of.
  destruct (df_drop "is_ultra" d) as [X|] eqn:HX; [|done].
  destruct (df_getitem "is_ultra" d) as [y|] eqn:Hy; [|done].
  destruct (train_test_split lib X y _ _) as [[[[Xtv Xte] ytv] yte]|] eqn:H1;
    [|done].
  destruct (train_test_split lib Xtv ytv _ _) as [[[[Xtr Xva] ytr] yva]|] eqn:H2;
    [|done].
  intros [= <-].
  cbn [features_train target_train features_valid target_valid
       features_test target_test].
  destruct (df_getitem_drop _ _ _ Hy) as (Hly & X' & HX' & HnX).
  rewrite HX in HX'. injection HX' as <-.
  destruct (train_test_split_positions _ _ _ _ _ _ _ _ _ Hsh H1)
    as (i_te & i_tv & Hp1 & _ & Hte & Hyte & Htv & Hytv).
  destruct (train_test_split_positions _ _ _ _ _ _ _ _ _ Hsh H2)
    as (j_va & j_tr & Hp2 & _ & Hva & Hyva & Htr & Hytr).
  destruct (take_rows_compose _ _ _ _ _ Htv Hva) as (i_va & Hiva & Hva').
  destruct (take_rows_compose _ _ _ _ _ Htv Htr) as (i_tr & Hitr & Htr').
  destruct (take_rows_compose _ _ _ _ _ Hytv Hyva) as (i_va2 & Hiva2 & Hyva').
  destruct (take_rows_compose _ _ _ _ _ Hytv Hytr) as (i_tr2 & Hitr2 & Hytr').
  rewrite Hiva in Hiva2. injection Hiva2 as <-.
  rewrite Hitr in Hitr2. injection Hitr2 as <-.
  assert ((i_va ++ i_tr)%list ≡ₚ i_tv) as Hp3.
  { eapply take_rows_permutation; [|by apply take_rows_app].
    rewrite Hp2. unfold n_rows. by rewrite (take_rows_length _ _ _ Htv). }
  assert ((i_te ++ i_va ++ i_tr)%list ≡ₚ seq 0 (n_rows d)) as Hp
    by (by rewrite Hp3, Hp1, HnX).
  exists X, y, i_te, i_va, i_tr. repeat (split; [done|]).
  split; [rewrite Hp; apply NoDup_seq|]. repeat (split; [done|]).
  eapply (take_rows_permutation (i_te ++ i_va ++ i_tr)%list).
  - rewrite Hp. rewrite length_zip_with_l_eq; [by rewrite <- HnX|].
    unfold n_rows in HnX, Hly. congruence.
  - repeat apply take_rows_app; by apply take_rows_zip.
Qed.

Lemma every_row_lands_in_one_partition_witness :
  shuffles Small.seven_rows /\
  split_of Small.seven_rows (Small.dataset 7)
    = Ok (split_parts Small.seven_rows) /\
  exists i_te i_va i_tr,
    (i_te ++ i_va ++ i_tr)%list ≡ₚ seq 0 7 /\
    take_rows i_tr
      (delete 4%nat <$> df_rows (Small.dataset 7))
      = Ok (df_rows (features_train (split_parts Small.seven_rows))).
Proof.
  assert (shuffles Small.seven_rows) as Hsh by apply small_library_shuffles.
  assert (split_of Small.seven_rows (Small.dataset 7)
          = Ok (split_parts Small.seven_rows)) as HP
    by (vm_compute; reflexivity).
  split; [exact Hsh|]. split; [exact HP|].
  destruct (every_row_lands_in_one_partition _ _ _ Hsh HP)
    as (X & y & i_te & i_va & i_tr & HX & _ & Hp & _ & _ & _ & _ & _ & Htr & _).
  injection HX as <-.
  exists i_te, i_va, i_tr. split; assumption.
Defined.

(** ** Frames too small to split *)



Lemma split_cell_raise lib d e s :
  globals s !! "data" = Some (VFrame d) ->
  split_of lib d = Raise e ->
  (split_cell lib s).1 = Raise e /\ stdout (split_cell lib s).2 = stdout s.
Proof.
  intros Hd. unfold split_of, split_cell. repeat exec1.
  destruct (df_drop "is_ultra" d) as [X|e0] eqn:HX.
  2:{ intros [= ->]. by erewrite bind_Raise by reflexivity. }
  repeat exec1.
  destruct (df_getitem "is_ultra" d) as [y|e0] eqn:Hy.
  2:{ intros [= ->]. by erewrite bind_Raise by reflexivity. }
  repeat exec1.
  destruct (train_test_split lib X y _ _) as [[[[Xtv Xte] ytv] yte]|e0] eqn:H1.
  2:{ intros [= ->]. by erewrite bind_Raise by reflexivity. }
  repeat exec1.
  destruct (train_test_split lib Xtv ytv _ _) as [[[[Xtr Xva] ytr] yva]|e0]
    eqn:H2; [done|].
  intros [= ->]. by erewrite bind_Raise by reflexivity.
Qed.



(** ** What the cells assign *)

Lemma unchanged_outside_refl W s : unchanged_outside W s s.
Proof. by intros x _. Qed.

Lemma unchanged_outside_assign W s0 x v s :
  x ∈ W -> unchanged_outside W s0 s ->
  unchanged_outside W s0 (mkState (<[x := v]> (globals s)) (stdout s)).
Proof.
  intros Hx Hs y Hy. cbn [globals]. rewrite lookup_insert_ne; [by apply Hs|].
  by intros ->.
Qed.

Lemma unchanged_outside_mono W W' s s' :
  W ⊆ W' -> unchanged_outside W s s' -> unchanged_outside W' s s'.
Proof. intros HW Hs x Hx. apply Hs. intros Hx'. by apply Hx, HW. Qed.

Lemma unchanged_outside_trans W s1 s2 s3 :
  unchanged_outside W s1 s2 -> unchanged_outside W s2 s3 ->
  unchanged_outside W s1 s3.
Proof. intros H1 H2 x Hx. by rewrite H2, H1. Qed.

(** A literal name is one of a literal list. *)
Ltac listed :=
  repeat first [ apply list_elem_of_here | apply list_elem_of_further ].

Section Writes.
Context (lib : Library) (s0 : state) (W : list string).

Local Abbreviation I := (unchanged_outside W s0).
Local Abbreviation writable := (fun (x : string) (_ : value) => x ∈ W).

Local Lemma frame_assign x v s :
  writable x v -> I s -> I (mkState (<[x := v]> (globals s)) (stdout s)).
Proof. apply unchanged_outside_assign. Qed.

Local Lemma frame_stdout s out : I s -> I (mkState (globals s) out).
Proof. done. Qed.

Local Ltac leaf :=
  first
    [ apply yields_name | apply yields_lift | apply yields_raise
    | apply (yields_print I frame_stdout) | apply (yields_emit I frame_stdout)
    | apply yields_as_frame | apply yields_as_series
    | apply yields_as_model | apply yields_as_int | apply yields_py_gt
    | apply yields_ret; exact Logic.I
    | apply (yields_assign I writable frame_assign); assumption ].

Local Ltac statements :=
  repeat first
    [ leaf
    | eapply yields_bind; [ leaf | cbv beta; intros ? ? ]
    | match goal with
      | |- yields _ (match ?x with _ => _ end) _ => destruct x
      end ].

Lemma writes_method_fit m :
  m ∈ W -> yields I (method_fit lib m) (fun _ => True).
Proof. intros Hm. unfold method_fit. statements. Qed.

Lemma writes_method_predict m x :
  yields I (method_predict lib m x) (fun _ => True).
Proof.
  unfold method_predict. statements; (eapply yields_weaken; [leaf | done]).
Qed.

Lemma writes_call_accuracy_score yt yp :
  yields I (call_accuracy_score yt yp) (fun _ => True).
Proof.
  unfold call_accuracy_score. statements. eapply yields_weaken; [leaf | done].
Qed.

Local Ltac blocks :=
  repeat first
    [ leaf | apply writes_method_predict | apply writes_call_accuracy_score
    | apply writes_method_fit; assumption
    | eapply yields_bind;
      [ first [ leaf | apply writes_method_predict
              | apply writes_call_accuracy_score
              | apply writes_method_fit; assumption ]
      | cbv beta; intros ? ? ]
    | match goal with
      | |- yields _ (match ?x with _ => _ end) _ => destruct x
      end ].

Lemma writes_load_cell :
  load_writes ⊆ W -> yields I (load_cell lib) (fun _ => True).
Proof.
  intros HW. assert ("data" ∈ W) by (apply HW; unfold load_writes; listed).
  unfold load_cell. blocks.
Qed.

Lemma writes_split_cell :
  split_writes ⊆ W -> yields I (split_cell lib) (fun _ => True).
Proof.
  intros HW.
  assert (Forall (fun x => x ∈ W) split_writes) as HF
    by (apply Forall_forall; intros x Hx; by apply HW).
  unfold split_writes in HF. repeat (apply Forall_cons in HF as [? HF]).
  unfold split_cell. blocks.
Qed.

Lemma writes_decision_tree_body :
  decision_tree_body_writes ⊆ W ->
  yields I (decision_tree_body lib) (fun _ => True).
Proof.
  intros HW.
  assert (Forall (fun x => x ∈ W) decision_tree_body_writes) as HF
    by (apply Forall_forall; intros x Hx; by apply HW).
  unfold decision_tree_body_writes in HF.
  repeat (apply Forall_cons in HF as [? HF]).
  unfold decision_tree_body. blocks.
Qed.

Lemma writes_decision_tree_cell :
  decision_tree_writes ⊆ W ->
  yields I (decision_tree_cell lib) (fun _ => True).
Proof.
  intros HW.
  assert (Forall (fun x => x ∈ W) decision_tree_writes) as HF
    by (apply Forall_forall; intros x Hx; by apply HW).
  unfold decision_tree_writes in HF.
  repeat (apply Forall_cons in HF as [? HF]).
  assert (yields I (decision_tree_body lib) (fun _ => True)) as Hbody.
  { apply writes_decision_tree_body. intros x Hx.
    unfold decision_tree_body_writes in Hx.
    repeat (apply elem_of_cons in Hx as [->|Hx]; [assumption|]).
    by apply elem_of_nil in Hx. }
  unfold decision_tree_cell.
  do 2 (eapply yields_bind; [leaf|intros _ _]).
  eapply yields_bind.
  { apply (yields_for_in I writable frame_assign); [by intros|exact Hbody]. }
  intros _ _. blocks.
Qed.

Lemma writes_random_forest_body :
  random_forest_body_writes ⊆ W ->
  yields I (random_forest_body lib) (fun _ => True).
Proof.
  intros HW.
  assert (Forall (fun x => x ∈ W) random_forest_body_writes) as HF
    by (apply Forall_forall; intros x Hx; by apply HW).
  unfold random_forest_body_writes in HF.
  repeat (apply Forall_cons in HF as [? HF]).
  unfold random_forest_body. blocks.
Qed.

Lemma writes_random_forest_cell cs :
  random_forest_writes ⊆ W ->
  yields I (random_forest_cell lib cs) (fun _ => True).
Proof.
  intros HW.
  assert (Forall (fun x => x ∈ W) random_forest_writes) as HF
    by (apply Forall_forall; intros x Hx; by apply HW).
  unfold random_forest_writes in HF.
  repeat (apply Forall_cons in HF as [? HF]).
  assert (yields I (random_forest_body lib) (fun _ => True)) as Hbody.
  { apply writes_random_forest_body. intros x Hx.
    unfold random_forest_body_writes in Hx.
    repeat (apply elem_of_cons in Hx as [->|Hx]; [assumption|]).
    by apply elem_of_nil in Hx. }
  unfold random_forest_cell.
  do 3 (eapply yields_bind; [leaf|intros _ _]).
  eapply yields_bind.
  { apply (yields_for_in I writable frame_assign); [by intros|exact Hbody]. }
  intros _ _. blocks.
Qed.

Lemma writes_linear_regression_cell :
  linear_regression_writes ⊆ W ->
  yields I (linear_regression_cell lib) (fun _ => True).
Proof.
  intros HW.
  assert (Forall (fun x => x ∈ W) linear_regression_writes) as HF
    by (apply Forall_forall; intros x Hx; by apply HW).
  unfold linear_regression_writes in HF.
  repeat (apply Forall_cons in HF as [? HF]).
  unfold linear_regression_cell. blocks.
Qed.

Lemma writes_test_model_cell :
  test_model_writes ⊆ W ->
  yields I (test_model_cell lib) (fun _ => True).
Proof.
  intros HW.
  assert (Forall (fun x => x ∈ W) test_model_writes) as HF
    by (apply Forall_forall; intros x Hx; by apply HW).
  unfold test_model_writes in HF.
  repeat (apply Forall_cons in HF as [? HF]).
  unfold test_model_cell. blocks.
Qed.

Lemma writes_notebook :
  notebook_writes ⊆ W -> yields I (notebook lib) (fun _ => True).
Proof.
  intros HW. unfold notebook_writes in HW.
  assert (forall V, V ⊆ notebook_writes -> V ⊆ W) as Hsub
    by (intros V HV x Hx; by apply HW, HV).
  unfold notebook_writes in Hsub.
  apply yields_run_cells. unfold cells, later_cells.
  constructor.
  { apply writes_load_cell, Hsub. intros x Hx. apply elem_of_app. by left. }
  constructor.
  { apply writes_split_cell, Hsub. intros x Hx.
    apply elem_of_app. right. apply elem_of_app. by left. }
  constructor.
  { apply writes_decision_tree_cell, Hsub. intros x Hx.
    do 2 (apply elem_of_app; right). apply elem_of_app. by left. }
  constructor.
  { apply writes_random_forest_cell, Hsub. intros x Hx.
    do 3 (apply elem_of_app; right). apply elem_of_app. by left. }
  constructor.
  { apply writes_random_forest_cell, Hsub. intros x Hx.
    do 3 (apply elem_of_app; right). apply elem_of_app. by left. }
  constructor.
  { apply writes_linear_regression_cell, Hsub. intros x Hx.
    do 4 (apply elem_of_app; right). apply elem_of_app. by left. }
  constructor.
  { apply writes_test_model_cell, Hsub. intros x Hx.
    by do 5 (apply elem_of_app; right). }
  constructor.
Qed.

End Writes.

Lemma writes_only {A} (W : list string) (m : M A) s :
  (forall s0, yields (unchanged_outside W s0) m (fun _ => True)) ->
  unchanged_outside W s (m s).2.
Proof. intros Hm. apply (Hm s s), unchanged_outside_refl. Qed.

(** X6.  Whether it returns or raises, a cell rebinds no name but its
    own: the load cell only [data]; the split cell only [features],
    [target] and the eight partition names; the sweeps only their
    bookkeeping names, [model], [predictions_valid] and [accuracy]; the
    regression cell only [model], [predictions_valid], [predictions_binary]
    and [accuracy]; the test cell only [best_model], [predictions_test] and
    [accuracy_test].  Every other name of the namespace holds after the cell
    what it held before; so does every name outside these lists after the
    whole notebook. *)
Theorem cells_rebind_only_their_own_names (lib : Library) (s : state) :
  unchanged_outside load_writes s (load_cell lib s).2 /\
  unchanged_outside split_writes s (split_cell lib s).2 /\
  unchanged_outside decision_tree_writes s (decision_tree_cell lib s).2 /\
  (forall cs,
     unchanged_outside random_forest_writes s
       (random_forest_cell lib cs s).2) /\
  unchanged_outside linear_regression_writes s
    (linear_regression_cell lib s).2 /\
  unchanged_outside test_model_writes s (test_model_cell lib s).2 /\
  unchanged_outside notebook_writes s (notebook lib s).2.
Proof.
  repeat split; try intros cs; apply writes_only; intros s0.
  - by apply writes_load_cell.
  - by apply writes_split_cell.
  - by apply writes_decision_tree_cell.
  - by apply writes_random_forest_cell.
  - by apply writes_linear_regression_cell.
  - by apply writes_test_model_cell.
  - by apply writes_notebook.
Qed.

(** ** What the cells read *)

Lemma same_run_ret {A} K (a : A) : same_run K K (mret a).
Proof.
  intros s1 s2 Hs. split; [done|]. split; [|done].
  exists []. by rewrite !app_nil_r.
Qed.

Lemma same_run_bind {A B} K K' K'' (m : M A) (k : A -> M B) :
  same_run K K' m -> (forall a, same_run K' K'' (k a)) ->
  same_run K K'' (m ≫= k).
Proof.
  intros Hm Hk s1 s2 Hs. destruct (Hm s1 s2 Hs) as (Hr & (ls & H1 & H2) & Ha).
  unfold mbind, M_bind.
  destruct (m s1) as [[a|e] s1'], (m s2) as [[a'|e'] s2']; cbn in *;
    try discriminate Hr.
  - injection Hr as <-.
    destruct (Hk a s1' s2') as (Hr' & (ls' & H1' & H2') & Ha'); [apply Ha; eauto|].
    split; [done|]. split; [|done].
    exists (ls ++ ls')%list. by rewrite H1', H2', H1, H2, !app_assoc.
  - injection Hr as ->. split; [done|]. split; [eauto|]. by intros [? [=]].
Qed.

Lemma same_run_weaken {A} K0 K K' K1 (m : M A) :
  same_run K K' m -> (forall x, K x -> K0 x) -> (forall x, K1 x -> K' x) ->
  same_run K0 K1 m.
Proof.
  intros Hm H0 H1 s1 s2 Hs.
  destruct (Hm s1 s2) as (? & ? & Ha); [intros x Hx; by apply Hs, H0|].
  repeat (split; [done|]). intros Hok x Hx. by apply Ha, H1.
Qed.

Lemma same_run_post {A} K K' K1 (m : M A) :
  same_run K K' m -> (forall x, K1 x -> K' x) -> same_run K K1 m.
Proof. intros Hm H1. by apply (same_run_weaken K K K' K1). Qed.

Lemma same_run_lift {A} K (r : result A) : same_run K K (lift r).
Proof.
  intros s1 s2 Hs. split; [done|]. split; [|done].
  exists []. by rewrite !app_nil_r.
Qed.

Lemma same_run_raise {A} K K' e : same_run K K' (raise (A := A) e).
Proof.
  intros s1 s2 Hs. split; [done|]. split; [|by intros [? [=]]].
  exists []. by rewrite !app_nil_r.
Qed.

Lemma same_run_name K x : K x -> same_run K K (name x).
Proof.
  intros Hx s1 s2 Hs. unfold name. rewrite <- (Hs x Hx).
  destruct (globals s1 !! x); (split; [done|]); (split; [|done]);
    exists []; by rewrite !app_nil_r.
Qed.

Lemma same_run_assign K x v :
  same_run K (fun y => y = x \/ K y) (assign x v).
Proof.
  intros s1 s2 Hs. split; [done|]. split.
  - exists []. by rewrite !app_nil_r.
  - intros _ y Hy. cbn. destruct (decide (y = x)) as [->|Hne].
    + by rewrite !lookup_insert_eq.
    + rewrite !lookup_insert_ne by done. destruct Hy; [done|by apply Hs].
Qed.

Lemma same_run_print K args : same_run K K (print args).
Proof. intros s1 s2 Hs. split; [done|]. split; [by exists [args]|done]. Qed.

Lemma same_run_emit K ls : same_run K K (emit ls).
Proof. intros s1 s2 Hs. split; [done|]. split; [by exists ls|done]. Qed.

Lemma same_run_pure {A} K (m : M A) :
  (forall s, m s = ((m s).1, s)) -> (forall s1 s2, (m s1).1 = (m s2).1) ->
  same_run K K m.
Proof.
  intros Hs Hr s1 s2 Hag. split; [apply Hr|].
  rewrite (Hs s1), (Hs s2). cbn. split; [|done].
  exists []. by rewrite !app_nil_r.
Qed.

Lemma same_run_as_frame K v : same_run K K (as_frame v).
Proof. destruct v; first [apply same_run_ret | apply same_run_raise]. Qed.
Lemma same_run_as_series K v : same_run K K (as_series v).
Proof. destruct v; first [apply same_run_ret | apply same_run_raise]. Qed.
Lemma same_run_as_model K v : same_run K K (as_model v).
Proof. destruct v; first [apply same_run_ret | apply same_run_raise]. Qed.
Lemma same_run_as_int K v : same_run K K (as_int v).
Proof. destruct v; first [apply same_run_ret | apply same_run_raise]. Qed.

Lemma same_run_py_gt K a b : same_run K K (py_gt a b).
Proof.
  unfold py_gt.
  destruct (num_of a), (num_of b);
    first [apply same_run_ret | apply same_run_raise].
Qed.

Lemma same_run_for_in K x cs body :
  same_run (fun y => y = x \/ K y) K body ->
  same_run K K (for_in x cs body).
Proof.
  intros Hbody. induction cs as [|c cs IH]; cbn [for_in].
  - apply same_run_ret.
  - eapply same_run_bind; [apply same_run_assign|]. intros _.
    eapply same_run_bind; [exact Hbody|]. intros _. exact IH.
Qed.

Lemma same_run_run_cells K cs :
  Forall (same_run K K) cs -> same_run K K (run_cells cs).
Proof.
  induction 1 as [|c cs Hc _ IH]; cbn [run_cells].
  - apply same_run_ret.
  - eapply same_run_bind; [exact Hc|]. intros _. exact IH.
Qed.

(** A literal name satisfies a condition made of equations, list
    memberships and list non-memberships. *)
Ltac known :=
  repeat first
    [ progress cbv beta
    | assumption
    | left; reflexivity
    | right
    | match goal with
      | |- _ ∉ _ =>
          let H := fresh in
          intros H;
          repeat (apply elem_of_cons in H as [H|H]; [discriminate H|]);
          by apply elem_of_nil in H
      end ].

Ltac same_leaf :=
  first
    [ apply same_run_lift | apply same_run_raise
    | apply same_run_print | apply same_run_emit
    | apply same_run_as_frame | apply same_run_as_series
    | apply same_run_as_model | apply same_run_as_int | apply same_run_py_gt
    | apply same_run_ret
    | apply same_run_assign
    | apply same_run_name; solve [known] ].

Section Reads.
Context (lib : Library).

Lemma same_run_method_fit K m :
  K m -> K "features_train" -> K "target_train" ->
  same_run K (fun y => y = m \/ K y) (method_fit lib m).
Proof.
  intros Hm HX Hy. unfold method_fit.
  repeat (eapply same_run_bind; [same_leaf|intros ?]). same_leaf.
Qed.

Lemma same_run_method_predict K m x :
  K m -> K x -> same_run K K (method_predict lib m x).
Proof.
  intros Hm HX. unfold method_predict.
  repeat (eapply same_run_bind; [same_leaf|intros ?]).
  destruct (m_fit _); same_leaf.
Qed.

Lemma same_run_call_accuracy_score K yt yp :
  K yt -> K yp -> same_run K K (call_accuracy_score yt yp).
Proof.
  intros Ht Hp. unfold call_accuracy_score.
  repeat (eapply same_run_bind; [same_leaf|intros ?]). same_leaf.
Qed.

End Reads.

Ltac same_step :=
  first
    [ same_leaf
    | apply same_run_method_fit; solve [known]
    | apply same_run_method_predict; solve [known]
    | apply same_run_call_accuracy_score; solve [known] ].

(** The statements of a cell one after the other; the condition reached at
    the end is then weakened to the one asked for. *)
Ltac same_block_by tac :=
  repeat (eapply same_run_bind; [same_step|intros ?]);
  lazymatch goal with
  | |- same_run _ _ (match ?x with _ => _ end) => destruct x; same_block_by tac
  | |- _ => eapply same_run_post; [same_step | intros ? ?; tac]
  end.

Ltac same_block := same_block_by ltac:(solve [known]).

Section CellReads.
Context (lib : Library) (K : string -> Prop).
Context (K_features_train : K "features_train").
Context (K_target_train : K "target_train").



Section Validation.
Context (K_features_valid : K "features_valid").
Context (K_target_valid : K "target_valid").

Lemma same_run_decision_tree_body :
  same_run
    (fun y => y = "depth" \/ y = "best_depth" \/ y = "best_accuracy" \/ K y)
    (fun y => y = "best_depth" \/ y = "best_accuracy" \/ K y)
    (decision_tree_body lib).
Proof. unfold decision_tree_body. same_block. Qed.

Lemma same_run_decision_tree_cell : same_run K K (decision_tree_cell lib).
Proof.
  unfold decision_tree_cell.
  eapply same_run_bind; [same_step|intros ?].
  eapply same_run_bind; [same_step|intros ?].
  eapply same_run_bind;
    [apply same_run_for_in; exact same_run_decision_tree_body|intros ?].
  same_block.
Qed.

Lemma same_run_random_forest_body :
  same_run
    (fun y => y = "est" \/ y = "depth" \/ y = "best_accuracy" \/
              y = "best_est" \/ K y)
    (fun y => y = "depth" \/ y = "best_accuracy" \/ y = "best_est" \/ K y)
    (random_forest_body lib).
Proof. unfold random_forest_body. same_block. Qed.

Lemma same_run_random_forest_cell cs :
  K "best_est" -> same_run K K (random_forest_cell lib cs).
Proof.
  intros Hbe. unfold random_forest_cell.
  eapply same_run_bind; [same_step|intros ?].
  eapply same_run_bind; [same_step|intros ?].
  eapply same_run_bind; [same_step|intros ?].
  eapply same_run_bind.
  { eapply same_run_weaken;
      [apply same_run_for_in; exact same_run_random_forest_body
      | intros x Hx; cbv beta in Hx;
        repeat (destruct Hx as [->|Hx]; [known|]); known
      | intros x Hx; exact Hx]. }
  intros ?. same_block.
Qed.

Lemma same_run_linear_regression_cell :
  same_run K K (linear_regression_cell lib).
Proof. unfold linear_regression_cell. same_block. Qed.

Lemma same_run_selection_cells :
  K "best_est" -> Forall (same_run K K) (selection_cells lib).
Proof.
  intros Hbe. unfold selection_cells.
  constructor; [apply same_run_decision_tree_cell|].
  constructor; [by apply same_run_random_forest_cell|].
  constructor; [by apply same_run_random_forest_cell|].
  constructor; [apply same_run_linear_regression_cell|].
  constructor.
Qed.

End Validation.

Lemma same_run_test_model_cell :
  K "features_test" -> K "target_test" ->
  same_run K K (test_model_cell lib).
Proof. intros HX Hy. unfold test_model_cell. same_block. Qed.

End CellReads.

(** X7.  The cells that choose between models never read the test
    partition: started in two namespaces that differ only in what
    [features_test] and [target_test] hold, the four selection cells run
    one after the other end the same way (the same exception, if any),
    print the same lines and, when they return, leave namespaces that
    again differ at most in those two names. *)
Theorem selection_never_reads_the_test_partition (lib : Library)
    (s1 s2 : state) :
  agree (fun x => x ∉ test_names) s1 s2 ->
  let m := run_cells (selection_cells lib) in
  (m s1).1 = (m s2).1 /\
  (exists ls, stdout (m s1).2 = (stdout s1 ++ ls)%list /\
              stdout (m s2).2 = (stdout s2 ++ ls)%list) /\
  ((m s1).1 = Ok tt -> agree (fun x => x ∉ test_names) (m s1).2 (m s2).2).
Proof.
  intros Hs m.
  assert (same_run (fun x => x ∉ test_names) (fun x => x ∉ test_names) m)
    as Hm.
  { apply same_run_run_cells, same_run_selection_cells;
      unfold test_names; known. }
  destruct (Hm s1 s2 Hs) as (Hr & Hls & Ha). repeat (split; [done|]).
  intros Hok. apply Ha. eauto.
Qed.

Lemma selection_never_reads_the_test_partition_witness :
  let s1 := after_split Small.graded in
  let s2 := mkState (<["features_test" := VInt 0]>
                       (delete "target_test" (globals s1))) (stdout s1) in
  let m := run_cells (selection_cells Small.graded) in
  (m s1).1 = (m s2).1 /\
  (exists ls, stdout (m s1).2 = (stdout s1 ++ ls)%list /\
              stdout (m s2).2 = (stdout s2 ++ ls)%list) /\
  ((m s1).1 = Ok tt -> agree (fun x => x ∉ test_names) (m s1).2 (m s2).2).
Proof.
  intros s1 s2.
  apply (selection_never_reads_the_test_partition Small.graded s1 s2).
  intros x Hx. unfold s2. cbn [globals].
  rewrite lookup_insert_ne, lookup_delete_ne; [reflexivity | |];
    intros <-; apply Hx; unfold test_names; listed.
Defined.






Lemma rerun_prints_again {A} (m : M A) W K s :
  same_run K K m -> unchanged_outside W s (m s).2 ->
  (forall x, K x -> x ∉ W) ->
  (m (m s).2).1 = (m s).1 /\
  exists ls, stdout (m s).2 = (stdout s ++ ls)%list /\
             stdout (m (m s).2).2 = (stdout (m s).2 ++ ls)%list.
Proof.
  intros Hm HW HK. destruct (Hm s (m s).2) as (Hr & Hls & _); [|done].
  intros x Hx. symmetry. by apply HW, HK.
Qed.

(** X10.  The decision-tree, regression and test cells can be run again:
    a second run straight after the first ends as the first did and prints
    the same lines once more. *)
Theorem rerunning_a_cell_repeats_its_output (lib : Library) (s : state)
    (c : M unit) :
  c ∈ [decision_tree_cell lib; linear_regression_cell lib;
       test_model_cell lib] ->
  (c (c s).2).1 = (c s).1 /\
  exists ls, stdout (c s).2 = (stdout s ++ ls)%list /\
             stdout (c (c s).2).2 = (stdout (c s).2 ++ ls)%list.
Proof.
  set (K := fun x : string => x ∈ partition_names).
  assert (Forall K partition_names) as HK by (by apply Forall_forall).
  unfold partition_names in HK. repeat (apply Forall_cons in HK as [? HK]).
  intros Hc.
  apply elem_of_cons in Hc as [->|Hc].
  { apply (rerun_prints_again _ decision_tree_writes K);
      [by apply same_run_decision_tree_cell| |].
    - apply writes_only. intros s0. by apply writes_decision_tree_cell.
    - intros x Hx. unfold K, partition_names in Hx.
      repeat (apply elem_of_cons in Hx as [->|Hx];
              [unfold decision_tree_writes; known|]).
      by apply elem_of_nil in Hx. }
  apply elem_of_cons in Hc as [->|Hc].
  { apply (rerun_prints_again _ linear_regression_writes K);
      [by apply same_run_linear_regression_cell| |].
    - apply writes_only. intros s0. by apply writes_linear_regression_cell.
    - intros x Hx. unfold K, partition_names in Hx.
      repeat (apply elem_of_cons in Hx as [->|Hx];
              [unfold linear_regression_writes; known|]).
      by apply elem_of_nil in Hx. }
  apply elem_of_cons in Hc as [->|Hc].
  { apply (rerun_prints_again _ test_model_writes K);
      [by apply same_run_test_model_cell| |].
    - apply writes_only. intros s0. by apply writes_test_model_cell.
    - intros x Hx. unfold K, partition_names in Hx.
      repeat (apply elem_of_cons in Hx as [->|Hx];
              [unfold test_model_writes; known|]).
      by apply elem_of_nil in Hx. }
  by apply elem_of_nil in Hc.
Qed.

Lemma rerunning_a_cell_repeats_its_output_witness :
  let c := decision_tree_cell Small.graded in
  let s := after_split Small.graded in
  (c (c s).2).1 = (c s).1 /\
  exists ls, stdout (c s).2 = (stdout s ++ ls)%list /\
             stdout (c (c s).2).2 = (stdout (c s).2 ++ ls)%list.
Proof.
  intros c s.
  apply (rerunning_a_cell_repeats_its_output Small.graded s c). listed.
Defined.

(** ** What a sweep leaves behind *)

Section LastCandidate.
Context (lib : Library).

Lemma decision_tree_loop_last P acc cs : forall s bd ba b,
  bound P (globals s) ->
  globals s !! "best_depth" = Some bd ->
  globals s !! "best_accuracy" = Some ba -> num_of ba = Some b ->
  (forall c, c ∈ cs ->
     validation_accuracy lib P (DecisionTreeClassifier 12345 c) = Ok (acc c)) ->
  exists s',
    for_in "depth" cs (decision_tree_body lib) s = (Ok tt, s') /\
    bound P (globals s') /\
    (exists v, globals s' !! "best_depth" = Some v) /\
    (exists v, globals s' !! "best_accuracy" = Some v) /\
    forall c, last cs = Some c ->
      globals s' !! "depth" = Some (VInt c) /\
      globals s' !! "model" =
        Some (VModel (mkModel (DecisionTreeClassifier 12345 c)
                        (Some (features_train P, target_train P)))).
Proof.
  induction cs as [|c cs IH]; intros s bd ba b HP Hbd Hba Hb Hacc.
  - exists s. cbn. do 4 (split; [by eauto|]). by intros ? [=].
  - cbn [for_in]. repeat exec1.
    edestruct (decision_tree_body_run lib P
                 (mkState (<["depth" := VInt c]> (globals s)) (stdout s)))
      as (s1 & Hrun & HP1 & Hd1 & Hba1 & Hbd1 & _ & _ & Hm1).
    { by apply bound_insert; [fresh_name|]. }
    { cbn. by simplify_map_eq. }
    { cbn. rewrite lookup_insert_ne by done. exact Hbd. }
    { cbn. rewrite lookup_insert_ne by done. exact Hba. }
    { exact Hb. }
    { apply Hacc. left. }
    erewrite bind_Ok by exact Hrun.
    destruct cs as [|c' cs].
    + exists s1. cbn. do 4 (split; [by eauto|]). by intros ? [= <-].
    + destruct (IH s1 (if Qgt_bool (acc c) b then VInt c else bd)
                  (if Qgt_bool (acc c) b then VFloat (acc c) else ba)
                  (if Qgt_bool (acc c) b then acc c else b))
        as (s' & Hrun' & ? & ? & ? & Hlast); [done..| | |].
      { by destruct (Qgt_bool _ _). }
      { intros c0 Hc0. apply Hacc. by right. }
      exists s'. repeat (split; [done|]). intros c0 Hc0. by apply Hlast.
Qed.

Lemma random_forest_loop_last P acc cs : forall s ba b,
  bound P (globals s) ->
  globals s !! "depth" = Some (VInt 3) ->
  globals s !! "best_accuracy" = Some ba -> num_of ba = Some b ->
  (forall c, c ∈ cs ->
     validation_accuracy lib P (RandomForestClassifier 12345 c 3)
       = Ok (acc c)) ->
  exists s',
    for_in "est" cs (random_forest_body lib) s = (Ok tt, s') /\
    bound P (globals s') /\
    (exists v, globals s' !! "best_accuracy" = Some v) /\
    forall c, last cs = Some c ->
      globals s' !! "est" = Some (VInt c) /\
      globals s' !! "model" =
        Some (VModel (mkModel (RandomForestClassifier 12345 c 3)
                        (Some (features_train P, target_train P)))).
Proof.
  induction cs as [|c cs IH]; intros s ba b HP Hd Hba Hb Hacc.
  - exists s. cbn. do 3 (split; [by eauto|]). by intros ? [=].
  - cbn [for_in]. repeat exec1.
    edestruct (random_forest_body_run lib P
                 (mkState (<["est" := VInt c]> (globals s)) (stdout s)))
      as (s1 & Hrun & HP1 & Hd1 & Hba1 & _ & _ & _ & Hm1 & _).
    { by apply bound_insert; [fresh_name|]. }
    { cbn. by simplify_map_eq. }
    { cbn. by simplify_map_eq. }
    { reflexivity. }
    { cbn. rewrite lookup_insert_ne by done. exact Hba. }
    { exact Hb. }
    { apply Hacc. left. }
    erewrite bind_Ok by exact Hrun.
    destruct cs as [|c' cs].
    + exists s1. cbn. do 3 (split; [by eauto|]). intros ? [= <-].
      split; [|done].
      pose proof (writes_only random_forest_body_writes
                    (random_forest_body lib)
                    (mkState (<["est" := VInt c]> (globals s)) (stdout s)))
        as Hw.
      rewrite Hrun in Hw. rewrite Hw; [cbn; by simplify_map_eq| |].
      * intros s0. by apply writes_random_forest_body.
      * unfold random_forest_body_writes. known.
    + destruct (IH s1 (if Qgt_bool (acc c) b then VFloat (acc c) else ba)
                  (if Qgt_bool (acc c) b then acc c else b))
        as (s' & Hrun' & ? & ? & Hlast); [done..| | |].
      { by destruct (Qgt_bool _ _). }
      { intros c0 Hc0. apply Hacc. by right. }
      exists s'. repeat (split; [done|]). intros c0 Hc0. by apply Hlast.
Qed.

End LastCandidate.

(** X11.  After a sweep [model] holds the estimator of the last candidate
    tried, fitted on the training partition, and the loop variable holds
    that candidate: depth 5 after the decision-tree cell, the last number
    of estimators after a forest cell (also when its summary then fails on
    [best_est]).  Neither is the selected configuration unless the last
    candidate happens to be the best. *)
Theorem model_holds_the_last_candidate (lib : Library) (P : partitions)
    (s : state) (acc_tree acc_forest : Z -> Q) (cs : list Z) (c : Z) :
  bound P (globals s) ->
  (forall c', c' ∈ range 1 6 1 ->
     validation_accuracy lib P (DecisionTreeClassifier 12345 c')
       = Ok (acc_tree c')) ->
  (forall c', c' ∈ (cs ++ [c])%list ->
     validation_accuracy lib P (RandomForestClassifier 12345 c' 3)
       = Ok (acc_forest c')) ->
  (globals (decision_tree_cell lib s).2 !! "model" =
     Some (VModel (mkModel (DecisionTreeClassifier 12345 5)
                     (Some (features_train P, target_train P)))) /\
   globals (decision_tree_cell lib s).2 !! "depth" = Some (VInt 5)) /\
  (globals (random_forest_cell lib (cs ++ [c]) s).2 !! "model" =
     Some (VModel (mkModel (RandomForestClassifier 12345 c 3)
                     (Some (features_train P, target_train P)))) /\
   globals (random_forest_cell lib (cs ++ [c]) s).2 !! "est" = Some (VInt c)).
Proof.
  intros HP Htree Hforest. split.
  - unfold decision_tree_cell. repeat exec1.
    edestruct (decision_tree_loop_last lib P acc_tree (range 1 6 1)
      (mkState (<["best_depth" := VInt 0]>
                  (<["best_accuracy" := VInt 0]> (globals s))) (stdout s))
      (VInt 0) (VInt 0) 0%Q)
      as (s1 & Hrun & _ & [bd Hbd] & [ba Hba] & Hlast);
      [ by do 2 (apply bound_insert; [fresh_name|])
      | by simplify_map_eq | by simplify_map_eq | done | done | ].
    erewrite bind_Ok by exact Hrun. repeat exec1.
    cbn [snd globals]. by destruct (Hlast 5%Z eq_refl).
  - unfold random_forest_cell. repeat exec1.
    edestruct (random_forest_loop_last lib P acc_forest (cs ++ [c])
      (mkState (<["depth" := VInt 3]> (<["best_estimators" := VInt 0]>
                  (<["best_accuracy" := VInt 0]> (globals s)))) (stdout s))
      (VInt 0) 0%Q)
      as (s1 & Hrun & _ & [ba Hba] & Hlast);
      [ by do 3 (apply bound_insert; [fresh_name|])
      | by simplify_map_eq | by simplify_map_eq | done | done | ].
    erewrite bind_Ok by exact Hrun. repeat exec1.
    destruct (globals s1 !! "best_est") as [be|] eqn:Hbe.
    + repeat exec1. cbn [snd globals].
      by destruct (Hlast c (last_snoc _ _)).
    + erewrite bind_Raise by (by apply name_None).
      cbn [snd globals]. by destruct (Hlast c (last_snoc _ _)).
Qed.

Lemma model_holds_the_last_candidate_witness :
  bound (split_parts Small.graded) (globals (after_split Small.graded)) /\
  globals (decision_tree_cell Small.graded (after_split Small.graded)).2
    !! "best_depth" = Some (VInt 3) /\
  globals (decision_tree_cell Small.graded (after_split Small.graded)).2
    !! "model" =
    Some (VModel (mkModel (DecisionTreeClassifier 12345 5)
            (Some (features_train (split_parts Small.graded),
                   target_train (split_parts Small.graded))))).
Proof.
  assert (bound (split_parts Small.graded)
            (globals (after_split Small.graded))) as HP
    by (vm_compute; repeat split).
  split; [exact HP|]. split; [vm_compute; reflexivity|].
  apply (model_holds_the_last_candidate Small.graded _ _
           Small.graded_tree Small.graded_forest [10; 20; 30; 40]%Z 50%Z HP).
  - intros c Hc. change (range 1 6 1) with [1; 2; 3; 4; 5]%Z in Hc.
    candidates Hc ltac:(vm_compute; reflexivity).
  - intros c Hc. cbn [app] in Hc.
    candidates Hc ltac:(vm_compute; reflexivity).
Defined.

(** ** Cells run before their inputs exist *)

Lemma method_fit_unbound lib m obj s :
  globals s !! m = Some (VModel obj) ->
  globals s !! "features_train" = None ->
  method_fit lib m s = (Raise (NameError "features_train"), s).
Proof.
  intros Hm HX. unfold method_fit. repeat exec1.
  apply bind_Raise. by apply name_None.
Qed.

(** X12.  Run out of order the cells fail on the first variable they
    miss and print nothing.  The first name the split cell reads is [data]:
    in a namespace without it the cell raises [NameError] for [data] and
    leaves the state as it was.  In a kernel in which the import cell has
    run and no called name has been rebound, every later cell, and so their
    sequence, raises [NameError] for [features_train] when the namespace
    does not bind it. *)
Theorem cells_run_out_of_order_raise_NameError (lib : Library) (s : state) :
  (globals s !! "data" = None ->
   split_cell lib s = (Raise (NameError "data"), s)) /\
  (unshadowed s ->
   globals s !! "features_train" = None ->
   forall c, c ∈ run_cells (later_cells lib) :: later_cells lib ->
     (c s).1 = Raise (NameError "features_train") /\
     stdout (c s).2 = stdout s).
Proof.
  split.
  - intros Hd. unfold split_cell. apply bind_Raise. by apply name_None.
  - intros _ HX.
    assert ((decision_tree_cell lib s).1 = Raise (NameError "features_train")
            /\ stdout (decision_tree_cell lib s).2 = stdout s) as Htree.
    { unfold decision_tree_cell. repeat exec1.
      erewrite bind_Raise; cycle 1.
      { change (range 1 6 1) with [1; 2; 3; 4; 5]%Z. cbn [for_in].
        repeat exec1. apply bind_Raise.
        unfold decision_tree_body. repeat exec1. apply bind_Raise.
        eapply method_fit_unbound; cbn [globals]; by simplify_map_eq. }
      done. }
    assert (forall c cs,
      (random_forest_cell lib (c :: cs) s).1
        = Raise (NameError "features_train") /\
      stdout (random_forest_cell lib (c :: cs) s).2 = stdout s) as Hforest.
    { intros c cs. unfold random_forest_cell. repeat exec1.
      erewrite bind_Raise; cycle 1.
      { cbn [for_in]. repeat exec1. apply bind_Raise.
        unfold random_forest_body. repeat exec1. apply bind_Raise.
        eapply method_fit_unbound; cbn [globals]; by simplify_map_eq. }
      done. }
    intros c Hc.
    apply elem_of_cons in Hc as [->|Hc].
    { unfold later_cells. cbn [run_cells].
      destruct (decision_tree_cell lib s) as [r s'] eqn:E.
      destruct Htree as [Hr Hout]. cbn in Hr, Hout. subst r.
      by erewrite bind_Raise by exact E. }
    unfold later_cells in Hc.
    apply elem_of_cons in Hc as [->|Hc]; [exact Htree|].
    apply elem_of_cons in Hc as [->|Hc]; [apply Hforest|].
    apply elem_of_cons in Hc as [->|Hc]; [apply Hforest|].
    apply elem_of_cons in Hc as [->|Hc].
    { unfold linear_regression_cell. repeat exec1.
      erewrite (bind_Raise (method_fit _ _));
        [| eapply method_fit_unbound; cbn [globals]; by simplify_map_eq ].
      done. }
    apply elem_of_cons in Hc as [->|Hc].
    { unfold test_model_cell. repeat exec1.
      erewrite (bind_Raise (method_fit _ _));
        [| eapply method_fit_unbound; cbn [globals]; by simplify_map_eq ].
      done. }
    by apply elem_of_nil in Hc.
Qed.

Lemma cells_run_out_of_order_raise_NameError_witness :
  globals fresh !! "data" = None /\
  unshadowed fresh /\
  globals fresh !! "features_train" = None /\
  split_cell Small.graded fresh = (Raise (NameError "data"), fresh) /\
  (test_model_cell Small.graded fresh).1
    = Raise (NameError "features_train").
Proof.
  assert (unshadowed fresh) as Hun by (intros x _; reflexivity).
  split; [reflexivity|]. split; [exact Hun|]. split; [reflexivity|]. split.
  - apply (cells_run_out_of_order_raise_NameError Small.graded fresh).
    reflexivity.
  - apply (proj2 (cells_run_out_of_order_raise_NameError Small.graded fresh)
             Hun eq_refl).
    unfold later_cells. listed.
Defined.

(** ** A candidate that fails *)

Lemma for_in_app x cs1 cs2 body s s1 :
  for_in x cs1 body s = (Ok tt, s1) ->
  for_in x (cs1 ++ cs2) body s = for_in x cs2 body s1.
Proof.
  revert s. induction cs1 as [|c cs1 IH]; intros s; cbn [for_in app].
  - by intros [= ->].
  - unfold mbind, M_bind. cbn.
    destruct (body _) as [[[]|e] s']; [|done]. apply IH.
Qed.

Lemma evaluate_Raise lib P e post X y ex :
  evaluate lib P e post X y = Raise ex ->
  fit lib e (features_train P) (target_train P) = Raise ex \/
  fit lib e (features_train P) (target_train P) = Ok tt /\
  (predict lib e (features_train P, target_train P) X = Raise ex \/
   exists p, predict lib e (features_train P, target_train P) X = Ok p /\
             accuracy_score y (post p) = Raise ex).
Proof.
  unfold evaluate. destruct (fit _ _ _ _) as [[]|]; [|intros [= ->]; by left].
  destruct (predict _ _ _ _) as [p|]; [|intros [= ->]; right; by eauto].
  right. eauto.
Qed.

Section FailingCandidate.
Context (lib : Library).

(** The statements of a sweep body up to the score, when the evaluation
    of the configuration raises. *)
Lemma evaluation_raise P e ex s (k : Q -> M unit) :
  bound P (globals s) ->
  globals s !! "model" = Some (VModel (mkModel e None)) ->
  validation_accuracy lib P e = Raise ex ->
  exists s',
    (method_fit lib "model";;
     p ← method_predict lib "model" "features_valid";
     assign "predictions_valid" (VSeries p);;
     a ← call_accuracy_score "target_valid" "predictions_valid";
     k a) s = (Raise ex, s') /\
    stdout s' = stdout s /\
    unchanged_outside ["model"; "predictions_valid"] s s'.
Proof.
  intros (HXtr & Hytr & HXva & Hyva & HXte & Hyte) Hm
    [Hfit|[Hfit [Hpred|(p & Hpred & Hacc)]]]%evaluate_Raise.
  - erewrite (bind_Raise (method_fit _ _));
      [|by eapply method_fit_raise].
    exists s. split; [done|]. split; [done|]. apply unchanged_outside_refl.
  - erewrite (bind_Ok (method_fit _ _));
      [|by eapply method_fit_run].
    erewrite (bind_Raise (method_predict _ _ _)); cycle 1.
    { eapply method_predict_raise; cbn [globals]; simplify_map_eq; eauto. }
    eexists. split; [done|]. split; [done|].
    intros x Hx. cbn [globals]. rewrite lookup_insert_ne; [done|].
    intros <-. apply Hx. listed.
  - erewrite (bind_Ok (method_fit _ _));
      [|by eapply method_fit_run].
    erewrite (bind_Ok (method_predict _ _ _)); cycle 1.
    { eapply method_predict_run; cbn [globals]; simplify_map_eq; eauto. }
    repeat exec1.
    erewrite (bind_Raise (call_accuracy_score _ _)); cycle 1.
    { eapply call_accuracy_score_raise; cbn [globals]; simplify_map_eq;
        eauto. }
    eexists. split; [done|]. split; [done|].
    intros x Hx. cbn [globals]. rewrite !lookup_insert_ne; [done| |];
      intros <-; apply Hx; listed.
Qed.

Lemma decision_tree_body_raise P s c ex :
  bound P (globals s) ->
  globals s !! "depth" = Some (VInt c) ->
  validation_accuracy lib P (DecisionTreeClassifier 12345 c) = Raise ex ->
  exists s',
    decision_tree_body lib s = (Raise ex, s') /\
    stdout s' = stdout s /\
    unchanged_outside ["model"; "predictions_valid"] s s'.
Proof.
  intros HP Hd Hacc. unfold decision_tree_body. repeat exec1.
  edestruct (evaluation_raise P (DecisionTreeClassifier 12345 c) ex
    (mkState (<["model" := VModel (mkModel (DecisionTreeClassifier 12345 c)
                                     None)]> (globals s)) (stdout s)))
    as (s' & Hrun & Hout & Hw);
    [by apply bound_insert; [fresh_name|] | apply lookup_insert_eq | done |].
  rewrite Hrun. exists s'. split; [done|]. split; [done|].
  intros x Hx. rewrite (Hw x Hx). cbn [globals].
  rewrite lookup_insert_ne; [done|]. intros <-. apply Hx. listed.
Qed.

Lemma random_forest_body_raise P s c ex :
  bound P (globals s) ->
  globals s !! "est" = Some (VInt c) ->
  globals s !! "depth" = Some (VInt 3) ->
  validation_accuracy lib P (RandomForestClassifier 12345 c 3) = Raise ex ->
  exists s',
    random_forest_body lib s = (Raise ex, s') /\
    stdout s' = stdout s /\
    unchanged_outside ["model"; "predictions_valid"] s s'.
Proof.
  intros HP Hc Hd Hacc. unfold random_forest_body. repeat exec1.
  edestruct (evaluation_raise P (RandomForestClassifier 12345 c 3) ex
    (mkState (<["model" := VModel (mkModel (RandomForestClassifier 12345 c 3)
                                     None)]> (globals s)) (stdout s)))
    as (s' & Hrun & Hout & Hw);
    [by apply bound_insert; [fresh_name|] | apply lookup_insert_eq | done |].
  rewrite Hrun. exists s'. split; [done|]. split; [done|].
  intros x Hx. rewrite (Hw x Hx). cbn [globals].
  rewrite lookup_insert_ne; [done|]. intros <-. apply Hx. listed.
Qed.

End FailingCandidate.

(** X13.  When the evaluation of a candidate raises (in [fit], in
    [predict] or in [accuracy_score]) the sweep ends there with that
    exception.  The console then shows the lines of the candidates before
    it and no summary, and the bookkeeping names hold the best of those
    candidates; the candidates after it are never tried. *)
Theorem a_failing_candidate_ends_the_sweep (lib : Library) (P : partitions)
    (s : state) (acc : Z -> Q) (before after : list Z) (c : Z) (e : exn) :
  bound P (globals s) ->
  (range 1 6 1 = (before ++ c :: after)%list ->
   (forall c', c' ∈ before ->
      validation_accuracy lib P (DecisionTreeClassifier 12345 c')
        = Ok (acc c')) ->
   validation_accuracy lib P (DecisionTreeClassifier 12345 c) = Raise e ->
   exists s',
     decision_tree_cell lib s = (Raise e, s') /\
     stdout s' = (stdout s ++ decision_tree_lines acc before 0 (VInt 0))%list /\
     globals s' !! "best_accuracy" =
       Some (best_value acc (VInt 0) (best_seen acc before 0 None).2) /\
     globals s' !! "best_depth" =
       selected (Some (VInt 0)) (best_seen acc before 0 None).2) /\
  ((forall c', c' ∈ before ->
      validation_accuracy lib P (RandomForestClassifier 12345 c' 3)
        = Ok (acc c')) ->
   validation_accuracy lib P (RandomForestClassifier 12345 c 3) = Raise e ->
   exists s',
     random_forest_cell lib (before ++ c :: after) s = (Raise e, s') /\
     stdout s' = (stdout s ++ random_forest_lines acc before)%list /\
     globals s' !! "best_accuracy" =
       Some (best_value acc (VInt 0) (best_seen acc before 0 None).2) /\
     globals s' !! "best_est" =
       selected (globals s !! "best_est") (best_seen acc before 0 None).2).
Proof.
  intros HP. split.
  - intros Hcs Hacc He. unfold decision_tree_cell. rewrite Hcs.
    repeat exec1.
    edestruct (decision_tree_loop_run lib P acc before
      (mkState (<["best_depth" := VInt 0]>
                  (<["best_accuracy" := VInt 0]> (globals s))) (stdout s))
      0%Q None (VInt 0) (VInt 0))
      as (s1 & Hrun & HP1 & Hba & _ & Hbd & Hout);
      [ by do 2 (apply bound_insert; [fresh_name|])
      | by simplify_map_eq | done | by simplify_map_eq | done | ].
    destruct (decision_tree_body_raise lib P
                (mkState (<["depth" := VInt c]> (globals s1)) (stdout s1))
                c e)
      as (s2 & Hrun2 & Hout2 & Hw);
      [ by apply bound_insert; [fresh_name|] | apply lookup_insert_eq
      | done | ].
    exists s2. split.
    { apply bind_Raise. rewrite (for_in_app _ _ _ _ _ _ Hrun).
      cbn [for_in]. repeat exec1. by apply bind_Raise. }
    split; [by rewrite Hout2, Hout|].
    rewrite !Hw by known. cbn [globals].
    by rewrite !lookup_insert_ne by done.
  - intros Hacc He. unfold random_forest_cell. repeat exec1.
    edestruct (random_forest_loop_run lib P acc before
      (mkState (<["depth" := VInt 3]> (<["best_estimators" := VInt 0]>
                  (<["best_accuracy" := VInt 0]> (globals s)))) (stdout s))
      0%Q None (VInt 0) (globals s !! "best_est"))
      as (s1 & Hrun & HP1 & Hba & _ & Hbe & Hout & _);
      [ by do 3 (apply bound_insert; [fresh_name|])
      | by simplify_map_eq | by simplify_map_eq | done
      | cbn [globals]; by rewrite !lookup_insert_ne by done | done | ].
    assert (globals s1 !! "depth" = Some (VInt 3)) as Hd1.
    { pose proof (writes_only ("est" :: random_forest_body_writes)
                    (for_in "est" before (random_forest_body lib))
                    (mkState (<["depth" := VInt 3]>
                       (<["best_estimators" := VInt 0]>
                          (<["best_accuracy" := VInt 0]> (globals s))))
                       (stdout s))) as Hw.
      rewrite Hrun in Hw. rewrite Hw.
      - cbn [globals]. apply lookup_insert_eq.
      - intros s0.
        apply (yields_for_in _ (fun x _ => x ∈ _)
                 (unchanged_outside_assign _ s0)); [intros; listed|].
        apply writes_random_forest_body. intros x Hx. by right.
      - unfold random_forest_body_writes. known. }
    destruct (random_forest_body_raise lib P
                (mkState (<["est" := VInt c]> (globals s1)) (stdout s1))
                c e)
      as (s2 & Hrun2 & Hout2 & Hw);
      [ by apply bound_insert; [fresh_name|] | apply lookup_insert_eq
      | cbn [globals]; by rewrite lookup_insert_ne by done | done | ].
    exists s2. split.
    { apply bind_Raise. rewrite (for_in_app _ _ _ _ _ _ Hrun).
      cbn [for_in]. repeat exec1. by apply bind_Raise. }
    split; [by rewrite Hout2, Hout|].
    rewrite !Hw by known. cbn [globals].
    by rewrite !lookup_insert_ne by done.
Qed.

Lemma a_failing_candidate_ends_the_sweep_witness :
  bound (split_parts Faulty.library) (globals (after_split Faulty.library)) /\
  validation_accuracy Faulty.library (split_parts Faulty.library)
    (DecisionTreeClassifier 12345 3) = Raise (ValueError "fit") /\
  exists s',
    decision_tree_cell Faulty.library (after_split Faulty.library)
      = (Raise (ValueError "fit"), s') /\
    stdout s' =
      (stdout (after_split Faulty.library) ++
       [ [VStr "max_depth ="; VInt 0; VStr ": "; VFloat (2 # 2)];
         [VStr "max_depth ="; VInt 1; VStr ": "; VFloat (2 # 2)] ])%list /\
    globals s' !! "best_accuracy" = Some (VFloat (2 # 2)) /\
    globals s' !! "best_depth" = Some (VInt 1).
Proof.
  assert (bound (split_parts Faulty.library)
            (globals (after_split Faulty.library))) as HP
    by (vm_compute; repeat split).
  split; [exact HP|]. split; [vm_compute; reflexivity|].
  apply (proj1 (a_failing_candidate_ends_the_sweep Faulty.library _ _
                  (fun _ => 2 # 2) [1; 2]%Z [4; 5]%Z 3%Z _ HP)).
  - reflexivity.
  - intros c Hc. candidates Hc ltac:(vm_compute; reflexivity).
  - vm_compute; reflexivity.
Defined.

(** ** The whole run *)

Lemma best_est_unbound_before_the_forests lib s :
  globals s !! "best_est" = None ->
  globals (decision_tree_cell lib (split_cell lib (load_cell lib s).2).2).2
    !! "best_est" = None.
Proof.
  intros Hbe.
  rewrite (writes_only decision_tree_writes); cycle 1.
  { intros s0. by apply writes_decision_tree_cell. }
  { unfold decision_tree_writes. known. }
  rewrite (writes_only split_writes); cycle 1.
  { intros s0. by apply writes_split_cell. }
  { unfold split_writes. known. }
  rewrite (writes_only load_writes); cycle 1.
  { intros s0. by apply writes_load_cell. }
  { unfold load_writes. known. }
  exact Hbe.
Qed.

(** X14.  A run of the whole notebook in a kernel where only the import
    cell has run, when the file loads, the split succeeds and every
    evaluation returns its accuracy.  If some candidate of the first forest
    sweep scores above 0 the run completes and the console holds, in this
    order: the [info] lines, the three size lines (each with the row count
    of its partition and the float product [3214 * 0.6] or [3214 * 0.2]),
    five decision-tree lines and their summary, five and then twenty forest
    lines each with its summary, the regression line and the test line --
    44 lines after those of [info].  Otherwise the run ends in the first
    forest sweep with [NameError] for [best_est], after the first two lines
    of that summary. *)
Theorem console_of_a_complete_run (lib : Library) (d : DataFrame)
    (P : partitions) (acc_tree acc_forest : Z -> Q) (a_regression a_test : Q) :
  read_csv lib "/datasets/users_behavior.csv" = Ok d ->
  split_of lib d = Ok P ->
  (forall c, c ∈ range 1 6 1 ->
     validation_accuracy lib P (DecisionTreeClassifier 12345 c)
       = Ok (acc_tree c)) ->
  (forall c, c ∈ (range 10 51 10 ++ range 1 21 1)%list ->
     validation_accuracy lib P (RandomForestClassifier 12345 c 3)
       = Ok (acc_forest c)) ->
  evaluate lib P LinearRegression (binarize (5 # 10))
    (features_valid P) (target_valid P) = Ok a_regression ->
  test_accuracy lib P (RandomForestClassifier 12345 15 3) = Ok a_test ->
  ((notebook lib fresh).1 = Ok tt <->
   exists c, c ∈ range 10 51 10 /\ (0 < acc_forest c)%Q) /\
  match (best_seen acc_forest (range 10 51 10) 0 None).2 with
  | Some c1 =>
      (notebook lib fresh).1 = Ok tt /\
      stdout (notebook lib fresh).2
        = transcript lib d P acc_tree acc_forest a_regression a_test c1 /\
      length (stdout (notebook lib fresh).2)
        = (length (info lib d) + 44)%nat
  | None =>
      (notebook lib fresh).1 = Raise (NameError "best_est") /\
      stdout (notebook lib fresh).2
        = (transcript_to_first_sweep lib d P acc_tree acc_forest ++
           [ []; [VStr "Best Parameters"] ])%list
  end.
Proof.
  intros Hd HP Htree Hforest Hreg Htest.
  assert (match (best_seen acc_forest (range 10 51 10) 0 None).2 with
          | Some c1 =>
              (notebook lib fresh).1 = Ok tt /\
              stdout (notebook lib fresh).2
                = transcript lib d P acc_tree acc_forest a_regression a_test
                    c1
          | None =>
              (notebook lib fresh).1 = Raise (NameError "best_est") /\
              stdout (notebook lib fresh).2
                = (transcript_to_first_sweep lib d P acc_tree acc_forest ++
                   [ []; [VStr "Best Parameters"] ])%list
          end) as Hrun.
  { pose proof (best_est_unbound_before_the_forests lib fresh eq_refl) as Hbe.
    unfold notebook, cells, later_cells. cbn [run_cells].
    rewrite (load_cell_run lib d fresh Hd) in Hbe. cbn [snd] in Hbe.
    erewrite !(bind_Ok (load_cell lib)) by (by apply load_cell_run).
    destruct (split_cell_run lib d P
                (mkState (<["data" := VFrame d]> (globals fresh))
                   (stdout fresh ++ info lib d)%list))
      as (s2 & Hrun2 & HP2 & _ & Hout2); [apply lookup_insert_eq | done |].
    rewrite Hrun2 in Hbe. cbn [snd] in Hbe.
    erewrite !(bind_Ok (split_cell lib)) by exact Hrun2.
    destruct (decision_tree_cell_run lib P acc_tree s2 HP2 Htree)
      as (s3 & Hrun3 & HP3 & _ & _ & Hout3).
    rewrite Hrun3 in Hbe. cbn [snd] in Hbe.
    erewrite !(bind_Ok (decision_tree_cell lib)) by exact Hrun3.
    destruct (random_forest_cell_run lib P acc_forest (range 10 51 10) s3 HP3)
      as (s4 & Hrun4 & HP4 & _ & Hbe4 & _).
    { intros c Hc. apply Hforest, elem_of_app. by left. }
    rewrite Hbe in Hrun4, Hbe4.
    destruct (best_seen acc_forest (range 10 51 10) 0 None).2 as [c1|] eqn:Hsel;
      cbn [selected] in Hrun4, Hbe4; destruct Hrun4 as [Hrun4 Hout4].
    2:{ erewrite !(bind_Raise (random_forest_cell lib _)) by exact Hrun4.
        split; [done|]. cbn [snd]. rewrite Hout4, Hout3, Hout2.
        unfold transcript_to_first_sweep, size_lines, decision_tree_summary.
        cbn [stdout fresh]. by rewrite <- !app_assoc. }
    erewrite !(bind_Ok (random_forest_cell lib _)) by exact Hrun4.
    destruct (random_forest_cell_run lib P acc_forest (range 1 21 1) s4 HP4)
      as (s5 & Hrun5 & HP5 & _).
    { intros c Hc. apply Hforest, elem_of_app. by right. }
    rewrite Hbe4 in Hrun5.
    assert (selected (Some (VInt c1))
              (best_seen acc_forest (range 1 21 1) 0 None).2
            = Some (VInt (default c1
                            (best_seen acc_forest (range 1 21 1) 0 None).2)))
      as Hsel2.
    { destruct (best_seen acc_forest (range 1 21 1) 0 None) as [b2 [c2|]];
        reflexivity. }
    rewrite Hsel2 in Hrun5. destruct Hrun5 as [Hrun5 Hout5].
    erewrite !(bind_Ok (random_forest_cell lib _)) by exact Hrun5.
    destruct (linear_regression_cell_run lib P a_regression s5 HP5 Hreg)
      as (s6 & p & Hrun6 & HP6 & _ & _ & _ & _ & Hout6).
    erewrite !(bind_Ok (linear_regression_cell lib)) by exact Hrun6.
    destruct (test_model_cell_run lib P a_test s6 HP6 Htest)
      as (s7 & Hrun7 & _ & _ & _ & Hout7).
    erewrite !(bind_Ok (test_model_cell lib)) by exact Hrun7.
    unfold mret, M_ret. cbn [fst snd]. split; [done|].
    rewrite Hout7, Hout6, Hout5, Hout4, Hout3, Hout2.
    unfold transcript, transcript_to_first_sweep, size_lines,
      decision_tree_summary, random_forest_summary.
    cbn [stdout fresh]. by rewrite Hsel, <- !app_assoc. }
  split.
  - destruct (best_seen acc_forest (range 10 51 10) 0 None).2 as [c1|] eqn:Hsel.
    + destruct Hrun as [-> _]. split; [|done]. intros _.
      exists c1. by apply best_seen_selected.
    + destruct Hrun as [-> _]. split; [done|]. intros (c & Hc & Hpos).
      by destruct (best_seen_positive acc_forest (range 10 51 10) c).
  - destruct (best_seen acc_forest (range 10 51 10) 0 None).2 as [c1|];
      [|exact Hrun].
    destruct Hrun as [Hok Hout]. repeat (split; [done|]).
    rewrite Hout. unfold transcript, transcript_to_first_sweep.
    rewrite !length_app. unfold random_forest_lines. rewrite !length_fmap.
    assert (forall cs b v,
              length (decision_tree_lines acc_tree cs b v) = length cs) as Hl.
    { induction cs as [|c cs IH]; intros b v; cbn; [done|].
      destruct (Qgt_bool _ _); by rewrite IH. }
    rewrite Hl.
    change (length (range 1 6 1)) with 5%nat.
    change (length (range 10 51 10)) with 5%nat.
    change (length (range 1 21 1)) with 20%nat.
    unfold size_lines, decision_tree_summary, random_forest_summary.
    cbn [length]. lia.
Qed.

Lemma console_of_a_complete_run_witness :
  read_csv Small.seven_rows "/datasets/users_behavior.csv"
    = Ok (Small.dataset 7) /\
  split_of Small.seven_rows (Small.dataset 7)
    = Ok (split_parts Small.seven_rows) /\
  (notebook Small.seven_rows fresh).1 = Ok tt /\
  stdout (notebook Small.seven_rows fresh).2
    = transcript Small.seven_rows (Small.dataset 7)
        (split_parts Small.seven_rows) (fun _ => 2 # 2) (fun _ => 2 # 2)
        (2 # 2) (2 # 2) 10 /\
  length (stdout (notebook Small.seven_rows fresh).2) = 44%nat.
Proof.
  split; [reflexivity|]. split; [vm_compute; reflexivity|].
  refine (proj2 (console_of_a_complete_run Small.seven_rows (Small.dataset 7)
                   (split_parts Small.seven_rows) (fun _ => 2 # 2)
                   (fun _ => 2 # 2) (2 # 2) (2 # 2) _ _ _ _ _ _)).
  - reflexivity.
  - vm_compute; reflexivity.
  - intros c Hc. change (range 1 6 1) with [1; 2; 3; 4; 5]%Z in Hc.
    candidates Hc ltac:(vm_compute; reflexivity).
  - intros c Hc.
    change (range 10 51 10 ++ range 1 21 1)%list
      with [10; 20; 30; 40; 50; 1; 2; 3; 4; 5; 6; 7; 8; 9; 10; 11; 12; 13;
            14; 15; 16; 17; 18; 19; 20]%Z in Hc.
    candidates Hc ltac:(vm_compute; reflexivity).
  - vm_compute; reflexivity.
  - vm_compute; reflexivity.
Defined.

(** ** What the models are given *)

Lemma take_rows_subset {A} (idx : list nat) (l l' : list A) :
  take_rows idx l = Ok l' -> l' ⊆ l.
Proof.
  rewrite take_rows_Ok. intros H x Hx.
  apply list_elem_of_lookup in Hx as [k Hk].
  destruct (Forall2_lookup_r _ _ _ _ _ H Hk) as (i & _ & Hi).
  by eapply list_elem_of_lookup_2.
Qed.

Lemma train_test_split_frames lib X y t seed Xtr Xte ytr yte :
  train_test_split lib X y t seed = Ok (Xtr, Xte, ytr, yte) ->
  df_columns Xtr = df_columns X /\ df_columns Xte = df_columns X /\
  df_rows Xtr ⊆ df_rows X /\ df_rows Xte ⊆ df_rows X.
Proof.
  unfold train_test_split.
  destruct (negb _); [done|]. destruct (_ =? 0)%nat; [done|].
  destruct (take_rows _ (df_rows X)) as [rtr|] eqn:H1; [|done].
  destruct (take_rows _ (df_rows X)) as [rte|] eqn:H2 in |- *; [|done].
  destruct (take_rows _ y) as [ytr'|]; [|done].
  destruct (take_rows _ y) as [yte'|]; [|done].
  intros [= <- <- <- <-]. cbn.
  repeat split; by eapply take_rows_subset.
Qed.

Lemma split_cell_Ok lib s :
  (split_cell lib s).1 = Ok tt ->
  exists d P,
    globals s !! "data" = Some (VFrame d) /\ split_of lib d = Ok P /\
    bound P (globals (split_cell lib s).2).
Proof.
  intros Hok. destruct (globals s !! "data") as [v|] eqn:Hd.
  2:{ unfold split_cell in Hok.
      erewrite bind_Raise in Hok by (by apply name_None). done. }
  assert (exists d, v = VFrame d) as [d ->].
  { destruct v; eauto; unfold split_cell in Hok; repeat exec1;
      erewrite (bind_Ok (name _)) in Hok by (by apply name_Some);
      erewrite bind_Raise in Hok by reflexivity; done. }
  exists d. destruct (split_of lib d) as [P|e] eqn:HP.
  - exists P. destruct (split_cell_run lib d P s Hd HP) as (s' & -> & ? & _).
    done.
  - destruct (split_cell_raise lib d e s Hd HP) as [Hr _].
    rewrite Hr in Hok. done.
Qed.

(** X15.  On data with distinct column names, whenever the split cell
    returns, the three feature frames it binds have the columns of the data
    without the label column, and each of their rows is a row of the data
    with the label cell removed: no model is ever given [is_ultra] among
    its features. *)
Theorem label_is_never_a_feature (lib : Library) (s : state)
    (d : DataFrame) :
  globals s !! "data" = Some (VFrame d) ->
  NoDup (df_columns d) ->
  (split_cell lib s).1 = Ok tt ->
  exists i P,
    df_columns d !! i = Some "is_ultra" /\
    (forall j, df_columns d !! j = Some "is_ultra" -> j = i) /\
    bound P (globals (split_cell lib s).2) /\
    Forall (fun X =>
              df_columns X = delete i (df_columns d) /\
              ("is_ultra" ∉ df_columns X) /\
              (forall r, r ∈ df_rows X ->
                 exists row, row ∈ df_rows d /\ r = delete i row))
      [features_train P; features_valid P; features_test P].
Proof.
  intros Hdata Hnd (d' & P & Hd & HP & Hb)%split_cell_Ok.
  rewrite Hdata in Hd. injection Hd as <-.
  unfold split_of in HP. unfold df_drop in HP.
  destruct (column_index "is_ultra" d) as [i|] eqn:Hi; [|done].
  apply column_index_Some in Hi as [Hi _].
  destruct (df_getitem "is_ultra" d) as [y|]; [|done].
  destruct (train_test_split lib _ y _ _) as [[[[Xtv Xte] ytv] yte]|] eqn:H1;
    [|done].
  destruct (train_test_split lib Xtv ytv _ _) as [[[[Xtr Xva] ytr] yva]|] eqn:H2;
    [|done].
  injection HP as <-.
  apply train_test_split_frames in H1 as (Hc1 & Hc2 & Hr1 & Hr2).
  apply train_test_split_frames in H2 as (Hc3 & Hc4 & Hr3 & Hr4).
  cbn in Hc1, Hc2, Hr1, Hr2.
  exists i, (mkPartitions Xtr ytr Xva yva Xte yte).
  split; [done|]. split; [intros j Hj; by eapply NoDup_lookup|].
  split; [done|].
  assert (forall X, df_columns X = delete i (df_columns d) ->
            df_rows X ⊆ delete i <$> df_rows d ->
            df_columns X = delete i (df_columns d) /\
            ("is_ultra" ∉ df_columns X) /\
            (forall r, r ∈ df_rows X ->
               exists row, row ∈ df_rows d /\ r = delete i row)) as Hall.
  { intros X Hc Hr. split; [done|]. split.
    - rewrite Hc. by apply delete_NoDup_absent.
    - intros r Hin. apply Hr, list_elem_of_fmap in Hin as (row & -> & Hrow).
      eauto. }
  cbn. apply Forall_cons. split.
  { apply Hall; [congruence|]. intros r Hin. exact (Hr1 r (Hr3 r Hin)). }
  apply Forall_cons. split.
  { apply Hall; [congruence|]. intros r Hin. exact (Hr1 r (Hr4 r Hin)). }
  apply Forall_cons. split; [|by apply Forall_nil].
  by apply Hall.
Qed.

Lemma label_is_never_a_feature_witness :
  let s := (load_cell Small.seven_rows fresh).2 in
  globals s !! "data" = Some (VFrame (Small.dataset 7)) /\
  NoDup (df_columns (Small.dataset 7)) /\
  (split_cell Small.seven_rows s).1 = Ok tt /\
  exists i P,
    df_columns (Small.dataset 7) !! i = Some "is_ultra" /\
    bound P (globals (split_cell Small.seven_rows s).2) /\
    df_columns (features_train P) = delete i (df_columns (Small.dataset 7)) /\
    ("is_ultra" ∉ df_columns (features_train P)).
Proof.
  intros s.
  assert (globals s !! "data" = Some (VFrame (Small.dataset 7))) as Hd
    by reflexivity.
  assert (NoDup (df_columns (Small.dataset 7))) as Hnd
    by (apply (bool_decide_unpack (NoDup (df_columns (Small.dataset 7))));
        vm_compute; exact I).
  assert ((split_cell Small.seven_rows s).1 = Ok tt) as Hok
    by (vm_compute; reflexivity).
  split; [exact Hd|]. split; [exact Hnd|]. split; [exact Hok|].
  destruct (label_is_never_a_feature _ _ _ Hd Hnd Hok)
    as (i & P & Hi & _ & Hb & HF).
  apply Forall_cons in HF as [(Hc & Hno & _) _].
  exists i, P.
  split; [exact Hi|]. split; [exact Hb|]. split; [exact Hc|exact Hno].
Defined.

